(** * pyp2rpm: metadata extraction, descriptor sandbox and overlays

    A shallow embedding of [command/extract_dist.py],
    [pyp2rpm/module_runners.py] and [pyp2rpm/metadata_extractors.py].

    Python values are an inductive type, objects are finite maps from
    attribute names to values, and a call that can raise returns a
    [result].  Python [str] is modelled by [string], one [ascii] per
    character; [str.lower] is the ASCII lower-casing. *)

From Stdlib Require Import ZArith List String Ascii Bool Lia Permutation.
From stdpp Require Import base option gmap strings list.

Open Scope Z_scope.
Set Warnings "-register-all".

(** ** Python core: strings *)

Module Py.

(** the line break and the line feed as a one-character string *)
Definition LF_char : ascii := "010"%char.
Definition LF : string := String LF_char EmptyString.
Definition CR : string := String "013"%char EmptyString.

Definition lower_ascii (c : ascii) : ascii :=
  let n := nat_of_ascii c in
  if (65 <=? n)%nat && (n <=? 90)%nat then ascii_of_nat (n + 32) else c.

(** [str.lower()] *)
Fixpoint lower (s : string) : string :=
  match s with
  | EmptyString => EmptyString
  | String c s' => String (lower_ascii c) (lower s')
  end.

(** [sub in s] for two strings *)
Definition str_in (sub s : string) : bool :=
  match String.index 0 sub s with Some _ => true | None => false end.

(** [s.find(sub, start)] for [start >= 0] *)
Definition find (sub : string) (start : nat) (s : string) : Z :=
  match String.index start sub s with
  | Some i => Z.of_nat i
  | None => -1
  end.

(** [s[:stop]]; a negative [stop] counts from the end *)
Definition slice_to (stop : Z) (s : string) : string :=
  if stop <? 0
  then String.substring 0 (Z.to_nat (Z.of_nat (String.length s) + stop)) s
  else String.substring 0 (Z.to_nat stop) s.

(** [s.endswith(suf)] *)
Definition endswith (suf s : string) : bool :=
  let n := String.length s in
  let k := String.length suf in
  (k <=? n)%nat && String.eqb (String.substring (n - k) k s) suf.

(** [s.split(sep)] for a non-empty separator: a left-to-right scan for
    non-overlapping occurrences.  [skip] counts the characters of the
    occurrence just found that are still to be passed over; [cur] is the
    piece being read, reversed. *)
Fixpoint split_go (sep : string) (skip : nat) (cur : string) (s : string)
  : list string :=
  match s with
  | EmptyString => [String.rev cur]
  | String c s' =>
      match skip with
      | S k => split_go sep k cur s'
      | O =>
          if String.prefix sep s
          then String.rev cur :: split_go sep (String.length sep - 1) EmptyString s'
          else split_go sep O (String c cur) s'
      end
  end.

Definition split (sep s : string) : list string := split_go sep O EmptyString s.

(** [sep.join(l)] *)
Definition join (sep : string) (l : list string) : string := String.concat sep l.

(** ** Python core: values, exceptions, results *)

(** The values that occur in the program: [None], booleans, integers,
    strings, lists, tuples, sets of strings and dictionaries with string
    keys (kept in insertion order). *)
Inductive pyval : Type :=
| PNone
| PBool (b : bool)
| PInt (z : Z)
| PStr (s : string)
| PList (l : list pyval)
| PTuple (l : list pyval)
| PSet (s : gset string)
| PDict (d : list (string * pyval)).

(** The exception classes that the three source files raise or let
    through.  [SandboxExecutionError] is the class the specification
    names for the sandbox runner; no statement of the sources raises it. *)
Inductive exn : Type :=
| AttributeError
| TypeError
| ValueError
| KeyError
| IndexError
| UnicodeDecodeError
| JSONDecodeError
| SystemExit (code : Z)
| VirtualenvFailException
| SandboxExecutionError
| OtherError (name : string).

Inductive result (A : Type) : Type :=
| Ok (a : A)
| Raise (e : exn).
Arguments Ok {A} a.
Arguments Raise {A} e.

#[global] Instance result_ret : MRet result := fun _ a => Ok a.
#[global] Instance result_bind : MBind result := fun _ _ f m =>
  match m with Ok a => f a | Raise e => Raise e end.

Definition is_ok {A} (r : result A) : bool :=
  match r with Ok _ => true | Raise _ => false end.

(** [for x in xs: body], the loop state passed along, left at the first
    exception *)
Fixpoint for_each {S X : Type} (body : S -> X -> result S) (xs : list X) (s : S)
  : result S :=
  match xs with
  | [] => Ok s
  | x :: xs' =>
      match body s x with
      | Ok s' => for_each body xs' s'
      | Raise e => Raise e
      end
  end.

(** [a == b] *)
Fixpoint pyeq (a b : pyval) {struct a} : bool :=
  let fix eq_list (x y : list pyval) {struct x} : bool :=
    match x, y with
    | [], [] => true
    | u :: x', v :: y' => pyeq u v && eq_list x' y'
    | _, _ => false
    end in
  let fix eq_items (x : list (string * pyval)) (y : list (string * pyval))
      {struct x} : bool :=
    match x with
    | [] => true
    | (k, u) :: x' =>
        match List.find (fun kv => String.eqb (fst kv) k) y with
        | Some (_, v) => pyeq u v && eq_items x' y
        | None => false
        end
    end in
  match a, b with
  | PNone, PNone => true
  | PBool x, PBool y => Bool.eqb x y
  | PBool x, PInt y => Z.eqb (Z.b2z x) y
  | PInt x, PBool y => Z.eqb x (Z.b2z y)
  | PInt x, PInt y => Z.eqb x y
  | PStr x, PStr y => String.eqb x y
  | PList x, PList y => eq_list x y
  | PTuple x, PTuple y => eq_list x y
  | PSet x, PSet y => bool_decide (x = y)
  | PDict x, PDict y => (length x =? length y)%nat && eq_items x y
  | _, _ => false
  end.

(** truth value of [v], as tested by [if v], [v and ...], [v or ...] *)
Definition truthy (v : pyval) : bool :=
  match v with
  | PNone => false
  | PBool b => b
  | PInt z => negb (Z.eqb z 0)
  | PStr s => negb (String.eqb s "")
  | PList l | PTuple l => match l with [] => false | _ => true end
  | PSet s => negb (bool_decide (s = ∅))
  | PDict d => match d with [] => false | _ => true end
  end.

(** [x in l] for a list or tuple [l] *)
Definition elem_in (x : pyval) (l : list pyval) : bool := existsb (pyeq x) l.

(** [d.get(k, default)] for a dictionary given by its items *)
Definition dict_get (k : string) (d : list (string * pyval)) (default : pyval)
  : pyval :=
  match List.find (fun kv => String.eqb (fst kv) k) d with
  | Some (_, v) => v
  | None => default
  end.

Definition chars (s : string) : list pyval :=
  map (fun c => PStr (String c EmptyString)) (list_ascii_of_string s).

(** the elements produced by iterating over [v]: [for x in v], [list(v)],
    [l.extend(v)].  A set is walked in the order of [elements]. *)
Definition iter (v : pyval) : result (list pyval) :=
  match v with
  | PList l | PTuple l => Ok l
  | PStr s => Ok (chars s)
  | PSet s => Ok (map PStr (elements s))
  | PDict d => Ok (map (fun kv => PStr (fst kv)) d)
  | PNone | PBool _ | PInt _ => Raise TypeError
  end.

(** [x in v] for a string [x] *)
Definition contains (x : string) (v : pyval) : result bool :=
  match v with
  | PStr s => Ok (str_in x s)
  | PList l | PTuple l => Ok (elem_in (PStr x) l)
  | PSet s => Ok (bool_decide (x ∈ s))
  | PDict d => Ok (existsb (fun kv => String.eqb (fst kv) x) d)
  | PNone | PBool _ | PInt _ => Raise TypeError
  end.

(** [v.get(k, default)]: only a dictionary has the method *)
Definition py_get (v : pyval) (k : string) (default : pyval) : result pyval :=
  match v with
  | PDict d => Ok (dict_get k d default)
  | _ => Raise AttributeError
  end.

(** [d[k] = v] on the items of a dictionary: an existing key keeps its
    place *)
Fixpoint dict_set (k : string) (v : pyval) (d : list (string * pyval))
  : list (string * pyval) :=
  match d with
  | [] => [(k, v)]
  | (k', v') :: d' =>
      if String.eqb k' k then (k, v) :: d' else (k', v') :: dict_set k v d'
  end.

(** the value that the assignments [d[k] = v], made in the order of
    [items], leave under the key [k]; [before] is what was there *)
Fixpoint last_assigned (k : string) (items : list (string * pyval))
    (before : option pyval) : option pyval :=
  match items with
  | [] => before
  | (k', v) :: items' =>
      last_assigned k items' (if String.eqb k' k then Some v else before)
  end.

(** [set(l)] for a list of strings; the model has sets of strings only,
    any other element is refused with [TypeError] *)
Fixpoint str_set (l : list pyval) : result (gset string) :=
  match l with
  | [] => Ok ∅
  | PStr s :: l' => r ← str_set l'; Ok ({[ s ]} ∪ r)
  | _ :: _ => Raise TypeError
  end.

(** [v[k]] for a string [k] *)
Definition py_getitem (v : pyval) (k : string) : result pyval :=
  match v with
  | PDict d =>
      match List.find (fun kv => String.eqb (fst kv) k) d with
      | Some (_, x) => Ok x
      | None => Raise KeyError
      end
  | _ => Raise TypeError
  end.

(** [v.values()] *)
Definition py_values (v : pyval) : result (list pyval) :=
  match v with
  | PDict d => Ok (map snd d)
  | _ => Raise AttributeError
  end.

(** [a + b] *)
Definition py_add (a b : pyval) : result pyval :=
  match a, b with
  | PList x, PList y => Ok (PList (x ++ y))
  | PTuple x, PTuple y => Ok (PTuple (x ++ y))
  | PStr x, PStr y => Ok (PStr (x +:+ y))
  | PInt x, PInt y => Ok (PInt (x + y))
  | _, _ => Raise TypeError
  end.

(** [v.append(x)]: only a list has the method *)
Definition py_append (v x : pyval) : result pyval :=
  match v with
  | PList l => Ok (PList (l ++ [x]))
  | _ => Raise AttributeError
  end.

(** the string behind a value on which a [str] method is called *)
Definition as_str (v : pyval) : result string :=
  match v with
  | PStr s => Ok s
  | _ => Raise AttributeError
  end.

(** [[f(x) for x in xs]] *)
Fixpoint map_each {X Y : Type} (f : X -> result Y) (xs : list X) : result (list Y) :=
  match xs with
  | [] => Ok []
  | x :: xs' =>
      match f x with
      | Ok y => match map_each f xs' with Ok ys => Ok (y :: ys) | Raise e => Raise e end
      | Raise e => Raise e
      end
  end.

(** An object is the finite map of its instance attributes. *)
Abbreviation obj := (gmap string pyval).

(** [getattr(o, name, default)] *)
Definition getattr_or (o : obj) (name : string) (default : pyval) : pyval :=
  match o !! name with Some v => v | None => default end.

(** [o.name] *)
Definition getattr (o : obj) (name : string) : result pyval :=
  match o !! name with Some v => Ok v | None => Raise AttributeError end.

(** [setattr(o, name, v)] *)
Definition setattr (o : obj) (name : string) (v : pyval) : obj := <[name := v]> o.

End Py.
Export Py.

(** ** command/extract_dist.py *)

Module ExtractDist.

(** The distribution object that distutils hands to the command: its own
    attributes and those of its [metadata] sub-object. *)
Record Distribution : Type := mkDistribution {
  attrs : obj;
  metadata : obj
}.

Definition set_dist_attr (d : Distribution) (name : string) (v : pyval)
  : Distribution :=
  {| attrs := setattr (attrs d) name v; metadata := metadata d |}.

(** [to_list(var)]; [list(var)] raises [TypeError] on a value that cannot
    be iterated, which the function turns into [ValueError]. *)
Definition to_list (var : pyval) : result pyval :=
  match var with
  | PNone => Ok (PList [])
  | PStr s => Ok (PList (map PStr (split LF s)))
  | PList l => Ok (PList l)
  | _ =>
      match iter var with
      | Ok l => Ok (PList l)
      | Raise _ => Raise ValueError
      end
  end.

(** [to_str(var)] *)
Definition to_str (var : pyval) : pyval :=
  match var with
  | PStr s => PStr s
  | _ => PStr "TODO"
  end.

Definition list_attrs : list string :=
  ["setup_requires"; "tests_require"; "install_requires"; "conflicts";
   "packages"; "py_modules"].

Definition str_attrs : list string :=
  ["url"; "long_description"; "description"; "license"].

Definition is_dict (v : pyval) : bool :=
  match v with PDict _ => true | _ => false end.

(** one step of the loop over the list-like attributes *)
Definition coerce_list_attr (d : Distribution) (attr : string) : result Distribution :=
  v ← to_list (getattr_or (attrs d) attr (PList []));
  Ok (set_dist_attr d attr v).

(** one step of the loop over the free-text attributes *)
Definition coerce_str_attr (d : Distribution) (attr : string) : Distribution :=
  set_dist_attr d attr (to_str (getattr_or (metadata d) attr PNone)).

(** [extract_dist.__init__]: [Command.__init__] stores the distribution
    in [self.distribution]; the three coercion passes and the entry-point
    check follow.  The result is [self.distribution]. *)
Definition init (dist : Distribution) : result Distribution :=
  d1 ← for_each coerce_list_attr list_attrs dist;
  let d2 := fold_left coerce_str_attr str_attrs d1 in
  c ← to_list (getattr_or (metadata d2) "classifiers" (PList []));
  let d3 := set_dist_attr d2 "classifiers" c in
  ep ← getattr (attrs d3) "entry_points";
  if truthy ep && negb (is_dict ep)
  then Ok (set_dist_attr d3 "entry_points" PNone)
  else Ok d3.

(** What a class attribute of [extract_dist] holds: a plain value or a
    distribution object. *)
Inductive slot : Type :=
| SVal (v : pyval)
| SDist (d : Distribution).

(** The attributes of the class [extract_dist] as the class body sets
    them: [description], [user_options] and [class_dist].  The methods
    are left out; the base classes [Command] and [object] define no
    attribute that the runners read. *)
Definition class_body : gmap string slot :=
  {[ "description" :=
       SVal (PStr "Assigns self.distribution to class attribute to make it accessible from outside a class.");
     "user_options" := SVal (PList []);
     "class_dist" := SVal PNone ]}.

(** [extract_dist.<name>] *)
Definition class_getattr (cls : gmap string slot) (name : string) : result slot :=
  match cls !! name with Some v => Ok v | None => Raise AttributeError end.

(** [extract_dist.run]: [extract_dist.class_dist = self.distribution] *)
Definition run (self_distribution : Distribution) (cls : gmap string slot)
  : gmap string slot :=
  <["class_dist" := SDist self_distribution]> cls.

End ExtractDist.

(** ** Logging *)

Inductive level : Type := DEBUG | WARNING | ERROR.

(** A record handed to [logger.debug], [logger.warning] or
    [logger.error]: the level and the message template. *)
Record log_record : Type := mkLog {
  log_level : level;
  log_template : string
}.

Definition subprocess_failed : log_record :=
  mkLog ERROR "Subprocess failed, stdout {0[0]}, stderr: {0[1]}".

Definition communication_warning : log_record :=
  mkLog WARNING "Some kind of error while communicating with client: {0}.".

Definition skipping_debug : log_record :=
  mkLog DEBUG "Skipping virtualenv metadata extraction.".

Definition skipping_venv : log_record :=
  mkLog ERROR "{}, skipping virtualenv metadata extraction.".

(** ** pyp2rpm/module_runners.py *)

Module ModuleRunners.
Import ExtractDist.

(** The state of the interpreter process that the in-process runner
    touches: working directory, [sys.path], [sys.argv] and the attributes
    of the class [extract_dist]. *)
Record Process : Type := mkProcess {
  cwd : string;
  sys_path : list string;
  sys_argv : list string;
  extract_dist_class : gmap string slot
}.

(** A runner after [__init__(module, *args)]. *)
Record ModuleRunner : Type := mkModuleRunner {
  dirname : string;
  filename : string;
  args : list string
}.

(** [ModuleRunner.not_suffixed]: a name that does not end in [py] falls
    off the end of the function, which returns [None]. *)
Definition not_suffixed (module : string) : option string :=
  if endswith "py" module then Some (slice_to (-3) module) else None.

(** A build descriptor is an opaque producer: executed, it either raises
    or reaches [setup()] with a distribution object. *)
Definition descriptor : Type := result Distribution.

(** What [setup()] does with the argument vector [... extract_dist]: the
    command object is created ([extract_dist.__init__]) and run
    ([extract_dist.run]). *)
Definition run_extract_dist (script : descriptor) (cls : gmap string slot)
  : result (gmap string slot) :=
  d ← script;
  d' ← init d;
  Ok (ExtractDist.run d' cls).

(** [ModuleRunner.run].  [modules] tells which descriptor [runpy] finds
    under a module name in the directory put first on [sys.path];
    [runpy] has no module for the [None] of [not_suffixed].
    [utils.ChangeDir] enters [dirname] and goes back on exit;
    [sys.argv[1:] = args] keeps [sys.argv[0]]. *)
Definition run (self : ModuleRunner) (modules : string -> option descriptor)
    (p : Process) : result Process :=
  let path := dirname self :: sys_path p in
  let argv := firstn 1 (sys_argv p) ++ args self in
  match not_suffixed (filename self) with
  | None => Raise AttributeError
  | Some mod_name =>
      match modules mod_name with
      | None => Raise (OtherError "ImportError")
      | Some script =>
          cls ← run_extract_dist script (extract_dist_class p);
          Ok {| cwd := cwd p; sys_path := path; sys_argv := argv;
                extract_dist_class := cls |}
      end
  end.

(** [ModuleRunner.results]: [extract_dist.extract_dist.class_metadata] *)
Definition results (p : Process) : result slot :=
  class_getattr (extract_dist_class p) "class_metadata".

(** The read that [SetupPyMetadataExtractor.__init__] makes after its own
    in-process run: [extract_dist.extract_dist.class_dist]. *)
Definition read_class_dist (p : Process) : result slot :=
  class_getattr (extract_dist_class p) "class_dist".

(** What [Popen(...).communicate()] and [proc.returncode] give back. *)
Record completed : Type := mkCompleted {
  returncode : Z;
  stdout : string;
  stderr : string
}.

Definition marker : string := "extracted json data:" +:+ LF.

Record ExternModuleRunner : Type := mkExtern {
  base : ModuleRunner;
  _result : option pyval
}.

Section Extern.

(** Library and configuration: [bytes.decode('utf-8')], [json.loads],
    [pyp2rpm.main_dir], [settings.PYTHON2_INTERPRETER], and the shell
    that executes a command line in a directory. *)
Variable decode_utf8 : string -> result string.
Variable json_loads : string -> result pyval.
Variable main_dir : string.
Variable PYTHON2_INTERPRETER : string.
Variable shell : string -> string -> completed.

Definition command_list (self : ExternModuleRunner) : list string :=
  [("PYTHONPATH=" +:+ main_dir); PYTHON2_INTERPRETER; filename (base self)]
    ++ args (base self).

(** [ExternModuleRunner.run]: the log as it stands when the method is
    left, and the runner with [_result] set, or the exception. *)
Definition extern_run (self : ExternModuleRunner) (log : list log_record)
  : list log_record * result ExternModuleRunner :=
  let proc := shell (dirname (base self)) (join " " (command_list self)) in
  let log1 :=
    if negb (Z.eqb (returncode proc) 0)
    then log ++ [subprocess_failed]
    else log in
  (log1,
   text ← decode_utf8 (stdout proc);
   v ← json_loads (List.last (split marker text) "");
   Ok {| base := base self; _result := Some v |}).

(** [ExternModuleRunner.results]: [None] while [_result] is unset *)
Definition extern_results (self : ExternModuleRunner) : pyval :=
  match _result self with Some v => v | None => PNone end.

End Extern.

End ModuleRunners.

(** ** pyp2rpm/metadata_extractors.py: collaborators *)

Module MetadataExtractors.
Import ExtractDist.
Import ModuleRunners.

(** The constants of [pyp2rpm.settings] that the module reads. *)
Record Settings : Type := mkSettings {
  DEFAULT_PYTHON_VERSION : string;
  DEFAULT_ADDITIONAL_VERSION : string;
  EXTENSION_SUFFIXES : list string;
  DOC_FILES_RE : list string;
  SPHINX_DIR_RE : string;
  LICENSE_FILES : list string;
  PYPI_USABLE_DATA : list string
}.

(** Functions of the interpreter's library: [re.sub(pattern, repl, text)],
    [re.escape], [textwrap.wrap(text, width)], [os.path.basename], [os.path.dirname],
    [str.strip] and the name [tempfile.mkdtemp] picks for its n-th
    directory. *)
Record Library : Type := mkLibrary {
  re_sub : string -> string -> string -> string;
  re_escape : string -> string;
  textwrap_wrap : string -> nat -> list string;
  os_path_basename : string -> string;
  os_path_dirname : string -> string;
  str_strip : string -> string;
  temp_name : nat -> string
}.

(** Functions of [pyp2rpm.dependency_parser] and [pyp2rpm.utils], and the
    naming convention [name_convertor.rpm_name(name[, python_version])]. *)
Record Collaborators : Type := mkCollaborators {
  deps_from_pyp_format : pyval -> bool -> result (list pyval);
  deps_from_pydit_json : pyval -> bool -> result (list pyval);
  license_from_trove : pyval -> result pyval;
  versions_from_trove : pyval -> result (list pyval);
  remove_major_minor_suffix : pyval -> result pyval;
  rpm_name : string -> option string -> string
}.

(** [pyp2rpm.archive.Archive], read through the methods and properties
    the extractors call. *)
Record Archive : Type := mkArchive {
  has_file_with_suffix : pyval -> bool;
  get_files_re : string -> bool -> bool -> list string;
  get_directories_re : string -> bool -> list string;
  json_wheel_metadata : pyval;
  record : pyval;
  wheel_description : pyval
}.

(** The registry client: the lookup of a release and, for [get_url], the
    query for the archive URL and its checksum. *)
Record Client : Type := mkClient {
  release_data : string -> string -> result pyval;
  download_url_and_checksum : string -> string -> result (pyval * pyval)
}.

(** [pyp2rpm.virtualenv], when the import succeeded: the constructor
    [VirtualEnv(name, temp_dir, name_convertor, base_python_version)] and
    the property [get_venv_data] of the object it builds. *)
Record VirtualenvModule : Type := mkVirtualenvModule {
  venv_object : Type;
  VirtualEnv : string -> string -> (string -> option string -> string) -> string
               -> result venv_object;
  get_venv_data : venv_object -> result (list (string * pyval))
}.

(** Modelled from the spec: [package_getters.get_url] is not among the
    sources.  The registry client of the specification answers
    [download_url_and_checksum(name, version) -> (url, digest)]; [get_url]
    is that query. *)
Definition get_url (client : Client) (name version : string)
  : result (pyval * pyval) :=
  download_url_and_checksum client name version.

(** Modelled from the spec: the class [PackageData] is not among the
    sources.  The record holds its fields in the dictionary [data.data];
    a field that was never written reads as the sentinel ["TODO:"];
    [set_from(d)] writes every field of [d], and [set_from(d, update=True)]
    is the force-update of the merge policy, where the value of [d] always
    wins. *)
Abbreviation PackageData := (gmap string pyval).

Definition new_PackageData (local_file name pkg_name version : string)
  : PackageData :=
  {[ "local_file" := PStr local_file; "name" := PStr name;
     "pkg_name" := PStr pkg_name; "version" := PStr version ]}.

Definition pd_getattr (data : PackageData) (field : string) : pyval :=
  match data !! field with Some v => v | None => PStr "TODO:" end.

Definition pd_setattr (data : PackageData) (field : string) (v : pyval)
  : PackageData := <[field := v]> data.

Definition set_from (d : list (string * pyval)) (update : bool)
    (data : PackageData) : PackageData :=
  fold_left (fun acc kv => pd_setattr acc (fst kv) (snd kv)) d data.

(** The state outside the record that the overlays change: the log and
    the temporary directories that exist. *)
Record World : Type := mkWorld {
  log : list log_record;
  tempdirs : list string;
  created : nat
}.

Definition emit (r : log_record) (w : World) : World :=
  {| log := log w ++ [r]; tempdirs := tempdirs w; created := created w |}.

(** A method that may log, create directories, and raise. *)
Definition action (A : Type) : Type := World -> World * result A.

(** [LocalMetadataExtractor] after [__init__]. *)
Record LocalMetadataExtractor : Type := mkLocal {
  local_file : string;
  archive : Archive;
  name : string;
  version : string;
  rpm_name_arg : option string;
  venv : bool;
  base_python_version : string;
  metadata_extension : bool
}.

(** The abstract properties of [LocalMetadataExtractor], as a strategy
    implements them for its own kind of extractor.  [runtime_deps] also
    returns the extractor, whose distribution it may have changed. *)
Record Strategy (Self : Type) : Type := mkStrategy {
  local : Self -> LocalMetadataExtractor;
  runtime_deps : Self -> result (list pyval * Self);
  build_deps : Self -> result (list pyval);
  py_modules : Self -> result pyval;
  scripts : Self -> result pyval;
  home_page : Self -> result pyval;
  description : Self -> result pyval;
  summary : Self -> result pyval;
  license : Self -> result pyval;
  has_test_suite : Self -> result bool;
  versions_from_archive : Self -> result (list pyval);
  doc_files : Self -> result (list string)
}.
Arguments local {Self}.
Arguments runtime_deps {Self}.
Arguments build_deps {Self}.
Arguments py_modules {Self}.
Arguments scripts {Self}.
Arguments home_page {Self}.
Arguments description {Self}.
Arguments summary {Self}.
Arguments license {Self}.
Arguments has_test_suite {Self}.
Arguments versions_from_archive {Self}.
Arguments doc_files {Self}.

(** ** pyp2rpm/metadata_extractors.py: overlays and the base class *)

Section Extractors.

Variable settings : Settings.
Variable lib : Library.
Variable collab : Collaborators.
(** the module-level name [virtualenv]; [None] after a failed import *)
Variable virtualenv : option VirtualenvModule.

(** [tempfile.mkdtemp()] and [shutil.rmtree(d)] *)
Definition mkdtemp (w : World) : string * World :=
  let d := temp_name lib (created w) in
  (d, {| log := log w; tempdirs := d :: tempdirs w; created := S (created w) |}).

Definition rmtree (d : string) (w : World) : World :=
  {| log := log w;
     tempdirs := List.filter (fun x => negb (String.eqb x d)) (tempdirs w);
     created := created w |}.

(** the dictionary that the registry overlay builds from a release *)
Definition pypi_data_dict (url md5_digest rel : pyval)
  : result (list (string * pyval)) :=
  d ← for_each
        (fun d field => v ← py_get rel field (PStr ""); Ok (dict_set field v d))
        (PYPI_USABLE_DATA settings)
        [("url", url); ("md5", md5_digest)];
  cl ← py_get rel "classifiers" (PStr "");
  lic ← license_from_trove collab cl;
  Ok (dict_set "license" lic d).

(** [pypi_metadata_extension(extraction_fce)], the function [inner(self,
    client)] it returns.  The [try] block holds the test of [client] and
    the call of [client.release_data]; its bare [except] logs and returns
    [data]. *)
Definition pypi_metadata_extension (extraction_fce : LocalMetadataExtractor -> action PackageData)
    (self : LocalMetadataExtractor) (client : option Client) : action PackageData :=
  fun w =>
    match extraction_fce self w with
    | (w1, Raise e) => (w1, Raise e)
    | (w1, Ok data) =>
        let tried :=
          match client with
          | None => Raise ValueError
          | Some c => rel ← release_data c (name self) (version self); Ok (c, rel)
          end in
        match tried with
        | Raise _ =>
            (emit communication_warning w1, Ok data)
        | Ok (c, rel) =>
            (w1,
             '(url, md5_digest) ← get_url c (name self) (version self);
             data_dict ← pypi_data_dict url md5_digest rel;
             Ok (set_from data_dict true data))
        end
    end.

(** the provisioning inside the [try] block of the environment overlay:
    the environment is built in [temp_dir] and its data are read *)
Definition provision (venv_mod : VirtualenvModule) (self : LocalMetadataExtractor)
    (temp_dir : string) : result (list (string * pyval)) :=
  extractor ← VirtualEnv venv_mod (name self) temp_dir (rpm_name collab)
                (base_python_version self);
  get_venv_data venv_mod extractor.

(** [venv_metadata_extension(extraction_fce)], the function [inner(self)]
    it returns.  The handler names [VirtualenvFailException]; any other
    exception leaves through the [finally] clause. *)
Definition venv_metadata_extension (extraction_fce : LocalMetadataExtractor -> action PackageData)
    (self : LocalMetadataExtractor) : action PackageData :=
  fun w =>
    match extraction_fce self w with
    | (w1, Raise e) => (w1, Raise e)
    | (w1, Ok data) =>
        match virtualenv with
        | Some venv_mod =>
            if venv self then
              let '(temp_dir, w2) := mkdtemp w1 in
              match provision venv_mod self temp_dir with
              | Ok venv_data => (rmtree temp_dir w2, Ok (set_from venv_data true data))
              | Raise VirtualenvFailException =>
                  (rmtree temp_dir (emit skipping_venv w2), Ok data)
              | Raise e => (rmtree temp_dir w2, Raise e)
              end
            else (emit skipping_debug w1, Ok data)
        | None => (emit skipping_debug w1, Ok data)
        end
    end.

(** [process_description(description_fce)]: the five substitutions, from
    the innermost outwards, then the re-wrapping at column 80 *)
Definition pattern_tags : string :=
  "((" +:+ CR +:+ "*.. image::|:target:) https?|(:align:|:alt:))[^" +:+ LF +:+ "]*" +:+ LF.
Definition pattern_short_lines : string :=
  "((" +:+ CR +:+ "?" +:+ LF +:+ ")|^).{0,8}((" +:+ CR +:+ "?" +:+ LF +:+ ")|$)".
Definition pattern_delimiters : string := "(#|-|=|~|`)*".
Definition pattern_urls : string :=
  "\w+:\/{2}[\d\w-]+(\.[\d\w-]+)*(?:(?:\/[^\s/]*))*".
Definition pattern_whitespace : string := "\s+".

Definition process_description (text : string) : string :=
  let clear_description :=
    re_sub lib pattern_whitespace " "
      (re_sub lib pattern_urls ""
         (re_sub lib pattern_delimiters ""
            (re_sub lib pattern_short_lines ""
               (re_sub lib pattern_tags "" text)))) in
  join " " (textwrap_wrap lib clear_description 80).

(** [name_convert_deps_list]: [dep[1]] of every entry is replaced by its
    converted name *)
Definition convert_dep (dep : pyval) : result pyval :=
  match dep with
  | PList (kind :: PStr n :: rest) =>
      Ok (PList (kind :: PStr (rpm_name collab n (Some (DEFAULT_PYTHON_VERSION settings))) :: rest))
  | PList (_ :: _ :: _) => Raise TypeError
  | PList _ => Raise IndexError
  | _ => Raise TypeError
  end.

Fixpoint name_convert_deps_list (deps_list : list pyval) : result (list pyval) :=
  match deps_list with
  | [] => Ok []
  | dep :: rest =>
      dep' ← convert_dep dep;
      rest' ← name_convert_deps_list rest;
      Ok (dep' :: rest')
  end.

(** [has_pth] and [has_extension] *)
Definition has_pth (self : LocalMetadataExtractor) : bool := str_in "." (name self).

Definition has_extension (self : LocalMetadataExtractor) : bool :=
  has_file_with_suffix (archive self) (PList (map PStr (EXTENSION_SUFFIXES settings))).

(** [separate_license_files(doc_files)], with [settings.LICENSE_FILES]
    as [markers]; the pair returned is [(other, licenses)] *)
Definition separate_license_files (markers : list string) (doc_files : list string)
  : list string * list string :=
  let other :=
    List.filter (fun doc => forallb (fun s => negb (str_in s (lower doc))) markers) doc_files in
  let licenses :=
    List.filter (fun doc => existsb (fun s => str_in s (lower doc)) markers) doc_files in
  (other, licenses).

(** [LocalMetadataExtractor.data_from_archive]: the items of
    [archive_data] in the order of assignment, and the extractor *)
Definition data_from_archive {Self : Type} (ops : Strategy Self) (self : Self)
  : result (list (string * pyval) * Self) :=
  '(rt, self) ← runtime_deps ops self;
  bd ← build_deps ops self;
  pm ← py_modules ops self;
  sc ← scripts ops self;
  hp ← home_page ops self;
  de ← description ops self;
  su ← summary ops self;
  li ← license ops self;
  ts ← has_test_suite ops self;
  py_vers ← versions_from_archive ops self;
  docs ← doc_files ops self;
  let '(other, licenses) := separate_license_files (LICENSE_FILES settings) docs in
  Ok ([("runtime_deps", PList rt);
       ("build_deps", PList (PList [PStr "BuildRequires"; PStr "python2-devel"] :: bd));
       ("py_modules", pm);
       ("scripts", sc);
       ("home_page", hp);
       ("description", de);
       ("summary", su);
       ("license", li);
       ("has_pth", PBool (has_pth (local ops self)));
       ("has_extension", PBool (has_extension (local ops self)));
       ("has_test_suite", PBool ts);
       ("base_python_version",
          match py_vers with
          | v :: _ => v
          | [] => PStr (DEFAULT_PYTHON_VERSION settings)
          end);
       ("python_versions",
          match py_vers with
          | _ :: vs => PList vs
          | [] => PList [PStr (DEFAULT_ADDITIONAL_VERSION settings)]
          end);
       ("doc_files", PList (map PStr other));
       ("doc_license", PList (map PStr licenses))],
      self).

(** The body of [LocalMetadataExtractor.extract_data], under the two
    decorators.  [archive_data] is what [self.data_from_archive] gives for
    the class of [self]. *)
Definition extract_data_body (self : LocalMetadataExtractor)
    (archive_data : result (list (string * pyval))) : result PackageData :=
  let data :=
    new_PackageData (local_file self) (name self)
      (match rpm_name_arg self with
       | None => rpm_name collab (name self) None
       | Some r => r
       end)
      (version self) in
  ad ← archive_data;
  let data := set_from ad false data in
  data ← match data !! "scripts" with
         | Some sc =>
             sc' ← remove_major_minor_suffix collab sc;
             Ok (pd_setattr data "scripts" sc')
         | None => Ok data
         end;
  if elem_in (pd_getattr data "packages") [PStr "TODO:"; PSet ∅]
  then match pd_getattr data "name" with
       | PStr n => Ok (pd_setattr data "packages" (PSet {[ n ]}))
       | _ => Raise TypeError
       end
  else Ok data.

(** [extract_data] as the class defines it:
    [pypi_metadata_extension(venv_metadata_extension(body))] *)
Definition extract_data {Self : Type} (ops : Strategy Self)
    (archive_data : Self -> result (list (string * pyval))) (self : Self)
    (client : option Client) : action PackageData :=
  pypi_metadata_extension
    (venv_metadata_extension
       (fun _ w => (w, extract_data_body (local ops self) (archive_data self))))
    (local ops self) client.

(** ** Strategy A: [SetupPyMetadataExtractor] *)

(** [distribution] is what [__init__] read from
    [extract_dist.extract_dist.class_dist]: the captured distribution, or
    the [None] the class body put there. *)
Record SetupPyMetadataExtractor : Type := mkSetupPy {
  sp_local : LocalMetadataExtractor;
  distribution : slot
}.

(** [self.distribution.<attr>] *)
Definition dist_attr (self : SetupPyMetadataExtractor) (attr : string) : result pyval :=
  match distribution self with
  | SDist d => getattr (attrs d) attr
  | SVal _ => Raise AttributeError
  end.

Definition slot_set_attr (sl : slot) (attr : string) (v : pyval) : slot :=
  match sl with
  | SDist d => SDist (set_dist_attr d attr v)
  | SVal x => SVal x
  end.

(** The list that [runtime_deps] hands to [deps_from_pyp_format]: the
    list object [self.distribution.install_requires], to which
    ['setuptools'] has been appended in place when entry points are there
    and the list does not hold it. *)
Definition sp_install_requires (self : SetupPyMetadataExtractor) : result pyval :=
  install_requires ← dist_attr self "install_requires";
  entry_points ← dist_attr self "entry_points";
  if truthy entry_points then
    held ← contains "setuptools" install_requires;
    if negb held then py_append install_requires (PStr "setuptools")
    else Ok install_requires
  else Ok install_requires.

Definition sp_runtime_deps (self : SetupPyMetadataExtractor)
  : result (list pyval * SetupPyMetadataExtractor) :=
  install_requires ← sp_install_requires self;
  let self' :=
    {| sp_local := sp_local self;
       distribution := slot_set_attr (distribution self) "install_requires" install_requires |} in
  deps ← deps_from_pyp_format collab install_requires true;
  converted ← name_convert_deps_list deps;
  Ok (converted, self').

(** The list that [build_deps] hands to [deps_from_pyp_format]. *)
Definition sp_build_requires (self : SetupPyMetadataExtractor) : result pyval :=
  setup_requires ← dist_attr self "setup_requires";
  tests_require ← dist_attr self "tests_require";
  build_requires ← py_add setup_requires tests_require;
  held ← contains "setuptools" build_requires;
  if negb held then py_append build_requires (PStr "setuptools")
  else Ok build_requires.

Definition sp_build_deps (self : SetupPyMetadataExtractor) : result (list pyval) :=
  build_requires ← sp_build_requires self;
  deps ← deps_from_pyp_format collab build_requires false;
  name_convert_deps_list deps.

Definition sp_has_packages (self : SetupPyMetadataExtractor) : result bool :=
  packages ← dist_attr self "packages";
  Ok (negb (pyeq packages (PSet ∅))).

(** [package.split('.', 1)[0]] *)
Definition top_level (package : pyval) : result pyval :=
  s ← as_str package;
  Ok (PStr (List.hd "" (split "." s))).

(** [packages]: [None] when [has_packages] is false *)
Definition sp_packages (self : SetupPyMetadataExtractor) : result pyval :=
  has ← sp_has_packages self;
  if (has : bool) then
    declared ← dist_attr self "packages";
    items ← iter declared;
    tops ← map_each top_level items;
    st ← str_set tops;
    Ok (PSet st)
  else Ok PNone.

Definition sp_py_modules (self : SetupPyMetadataExtractor) : result pyval :=
  declared ← dist_attr self "py_modules";
  items ← iter declared;
  st ← str_set items;
  Ok (PSet st).

(** one entry of [console_scripts]: the text before the first [=],
    stripped, or the whole entry when it has none *)
Definition script_name (script : pyval) : result pyval :=
  s ← as_str script;
  let equal_sign := find "=" 0 s in
  if Z.eqb equal_sign (-1) then Ok (PStr s)
  else Ok (PStr (str_strip lib (String.substring 0 (Z.to_nat equal_sign) s))).

Definition sp_scripts (self : SetupPyMetadataExtractor) : result pyval :=
  declared ← dist_attr self "scripts";
  let direct := if truthy declared then declared else PList [] in
  entry_points ← dist_attr self "entry_points";
  transformed ←
    (if truthy entry_points then
       console ← py_get entry_points "console_scripts" (PList []);
       items ← iter console;
       map_each script_name items
     else Ok []);
  every ← py_add (PList transformed) direct;
  items ← iter every;
  names ← map_each (fun t => s ← as_str t; Ok (PStr (os_path_basename lib s))) items;
  st ← str_set names;
  Ok (PSet st).

Definition sp_home_page (self : SetupPyMetadataExtractor) : result pyval :=
  dist_attr self "url".

(** [long_description], the property under [process_description]; the
    substitutions refuse a value that is not a string *)
Definition sp_long_description (self : SetupPyMetadataExtractor) : result string :=
  v ← dist_attr self "long_description";
  match v with
  | PStr text => Ok (process_description text)
  | _ => Raise TypeError
  end.

(** the length after which [description] looks for a line break *)
Definition threshold : nat := 80 * 8.

(** the body of [description] on the value of [self.long_description] *)
Definition shorten (long_description : string) : string :=
  let cut := find LF threshold long_description in
  if -1 <? cut then slice_to cut long_description +:+ LF +:+ "..."
  else long_description.

(** [SetupPyMetadataExtractor.description] *)
Definition sp_description (self : SetupPyMetadataExtractor) : result string :=
  long_description ← sp_long_description self;
  Ok (shorten long_description).

Definition sp_summary (self : SetupPyMetadataExtractor) : result pyval :=
  dist_attr self "description".

Definition sp_classifiers (self : SetupPyMetadataExtractor) : result pyval :=
  dist_attr self "classifiers".

Definition sp_license (self : SetupPyMetadataExtractor) : result pyval :=
  dist_attr self "license".

Definition sp_versions_from_archive (self : SetupPyMetadataExtractor)
  : result (list pyval) :=
  classifiers ← dist_attr self "classifiers";
  versions_from_trove collab classifiers.

Definition sp_has_bundled_egg_info (self : SetupPyMetadataExtractor) : bool :=
  has_file_with_suffix (archive (sp_local self)) (PStr ".egg-info").

Definition is_none (v : pyval) : bool :=
  match v with PNone => true | _ => false end.

Definition sp_has_test_suite (self : SetupPyMetadataExtractor) : result bool :=
  test_suite ← dist_attr self "test_suite";
  if negb (is_none test_suite) then Ok true
  else
    tests_require ← dist_attr self "tests_require";
    Ok (negb (pyeq tests_require (PList []))).

(** ['/'.join(x.split('/')[1:])] *)
Definition drop_first_component (x : string) : string :=
  join "/" (List.tl (split "/" x)).

Definition sp_doc_files (self : SetupPyMetadataExtractor) : list string :=
  map drop_first_component
    (flat_map (fun doc_file_re => get_files_re (archive (sp_local self)) doc_file_re true false)
       (DOC_FILES_RE settings)).

(** [sphinx_dir]: the last candidate directory that holds a [conf.py] *)
Definition sp_sphinx_dir (self : SetupPyMetadataExtractor) : option string :=
  fold_left
    (fun sphinx_dir d =>
       if (0 <? length (get_files_re (archive (sp_local self))
                          (re_escape lib d +:+ "/conf.py") false true))%nat
       then Some d else sphinx_dir)
    (get_directories_re (archive (sp_local self)) (SPHINX_DIR_RE settings) true)
    None.

Definition SetupPy_strategy : Strategy SetupPyMetadataExtractor :=
  {| local := sp_local;
     runtime_deps := sp_runtime_deps;
     build_deps := sp_build_deps;
     py_modules := sp_py_modules;
     scripts := sp_scripts;
     home_page := sp_home_page;
     description := fun self => d ← sp_description self; Ok (PStr d);
     summary := sp_summary;
     license := sp_license;
     has_test_suite := sp_has_test_suite;
     versions_from_archive := sp_versions_from_archive;
     doc_files := fun self => Ok (sp_doc_files self) |}.

(** [SetupPyMetadataExtractor.data_from_archive] *)
Definition sp_data_from_archive (self : SetupPyMetadataExtractor)
  : result (list (string * pyval)) :=
  '(archive_data, self) ← data_from_archive SetupPy_strategy self;
  has ← sp_has_packages self;
  let archive_data := dict_set "has_packages" (PBool has) archive_data in
  packages ← sp_packages self;
  let archive_data := dict_set "packages" packages archive_data in
  let archive_data :=
    dict_set "has_bundled_egg_info" (PBool (sp_has_bundled_egg_info self)) archive_data in
  match sp_sphinx_dir self with
  | Some d =>
      if negb (String.eqb d "") then
        let archive_data := dict_set "sphinx_dir" (PStr (drop_first_component d)) archive_data in
        build ← py_getitem (PDict archive_data) "build_deps";
        build' ← py_append build (PList [PStr "BuildRequires"; PStr "python-sphinx"]);
        Ok (dict_set "build_deps" build' archive_data)
      else Ok archive_data
  | None => Ok archive_data
  end.

(** Strategy A, base record: [extract_data] without the two overlays *)
Definition sp_extract_base (self : SetupPyMetadataExtractor) : result PackageData :=
  extract_data_body (sp_local self) (sp_data_from_archive self).

(** Strategy A, [extract_data(client)] *)
Definition sp_extract_data (self : SetupPyMetadataExtractor) (client : option Client)
  : action PackageData :=
  extract_data SetupPy_strategy sp_data_from_archive self client.

(** [current_interpreter_run(setup_py, *args)] *)
Definition current_interpreter_run (setup_py : string) (args : list string)
    (modules : string -> option descriptor) (p : Process) : result Process :=
  let dirname := os_path_dirname lib setup_py in
  let filename := os_path_basename lib setup_py in
  let filename := if endswith "py" filename then slice_to (-3) filename else filename in
  match modules filename with
  | None => Raise (OtherError "ImportError")
  | Some script =>
      cls ← run_extract_dist script (extract_dist_class p);
      Ok {| cwd := cwd p; sys_path := dirname :: sys_path p;
            sys_argv := firstn 1 (sys_argv p) ++ args;
            extract_dist_class := cls |}
  end.

(** [SetupPyMetadataExtractor.__init__], after the base class has set
    its fields.  [glob] answers for the tree the archive was extracted
    to; an empty answer ends in [SystemExit(3)]. *)
Definition SetupPy_init (base : LocalMetadataExtractor) (glob : string -> list string)
    (modules : string -> option descriptor) (p : Process)
  : action (SetupPyMetadataExtractor * Process) :=
  fun w =>
    let '(temp_dir, w1) := mkdtemp w in
    let tried :=
      match glob (temp_dir +:+ "/" +:+ name base +:+ "*/" +:+ "setup.py") with
      | [] => Raise (SystemExit 3)
      | setup_py :: _ =>
          p' ← current_interpreter_run setup_py
                 ["--quiet"; "--command-packages"; "command"; "extract_dist"] modules p;
          d ← class_getattr (extract_dist_class p') "class_dist";
          Ok ({| sp_local := base; distribution := d |}, p')
      end in
    (rmtree temp_dir w1, tried).

(** ** Strategy B: [WheelMetadataExtractor] *)

Record WheelMetadataExtractor : Type := mkWheel {
  wh_local : LocalMetadataExtractor
}.

(** [json_metadata]: the parsed metadata file of the wheel *)
Definition json_metadata (self : WheelMetadataExtractor) : pyval :=
  json_wheel_metadata (archive (wh_local self)).

(** the body of the inner loop of [get_requires] for one group *)
Definition requires_of_group (extracted_requires : list pyval) (requires : pyval)
  : result (list pyval) :=
  environment ← py_get requires "environment" (PDict []);
  excluded ← contains "win" environment;
  if (excluded : bool) then Ok extracted_requires
  else
    listed ← py_getitem requires "requires";
    items ← iter listed;
    Ok (extracted_requires ++ items).

(** the body of the outer loop of [get_requires] for one category *)
Definition requires_of_category (self : WheelMetadataExtractor)
    (extracted_requires : list pyval) (requires_name : string) : result (list pyval) :=
  groups ← py_get (json_metadata self) requires_name (PList []);
  each ← iter groups;
  for_each requires_of_group each extracted_requires.

(** [WheelMetadataExtractor.get_requires(requires_types)] *)
Definition get_requires (self : WheelMetadataExtractor) (requires_types : list string)
  : result (list pyval) :=
  for_each (requires_of_category self) requires_types [].

(** The list that [runtime_deps] hands to [deps_from_pydit_json]. *)
Definition wh_run_requires (self : WheelMetadataExtractor) : result (list pyval) :=
  run_requires ← get_requires self ["run_requires"; "meta_requires"];
  if negb (elem_in (PStr "setuptools") run_requires)
  then Ok (run_requires ++ [PStr "setuptools"])
  else Ok run_requires.

Definition wh_runtime_deps (self : WheelMetadataExtractor)
  : result (list pyval * WheelMetadataExtractor) :=
  run_requires ← wh_run_requires self;
  deps ← deps_from_pydit_json collab (PList run_requires) true;
  converted ← name_convert_deps_list deps;
  Ok (converted, self).

(** The list that [build_deps] hands to [deps_from_pydit_json]. *)
Definition wh_build_requires (self : WheelMetadataExtractor) : result (list pyval) :=
  build_requires ← get_requires self ["build_requires"; "test_requires"];
  if negb (elem_in (PStr "setuptools") build_requires)
  then Ok (build_requires ++ [PStr "setuptools"])
  else Ok build_requires.

Definition wh_build_deps (self : WheelMetadataExtractor) : result (list pyval) :=
  build_requires ← wh_build_requires self;
  deps ← deps_from_pydit_json collab (PList build_requires) false;
  name_convert_deps_list deps.

Definition wh_py_modules (self : WheelMetadataExtractor) : result pyval :=
  py_get (record (archive (wh_local self))) "modules" PNone.

Definition wh_scripts (self : WheelMetadataExtractor) : result pyval :=
  py_get (record (archive (wh_local self))) "scripts" (PList []).

(** the values of [extensions / python.details / <key>] *)
Definition details_values (self : WheelMetadataExtractor) (key : string)
  : result (list pyval) :=
  extensions ← py_get (json_metadata self) "extensions" (PDict []);
  details ← py_get extensions "python.details" (PDict []);
  entry ← py_get details key (PDict []);
  py_values entry.

(** [home_page]: the first project URL, [None] without one *)
Definition wh_home_page (self : WheelMetadataExtractor) : result pyval :=
  urls ← details_values self "project_urls";
  match urls with
  | u :: _ => Ok u
  | [] => Ok PNone
  end.

Definition wh_description (self : WheelMetadataExtractor) : result pyval :=
  match wheel_description (archive (wh_local self)) with
  | PStr text => Ok (PStr (process_description text))
  | _ => Raise TypeError
  end.

Definition wh_summary (self : WheelMetadataExtractor) : result pyval :=
  py_get (json_metadata self) "summary" PNone.

Definition wh_classifiers (self : WheelMetadataExtractor) : result pyval :=
  py_get (json_metadata self) "classifiers" (PList []).

Definition wh_license (self : WheelMetadataExtractor) : result pyval :=
  py_get (json_metadata self) "license" PNone.

Definition wh_versions_from_archive (self : WheelMetadataExtractor)
  : result (list pyval) :=
  classifiers ← wh_classifiers self;
  versions_from_trove collab classifiers.

(** [... is not False] *)
Definition wh_has_test_suite (self : WheelMetadataExtractor) : result bool :=
  v ← py_get (json_metadata self) "test_requires" (PBool false);
  Ok (match v with PBool false => false | _ => true end).

(** [doc_files]: a set; the split walks it in the order of [elements] *)
Definition wh_doc_files (self : WheelMetadataExtractor) : result (list string) :=
  names ← details_values self "document_names";
  st ← str_set names;
  Ok (elements st).

Definition Wheel_strategy : Strategy WheelMetadataExtractor :=
  {| local := wh_local;
     runtime_deps := wh_runtime_deps;
     build_deps := wh_build_deps;
     py_modules := wh_py_modules;
     scripts := wh_scripts;
     home_page := wh_home_page;
     description := wh_description;
     summary := wh_summary;
     license := wh_license;
     has_test_suite := wh_has_test_suite;
     versions_from_archive := wh_versions_from_archive;
     doc_files := wh_doc_files |}.

Definition wh_data_from_archive (self : WheelMetadataExtractor)
  : result (list (string * pyval)) :=
  '(archive_data, _) ← data_from_archive Wheel_strategy self;
  Ok archive_data.

(** Strategy B, base record: [extract_data] without the two overlays *)
Definition wh_extract_base (self : WheelMetadataExtractor) : result PackageData :=
  extract_data_body (wh_local self) (wh_data_from_archive self).


End Extractors.

End MetadataExtractors.

(** ** Specification-level notions *)

Module Spec.

(** A candidate holds a marker case-insensitively when the lower-cased
    marker occurs in the lower-cased candidate. *)
Definition holds_marker (markers : list string) (doc : string) : bool :=
  existsb (fun s => str_in (lower s) (lower doc)) markers.

(** A marker as the configuration writes it: in lower case. *)
Definition lower_case (s : string) : Prop := lower s = s.

(** A requirement group of a wheel metadata file: an optional extra, an
    optional environment filter and the requirement strings. *)
Record requirement_group : Type := mkGroup {
  rg_extra : option string;
  rg_environment : option string;
  rg_requires : list string
}.

(** the group as [json.load] gives it *)
Definition encode_group (g : requirement_group) : pyval :=
  PDict (match rg_extra g with
         | Some x => [("extra", PStr x)]
         | None => []
         end ++
         match rg_environment g with
         | Some e => [("environment", PStr e)]
         | None => []
         end ++ [("requires", PList (map PStr (rg_requires g)))]).

(** An environment marker, the filter of a requirement group: an
    environment variable compared with a value, and the conjunction and
    the disjunction of two filters.  The variables that name an operating
    system are compared with [==] and [!=]; the ordering operators, which
    compare versions, are left out. *)
Inductive marker : Type :=
| MEq (variable value : string)
| MNe (variable value : string)
| MAnd (a b : marker)
| MOr (a b : marker).

(** the text of a marker in the metadata file *)
Fixpoint render (m : marker) : string :=
  match m with
  | MEq variable value => variable +:+ " == '" +:+ value +:+ "'"
  | MNe variable value => variable +:+ " != '" +:+ value +:+ "'"
  | MAnd a b => render a +:+ " and " +:+ render b
  | MOr a b => render a +:+ " or " +:+ render b
  end.

(** An environment gives every variable its value. *)
Definition environment : Type := string -> string.

(** the filter holds in the environment *)
Fixpoint holds (env : environment) (m : marker) : bool :=
  match m with
  | MEq variable value => String.eqb (env variable) value
  | MNe variable value => negb (String.eqb (env variable) value)
  | MAnd a b => holds env a && holds env b
  | MOr a b => holds env a || holds env b
  end.

(** The excluded environment, an operating system on which the package
    built is not installed: Windows. *)
Definition excluded_environment : environment := fun variable =>
  if String.eqb variable "sys_platform" then "win32"
  else if String.eqb variable "platform_system" then "Windows"
  else if String.eqb variable "os_name" then "nt"
  else if String.eqb variable "python_version" then "2.7"
  else "".

(** The target platform, on which the package built is installed: Linux,
    with the same interpreter. *)
Definition target_environment : environment := fun variable =>
  if String.eqb variable "sys_platform" then "linux2"
  else if String.eqb variable "platform_system" then "Linux"
  else if String.eqb variable "os_name" then "posix"
  else if String.eqb variable "python_version" then "2.7"
  else "".

(** A requirement group with its filter as a marker. *)
Record marked_group : Type := mkMarked {
  mg_extra : option string;
  mg_marker : option marker;
  mg_requires : list string
}.

(** the group as the metadata file writes it *)
Definition written (g : marked_group) : requirement_group :=
  {| rg_extra := mg_extra g;
     rg_environment := option_map render (mg_marker g);
     rg_requires := mg_requires g |}.

(** the group applies in the environment: it has no filter, or its
    filter holds there *)
Definition applies_to (env : environment) (g : marked_group) : bool :=
  match mg_marker g with
  | Some m => holds env m
  | None => true
  end.

(** A group is scoped to the excluded environment when it applies there
    and does not apply on the target platform. *)
Definition scoped_to_excluded (g : marked_group) : bool :=
  applies_to excluded_environment g && negb (applies_to target_environment g).

(** the requirement strings of the groups of the requested categories
    that are not scoped to the excluded environment, in the order of the
    categories, of the groups and of the strings *)
Definition kept_requires (groups : string -> list marked_group)
    (requires_types : list string) : list string :=
  flat_map
    (fun category =>
       flat_map (fun g => if scoped_to_excluded g then [] else mg_requires g)
         (groups category))
    requires_types.


End Spec.

(** ** The test that [get_requires] makes on a requirement group *)

Module Written.

(** ['win' in requires.get('environment', {})] on a group of the metadata
    file: the text of the filter holds the three characters [win]; for a
    group without a filter the default, an empty dictionary, holds
    nothing. *)
Definition names_win (g : Spec.requirement_group) : bool :=
  match Spec.rg_environment g with
  | Some e => str_in "win" e
  | None => false
  end.

(** the requirement strings that pass this test, in the order of the
    categories, of the groups and of the strings *)
Definition passed (groups : string -> list Spec.requirement_group)
    (requires_types : list string) : list string :=
  flat_map
    (fun category =>
       flat_map (fun g => if names_win g then [] else Spec.rg_requires g)
         (groups category))
    requires_types.

End Written.

(** ** Notions for the further properties *)

Module Text.

(** [s[n:]] *)
Fixpoint drop (n : nat) (s : string) : string :=
  match n, s with
  | O, _ => s
  | S n', EmptyString => EmptyString
  | S n', String _ s' => drop n' s'
  end.

(** the character [c] does not stand in [s] *)
Definition free_of (c : ascii) (s : string) : Prop :=
  forall i, String.get i s <> Some c.

End Text.

(** ** Sample inputs *)

Module Samples.
Import ExtractDist ModuleRunners MetadataExtractors.

(** The descriptor of an archive [spam-1.0]: [install_requires=[]], no
    [packages], no [py_modules]; the attributes are those a setuptools
    distribution has before the command is created. *)
Definition spam_raw : Distribution :=
  {| attrs := {[ "install_requires" := PList []; "packages" := PNone;
                 "py_modules" := PNone; "entry_points" := PNone;
                 "scripts" := PNone; "test_suite" := PNone ]};
     metadata := {[ "name" := PStr "spam"; "version" := PStr "1.0";
                    "url" := PNone; "description" := PStr "Spam";
                    "long_description" := PNone; "license" := PNone;
                    "classifiers" := PNone ]} |}.

(** [spam_raw] after [extract_dist.__init__] *)
Definition spam_dist : Distribution :=
  match init spam_raw with Ok d => d | Raise _ => spam_raw end.

(** *** The in-process runner *)

Definition spam_runner : ModuleRunner :=
  {| dirname := "/tmp/tmpab12cd/spam-1.0"; filename := "setup.py";
     args := ["--quiet"; "--command-packages"; "command"; "extract_dist"] |}.

(** the only module of the extracted tree is the descriptor [setup] *)
Definition spam_modules (mod_name : string) : option descriptor :=
  if String.eqb mod_name "setup" then Some (Ok spam_raw) else None.

Definition fresh_process : Process :=
  {| cwd := "/"; sys_path := []; sys_argv := ["pyp2rpm"];
     extract_dist_class := class_body |}.

(** [fresh_process] after [spam_runner] has run *)
Definition spam_process : Process :=
  {| cwd := "/"; sys_path := ["/tmp/tmpab12cd/spam-1.0"];
     sys_argv := ["pyp2rpm"; "--quiet"; "--command-packages"; "command"; "extract_dist"];
     extract_dist_class := ExtractDist.run spam_dist class_body |}.

(** *** The out-of-process runner *)

(** [bytes.decode('utf-8')] on the byte strings of the examples: bytes
    below 128 decode to themselves; the examples hold no other byte, and
    the sample refuses one. *)
Definition decode_ascii (b : string) : result string :=
  if forallb (fun c => (nat_of_ascii c <? 128)%nat) (list_ascii_of_string b)
  then Ok b else Raise UnicodeDecodeError.

(** [json.loads] on the texts of the examples: the empty object, the
    empty array and [null] are read; the other texts of the examples (the
    empty text, a traceback) are no JSON documents, and the sample reads
    nothing else. *)
Definition loads_few (text : string) : result pyval :=
  if String.eqb text "{}" then Ok (PDict [])
  else if String.eqb text "[]" then Ok (PList [])
  else if String.eqb text "null" then Ok PNone
  else Raise JSONDecodeError.

(** a subprocess that warns, prints the marker and an empty object, and
    exits with status 1 *)
Definition shell_exit_1 (dir command : string) : completed :=
  {| returncode := 1;
     stdout := "warning: no files found" +:+ LF +:+ marker +:+ "{}";
     stderr := "error: option not recognized" |}.

(** a subprocess that exits with status 0 and prints nothing *)
Definition shell_silent (dir command : string) : completed :=
  {| returncode := 0; stdout := ""; stderr := "" |}.

Definition spam_extern : ExternModuleRunner :=
  {| base := spam_runner; _result := None |}.

(** *** Configuration and collaborators of the examples *)

Definition settings : Settings :=
  {| DEFAULT_PYTHON_VERSION := "2";
     DEFAULT_ADDITIONAL_VERSION := "3";
     EXTENSION_SUFFIXES := [".c"; ".cpp"];
     DOC_FILES_RE := ["readme[^/]*"; "license[^/]*"];
     SPHINX_DIR_RE := "[^/]+/docs?";
     LICENSE_FILES := ["license"; "copying"];
     PYPI_USABLE_DATA := ["description"; "summary"; "license"; "home_page"; "requires"] |}.

(** The library on the texts of the examples, which are words separated
    by single blanks, shorter than a line, without markup: the only
    substitution that finds a match is the one for short lines, which
    deletes a text of at most eight characters; [textwrap.wrap] gives one
    line, and none for the empty text; names have no directory part and
    nothing to strip or escape. *)
Definition library : Library :=
  {| re_sub := fun pattern repl text =>
       if String.eqb pattern pattern_short_lines
          && (String.length text <=? 8)%nat && negb (str_in LF text)
       then "" else text;
     re_escape := fun s => s;
     textwrap_wrap := fun text width => if String.eqb text "" then [] else [text];
     os_path_basename := fun path => path;
     os_path_dirname := fun path => "";
     str_strip := fun s => s;
     temp_name := fun n => "/tmp/tmpab12cd" |}.

(** one specifier, a bare name, in the form of the normalizer's output *)
Definition bare_name (runtime : bool) (req : pyval) : result pyval :=
  match req with
  | PStr n => Ok (PList [PStr (if runtime then "Requires" else "BuildRequires"); PStr n])
  | _ => Raise TypeError
  end.

(** Modelled from the spec: the dependency normalizer is not among the
    sources.  It turns a sequence of specifiers into an ordered sequence
    of (relation-label, name) pairs, without deduplication; the sample
    covers specifiers that are bare names. *)
Definition normalize_bare (requires : pyval) (runtime : bool) : result (list pyval) :=
  items ← iter requires;
  map_each (bare_name runtime) items.

Definition collaborators : Collaborators :=
  {| deps_from_pyp_format := normalize_bare;
     deps_from_pydit_json := normalize_bare;
     license_from_trove := fun classifiers => Ok (PStr "");
     versions_from_trove := fun classifiers => Ok [];
     remove_major_minor_suffix := fun scripts => Ok scripts;
     rpm_name := fun n python_version => "python-" +:+ n |}.

(** the archive [spam-1.0.tar.gz]: a readme and a licence file beside
    the descriptor, no extension module, no documentation directory *)
Definition spam_archive : Archive :=
  {| has_file_with_suffix := fun suffixes => false;
     get_files_re := fun pattern ignorecase full_path =>
       if String.eqb pattern "readme[^/]*" then ["spam-1.0/README.rst"]
       else if String.eqb pattern "license[^/]*" then ["spam-1.0/LICENSE.txt"]
       else [];
     get_directories_re := fun pattern full_path => [];
     json_wheel_metadata := PNone;
     record := PNone;
     wheel_description := PNone |}.

Definition spam_local : LocalMetadataExtractor :=
  {| local_file := "spam-1.0.tar.gz"; archive := spam_archive;
     name := "spam"; version := "1.0"; rpm_name_arg := None;
     venv := true; base_python_version := "2"; metadata_extension := true |}.

(** the base record of the examples on the overlays *)
Definition spam_record : PackageData :=
  <["packages" := PSet {[ "spam" ]}]>
    (new_PackageData "spam-1.0.tar.gz" "spam" "python-spam" "1.0").

Definition spam_extraction (self : LocalMetadataExtractor) : action PackageData :=
  fun w => (w, Ok spam_record).

Definition quiet_world : World := {| log := []; tempdirs := []; created := 0 |}.

(** a registry that answers the lookup of the release and then drops the
    connection on the query for the URL *)
Definition flaky_client : Client :=
  {| release_data := fun name version => Ok (PDict [("name", PStr name)]);
     download_url_and_checksum := fun name version =>
       Raise (OtherError "ProtocolError") |}.

(** a registry that cannot be reached at all *)
Definition dead_client : Client :=
  {| release_data := fun name version => Raise (OtherError "ProtocolError");
     download_url_and_checksum := fun name version =>
       Raise (OtherError "ProtocolError") |}.

(** a [virtualenv] module whose environments cannot be created *)
Definition failing_virtualenv : VirtualenvModule :=
  {| venv_object := unit;
     VirtualEnv := fun name temp_dir name_convertor python_version =>
       Raise VirtualenvFailException;
     get_venv_data := fun extractor => Ok [] |}.

(** a [virtualenv] module whose installation step fails *)
Definition failing_install : VirtualenvModule :=
  {| venv_object := unit;
     VirtualEnv := fun name temp_dir name_convertor python_version => Ok tt;
     get_venv_data := fun extractor => Raise VirtualenvFailException |}.

(** a [virtualenv] module whose environments cannot be built for a
    reason of the operating system: the constructor raises [OSError] *)
Definition crashing_virtualenv : VirtualenvModule :=
  {| venv_object := unit;
     VirtualEnv := fun name temp_dir name_convertor python_version =>
       Raise (OtherError "OSError");
     get_venv_data := fun extractor => Ok [] |}.

(** *** A wheel *)

(** the requirement groups of the wheel [ham]: one without a filter, one
    for Windows, one for an interpreter version, and the tests as an
    extra *)
Definition ham_groups (category : string) : list Spec.requirement_group :=
  if String.eqb category "run_requires" then
    [Spec.mkGroup None None ["six"; "requests"];
     Spec.mkGroup None (Some "sys_platform == 'win32'") ["pywin32"];
     Spec.mkGroup None (Some "python_version == '2.7'") ["enum34"]]
  else if String.eqb category "test_requires" then
    [Spec.mkGroup (Some "test") None ["pytest"]]
  else [].

Definition ham_metadata : pyval :=
  PDict [("name", PStr "ham"); ("version", PStr "0.3");
         ("summary", PStr "Ham");
         ("run_requires", PList (map Spec.encode_group (ham_groups "run_requires")));
         ("test_requires", PList (map Spec.encode_group (ham_groups "test_requires")))].

Definition ham_archive : Archive :=
  {| has_file_with_suffix := fun suffixes => false;
     get_files_re := fun pattern ignorecase full_path => [];
     get_directories_re := fun pattern full_path => [];
     json_wheel_metadata := ham_metadata;
     record := PDict [("modules", PList [PStr "ham"])];
     wheel_description := PStr "Ham for everyone" |}.

Definition ham_wheel : WheelMetadataExtractor :=
  {| wh_local :=
       {| local_file := "ham-0.3-py2-none-any.whl"; archive := ham_archive;
          name := "ham"; version := "0.3"; rpm_name_arg := None;
          venv := false; base_python_version := "2"; metadata_extension := false |} |}.

(** a requirement group for every platform but Windows, and one for
    Windows alone *)
Definition posix_group : Spec.marked_group :=
  Spec.mkMarked None (Some (Spec.MNe "sys_platform" "win32")) ["pexpect"].

Definition windows_group : Spec.marked_group :=
  Spec.mkMarked None (Some (Spec.MEq "platform_system" "Windows")) ["colorama"].

(** a wheel whose metadata file holds [posix_group] as its run
    requirements and [windows_group] as its test requirements *)
Definition posix_metadata : pyval :=
  PDict [("name", PStr "hash"); ("version", PStr "1.2");
         ("run_requires", PList [Spec.encode_group (Spec.written posix_group)]);
         ("test_requires", PList [Spec.encode_group (Spec.written windows_group)])].

Definition posix_wheel : WheelMetadataExtractor :=
  {| wh_local :=
       {| local_file := "hash-1.2-py2-none-any.whl";
          archive :=
            {| has_file_with_suffix := fun suffixes => false;
               get_files_re := fun pattern ignorecase full_path => [];
               get_directories_re := fun pattern full_path => [];
               json_wheel_metadata := posix_metadata;
               record := PDict [];
               wheel_description := PStr "Hash" |};
          name := "hash"; version := "1.2"; rpm_name_arg := None;
          venv := false; base_python_version := "2"; metadata_extension := false |} |}.

(** *** Strategy A on [spam-1.0] *)

Definition spam_extractor : SetupPyMetadataExtractor :=
  {| sp_local := spam_local; distribution := SDist spam_dist |}.

(** the base record of [spam_extractor] *)
Definition spam_base : PackageData :=
  match sp_extract_base settings library collaborators spam_extractor with
  | Ok data => data
  | Raise _ => ∅
  end.

(** the base record of [ham_wheel] *)
Definition ham_base : PackageData :=
  match wh_extract_base settings library collaborators ham_wheel with
  | Ok data => data
  | Raise _ => ∅
  end.

(** a descriptor that gives its entry points as one text in the form
    of a configuration file, which [extract_dist.__init__] resets *)
Definition eggs_raw : Distribution :=
  {| attrs := <["entry_points" := PStr "[console_scripts] eggs = eggs:main"]> (attrs spam_raw);
     metadata := metadata spam_raw |}.

Definition eggs_extractor : SetupPyMetadataExtractor :=
  {| sp_local := spam_local;
     distribution := match init eggs_raw with Ok d => SDist d | Raise _ => SVal PNone end |}.

(** a descriptor that gives its entry points as a dictionary *)
Definition bacon_raw : Distribution :=
  {| attrs := <["entry_points" := PDict [("console_scripts", PList [PStr "bacon = bacon:main"])]]>
                (attrs spam_raw);
     metadata := metadata spam_raw |}.

Definition bacon_extractor : SetupPyMetadataExtractor :=
  {| sp_local := spam_local;
     distribution := match init bacon_raw with Ok d => SDist d | Raise _ => SVal PNone end |}.

(** a descriptor that declares the packages [toast] and [toast.core] *)
Definition toast_raw : Distribution :=
  {| attrs := <["packages" := PList [PStr "toast"; PStr "toast.core"]]> (attrs spam_raw);
     metadata := metadata spam_raw |}.

Definition toast_extractor : SetupPyMetadataExtractor :=
  {| sp_local := spam_local;
     distribution := match init toast_raw with Ok d => SDist d | Raise _ => SVal PNone end |}.

(** *** Descriptions *)

(** a text of 645 characters with line breaks at the positions 320 and
    642 *)
Definition two_breaks : string :=
  String.concat LF
    [String.string_of_list_ascii (repeat "a"%char 320);
     String.string_of_list_ascii (repeat "b"%char 321);
     "cc"].

(** a distribution whose long description is [two_breaks] *)
Definition long_extractor : SetupPyMetadataExtractor :=
  {| sp_local := spam_local;
     distribution :=
       SDist {| attrs := <["long_description" := PStr two_breaks]> (attrs spam_dist);
                metadata := metadata spam_dist |} |}.

End Samples.

(** ** pyp2rpm/module_runners.py: the constructor *)

Module Constructors.
Import ModuleRunners MetadataExtractors.

(** [ModuleRunner.__init__(module, *args)] *)
Definition ModuleRunner_init (lib : Library) (module : string) (args : list string)
  : ModuleRunner :=
  {| dirname := os_path_dirname lib module;
     filename := os_path_basename lib module;
     args := args |}.

End Constructors.

(** ** Further sample inputs *)

Module Cases.
Import ExtractDist ModuleRunners MetadataExtractors.

(** [eggs_raw] after [extract_dist.__init__] *)
Definition eggs_dist : Distribution :=
  match init Samples.eggs_raw with Ok d => d | Raise _ => Samples.eggs_raw end.

(** a distribution object without the attribute [entry_points], as
    plain distutils builds it *)
Definition distutils_raw : Distribution :=
  {| attrs := {[ "packages" := PNone; "py_modules" := PNone; "scripts" := PNone ]};
     metadata := metadata Samples.spam_raw |}.

(** a descriptor that passes a number as [install_requires] *)
Definition numeric_raw : Distribution :=
  {| attrs := <["install_requires" := PInt 5]> (attrs Samples.spam_raw);
     metadata := metadata Samples.spam_raw |}.

(** a library whose [os.path] functions split the paths of the examples,
    which are absolute, in normal form and name a file, at their last
    slash; the other functions as in [Samples.library] *)
Fixpoint after_last_slash (acc s : string) : string :=
  match s with
  | EmptyString => String.rev acc
  | String c s' =>
      if Ascii.eqb c "/" then after_last_slash EmptyString s'
      else after_last_slash (String c acc) s'
  end.

Definition basename (path : string) : string := after_last_slash EmptyString path.

Definition dirname_of (path : string) : string :=
  String.substring 0 (String.length path - String.length (basename path) - 1) path.

Definition path_library : Library :=
  {| re_sub := re_sub Samples.library;
     re_escape := fun s => s;
     textwrap_wrap := textwrap_wrap Samples.library;
     os_path_basename := basename;
     os_path_dirname := dirname_of;
     str_strip := fun s => s;
     temp_name := fun n => "/tmp/tmpab12cd" |}.

(** a build file that is no Python module *)
Definition makefile_runner : ModuleRunner :=
  {| dirname := "/tmp/tmpab12cd/spam-1.0"; filename := "Makefile"; args := [] |}.

(** the interpreter after two runs of [spam_runner] *)
Definition spam_process_twice : Process :=
  {| cwd := "/";
     sys_path := ["/tmp/tmpab12cd/spam-1.0"; "/tmp/tmpab12cd/spam-1.0"];
     sys_argv := ["pyp2rpm"; "--quiet"; "--command-packages"; "command"; "extract_dist"];
     extract_dist_class := ExtractDist.run Samples.spam_dist ExtractDist.class_body |}.

(** a subprocess that prints a JSON document and no marker line *)
Definition shell_bare (dir command : string) : completed :=
  {| returncode := 0; stdout := "[]"; stderr := "" |}.

(** an extracted tree without a descriptor *)
Definition no_setup_py (pattern : string) : list string := [].

(** a registry that knows the release: a summary and classifiers, no
    description *)
Definition good_client : Client :=
  {| release_data := fun name version =>
       Ok (PDict [("name", PStr name); ("summary", PStr "Spam for all");
                  ("license", PStr "UNKNOWN");
                  ("classifiers", PList [PStr "License :: OSI Approved :: MIT License"])]);
     download_url_and_checksum := fun name version =>
       Ok (PStr "https://files.example.org/spam-1.0.tar.gz",
           PStr "0cc175b9c0f1b6a831c399e269772661") |}.

(** the licence that [license_from_trove] reads off the classifiers of
    [good_client]; the other collaborators as in the first examples *)
Definition trove_collaborators : Collaborators :=
  {| deps_from_pyp_format := Samples.normalize_bare;
     deps_from_pydit_json := Samples.normalize_bare;
     license_from_trove := fun classifiers =>
       Ok (PStr (if elem_in (PStr "License :: OSI Approved :: MIT License")
                      (match classifiers with PList l => l | _ => [] end)
                 then "MIT" else ""));
     versions_from_trove := fun classifiers => Ok [];
     remove_major_minor_suffix := fun scripts => Ok scripts;
     rpm_name := fun n python_version => "python-" +:+ n |}.

(** a base record that has a description from the archive *)
Definition described_record : PackageData :=
  <["description" := PStr "Spam, spam, spam"]> Samples.spam_record.

Definition described_extraction (self : LocalMetadataExtractor) : action PackageData :=
  fun w => (w, Ok described_record).

(** a [virtualenv] module whose probe finds the packages of the
    installed distribution *)
Definition probing_virtualenv : VirtualenvModule :=
  {| venv_object := unit;
     VirtualEnv := fun name temp_dir name_convertor python_version => Ok tt;
     get_venv_data := fun extractor =>
       Ok [("packages", PSet {[ "spam" ]}); ("has_pth", PBool false)] |}.

(** a world in which an earlier temporary directory still exists *)
Definition busy_world : World :=
  {| log := []; tempdirs := ["/tmp/tmpzz99yy"]; created := 1 |}.

(** what [runtime_deps] gives on [bacon_extractor], and the extractor it
    leaves *)
Definition bacon_runtime : list pyval * SetupPyMetadataExtractor :=
  match sp_runtime_deps Samples.settings Samples.collaborators Samples.bacon_extractor with
  | Ok x => x
  | Raise _ => ([], Samples.bacon_extractor)
  end.

(** the archive [spam-1.0.tar.gz] with Sphinx documentation in
    [spam-1.0/docs] *)
Definition docs_archive : Archive :=
  {| has_file_with_suffix := fun suffixes => false;
     get_files_re := fun pattern ignorecase full_path =>
       if String.eqb pattern "readme[^/]*" then ["spam-1.0/README.rst"]
       else if String.eqb pattern "spam-1.0/docs/conf.py" then ["spam-1.0/docs/conf.py"]
       else [];
     get_directories_re := fun pattern full_path =>
       ["spam-1.0/doc"; "spam-1.0/docs"];
     json_wheel_metadata := PNone;
     record := PNone;
     wheel_description := PNone |}.

Definition docs_extractor : SetupPyMetadataExtractor :=
  {| sp_local :=
       {| local_file := "spam-1.0.tar.gz"; archive := docs_archive;
          name := "spam"; version := "1.0"; rpm_name_arg := None;
          venv := true; base_python_version := "2"; metadata_extension := true |};
     distribution := SDist Samples.spam_dist |}.

(** the dictionary that Strategy A reads off [docs_extractor] *)
Definition docs_data : list (string * pyval) :=
  match sp_data_from_archive Samples.settings Samples.library Samples.collaborators
          docs_extractor with
  | Ok ad => ad
  | Raise _ => []
  end.

(** a wheel whose metadata file has neither requirement categories nor
    extensions *)
Definition plain_metadata : pyval :=
  PDict [("name", PStr "jam"); ("version", PStr "2.1"); ("summary", PStr "Jam")].

Definition plain_wheel : WheelMetadataExtractor :=
  {| wh_local :=
       {| local_file := "jam-2.1-py2-none-any.whl";
          archive :=
            {| has_file_with_suffix := fun suffixes => false;
               get_files_re := fun pattern ignorecase full_path => [];
               get_directories_re := fun pattern full_path => [];
               json_wheel_metadata := plain_metadata;
               record := PDict [];
               wheel_description := PStr Samples.two_breaks |};
          name := "jam"; version := "2.1"; rpm_name_arg := None;
          venv := false; base_python_version := "2"; metadata_extension := false |} |}.

(** a library whose [textwrap.wrap] breaks a text at its line feeds and
    nowhere else, so that no line holds one; the other functions leave
    their argument as it is *)
Definition line_library : Library :=
  {| re_sub := fun pattern repl text => text;
     re_escape := fun s => s;
     textwrap_wrap := fun text width => split LF text;
     os_path_basename := fun path => path;
     os_path_dirname := fun path => "";
     str_strip := fun s => s;
     temp_name := fun n => "/tmp/tmpab12cd" |}.

(** *** The package set and the probe *)




(** *** A long description *)

(** every line feed replaced by a blank *)
Fixpoint no_breaks (s : string) : string :=
  match s with
  | EmptyString => EmptyString
  | String c s' => String (if Ascii.eqb c LF_char then " "%char else c) (no_breaks s')
  end.

(** the lines that a greedy fill makes of words: a word goes on the
    line [cur] while the line, a blank and the word fit the width *)
Fixpoint fill (width : nat) (cur : string) (words : list string) : list string :=
  match words with
  | [] => [cur]
  | word :: rest =>
      if (String.length cur + 1 + String.length word <=? width)%nat
      then fill width (cur +:+ " " +:+ word) rest
      else cur :: fill width word rest
  end.

(** [textwrap.wrap(text, width)] on a text whose words are no longer
    than the width: line feeds count as blanks, the words are what stands
    between blanks, and the lines are filled greedily *)
Definition wrap (text : string) (width : nat) : list string :=
  match List.filter (fun word => negb (String.eqb word "")) (split " " (no_breaks text)) with
  | [] => []
  | word :: rest => fill width word rest
  end.

(** The library on a text of words that are separated by single blanks
    or single line feeds, without markup, addresses or delimiter
    characters, and with lines longer than eight characters: of the five
    substitutions only the one for white space finds a match, and it
    turns every line feed into a blank. *)
Definition wrap_library : Library :=
  {| re_sub := fun pattern repl text =>
       if String.eqb pattern pattern_whitespace then no_breaks text else text;
     re_escape := fun s => s;
     textwrap_wrap := wrap;
     os_path_basename := fun path => path;
     os_path_dirname := fun path => "";
     str_strip := fun s => s;
     temp_name := fun n => "/tmp/tmpab12cd" |}.

(** a long description of eleven lines of 69 characters: 769 characters,
    with line feeds at the positions 69, 139, ..., 629 and 699 *)
Definition spam_line : string :=
  String.concat " " (repeat "spam and eggs" 5).

Definition spam_lines : string := String.concat LF (repeat spam_line 11).

Definition wordy_extractor : SetupPyMetadataExtractor :=
  {| sp_local := Samples.spam_local;
     distribution :=
       SDist {| attrs := <["long_description" := PStr spam_lines]> (attrs Samples.spam_dist);
                metadata := metadata Samples.spam_dist |} |}.

(** *** Declared requirements *)







End Cases.

(** * Properties *)

Import ExtractDist ModuleRunners MetadataExtractors.

(** ** Strings *)

Example split_lines : split LF ("a" +:+ LF +:+ "b" +:+ LF) = ["a"; "b"; ""].
Proof. reflexivity. Qed.

Example split_marker_last :
  List.last (split marker ("noise" +:+ LF +:+ marker +:+ "{}")) "" = "{}".
Proof. reflexivity. Qed.

Example find_from_start : find "b" 2 "abcb" = 3.
Proof. reflexivity. Qed.

Example slice_negative : slice_to (-3) "setup.py" = "setup".
Proof. reflexivity. Qed.

Example lower_mixed : lower "LICENSE.txt" = "license.txt".
Proof. reflexivity. Qed.

(** a text in which the separator does not occur is its own single
    piece *)
Lemma split_go_absent (sep s cur : string) :
  String.index 0 sep s = None ->
  split_go sep 0 cur s = [String.rev_app cur s].
Proof.
  revert cur. induction s as [|c s IH]; intros cur H; [reflexivity|].
  cbn [split_go]. cbn [String.index] in H.
  destruct (String.prefix sep (String c s)); [discriminate|].
  destruct (String.index 0 sep s) as [n|] eqn:E; [discriminate|].
  now rewrite IH.
Qed.

Lemma split_absent (sep s : string) : str_in sep s = false -> split sep s = [s].
Proof.
  unfold str_in, split. intros H.
  destruct (String.index 0 sep s) eqn:E; [discriminate|].
  now rewrite split_go_absent.
Qed.

(** ** extract_dist: coercion of absent fields *)

Lemma to_list_is_list v r : to_list v = Ok r -> exists l, r = PList l.
Proof.
  destruct v; simpl; intros H; try (inversion H; eauto; fail).
Qed.

Lemma to_list_absent v : v = PList [] \/ v = PNone -> to_list v = Ok (PList []).
Proof. intros [-> | ->]; reflexivity. Qed.

Lemma to_str_is_str v : exists s, to_str v = PStr s.
Proof. destruct v; simpl; eauto. Qed.

Lemma to_str_sentinel v : (forall s, v <> PStr s) -> to_str v = PStr "TODO".
Proof. destruct v; simpl; intros H; try reflexivity. now destruct (H s). Qed.

Lemma bind_ok_inv {A B : Type} (m : result A) (f : A -> result B) (b : B) :
  mbind f m = Ok b -> exists a, m = Ok a /\ f a = Ok b.
Proof. destruct m as [a|e]; simpl; [eauto | discriminate]. Qed.

(** a result that is [Ok] holds the value that a [match] with a default
    takes from it *)
Lemma ok_default {A : Type} (r : result A) (d : A) :
  is_ok r = true -> r = Ok (match r with Ok a => a | Raise _ => d end).
Proof. destruct r; [reflexivity | discriminate]. Qed.

(** stepping through [x ← m; k] in a hypothesis that the whole is [Ok] *)
Tactic Notation "bind_inv" hyp(H) ident(x) ident(Hx) :=
  apply bind_ok_inv in H; destruct H as (x & Hx & H).

(** the first pass of [__init__] over any list of distinct attributes *)
Lemma list_pass_spec (l : list string) (d d1 : Distribution) :
  NoDup l ->
  for_each coerce_list_attr l d = Ok d1 ->
  metadata d1 = metadata d /\
  (forall a, a ∈ l ->
     exists v, to_list (getattr_or (attrs d) a (PList [])) = Ok v /\
               attrs d1 !! a = Some v) /\
  (forall a, a ∉ l -> attrs d1 !! a = attrs d !! a).
Proof.
  revert d. induction l as [|x l IH]; intros d Hnd H; simpl in H.
  - inversion H; subst. split; [reflexivity|]. split; [|reflexivity].
    intros a Ha. inversion Ha.
  - apply NoDup_cons in Hnd as [Hx Hnd].
    destruct (coerce_list_attr d x) as [d0|e] eqn:Hd0; [|discriminate].
    unfold coerce_list_attr in Hd0. bind_inv Hd0 v Hv. inversion Hd0; subst d0.
    destruct (IH _ Hnd H) as (Hm & Hin & Hout).
    split; [exact Hm|]. split.
    + intros a Ha. apply elem_of_cons in Ha as [-> | Ha].
      * exists v. split; [exact Hv|].
        rewrite (Hout x Hx). simpl. unfold setattr. apply lookup_insert_eq.
      * destruct (Hin a Ha) as (v' & Hv' & Hl). exists v'. split; [|exact Hl].
        assert (a <> x) by (intros ->; contradiction).
        revert Hv'. unfold getattr_or. simpl. unfold setattr.
        rewrite lookup_insert_ne by congruence. auto.
    + intros a Ha. apply not_elem_of_cons in Ha as [Hne Ha].
      rewrite (Hout a Ha). simpl. unfold setattr.
      apply lookup_insert_ne. congruence.
Qed.

(** the second pass of [__init__] *)
Lemma str_pass_spec (l : list string) (d : Distribution) :
  NoDup l ->
  metadata (fold_left coerce_str_attr l d) = metadata d /\
  (forall a, a ∈ l ->
     attrs (fold_left coerce_str_attr l d) !! a
     = Some (to_str (getattr_or (metadata d) a PNone))) /\
  (forall a, a ∉ l -> attrs (fold_left coerce_str_attr l d) !! a = attrs d !! a).
Proof.
  revert d. induction l as [|x l IH]; intros d Hnd; simpl.
  - split; [reflexivity|]. split; [|reflexivity].
    intros a Ha. inversion Ha.
  - apply NoDup_cons in Hnd as [Hx Hnd].
    destruct (IH (coerce_str_attr d x) Hnd) as (Hm & Hin & Hout). simpl in *.
    split; [exact Hm|]. split.
    + intros a Ha. apply elem_of_cons in Ha as [-> | Ha].
      * rewrite (Hout x Hx). unfold setattr. apply lookup_insert_eq.
      * apply (Hin a Ha).
    + intros a Ha. apply not_elem_of_cons in Ha as [Hne Ha].
      rewrite (Hout a Ha). unfold setattr. apply lookup_insert_ne. congruence.
Qed.

Lemma list_attrs_nodup : NoDup list_attrs.
Proof.
  unfold list_attrs.
  apply (bool_decide_eq_true_1 _). vm_compute. reflexivity.
Qed.

Lemma str_attrs_nodup : NoDup str_attrs.
Proof.
  unfold str_attrs.
  apply (bool_decide_eq_true_1 _). vm_compute. reflexivity.
Qed.

Lemma list_attrs_apart a :
  a ∈ list_attrs -> (a ∉ str_attrs) /\ a <> "classifiers" /\ a <> "entry_points".
Proof.
  unfold list_attrs, str_attrs. rewrite !elem_of_cons, elem_of_nil.
  intros H. repeat destruct H as [-> | H];
    first [ contradiction
          | split; [intuition discriminate | split; discriminate] ].
Qed.

Lemma str_attrs_apart a :
  a ∈ str_attrs -> a <> "classifiers" /\ a <> "entry_points".
Proof.
  unfold str_attrs. rewrite !elem_of_cons, elem_of_nil.
  intros H. repeat destruct H as [-> | H];
    first [ contradiction | split; discriminate ].
Qed.

(** the first pass completes when every list-like attribute can be made
    a list *)
Lemma list_pass_total (l : list string) (d : Distribution) :
  NoDup l ->
  (forall a, a ∈ l -> is_ok (to_list (getattr_or (attrs d) a (PList []))) = true) ->
  exists d1, for_each coerce_list_attr l d = Ok d1.
Proof.
  revert d. induction l as [|x l IH]; intros d Hnd Hok; simpl; [eauto|].
  apply NoDup_cons in Hnd as [Hx Hnd].
  unfold coerce_list_attr at 1.
  destruct (to_list (getattr_or (attrs d) x (PList []))) as [v|e] eqn:Hv.
  - simpl. apply IH; [exact Hnd|]. intros a Ha.
    assert (a <> x) by (intros ->; contradiction).
    unfold getattr_or. simpl. unfold setattr. rewrite lookup_insert_ne by congruence.
    apply Hok. now right.
  - specialize (Hok x (list_elem_of_here x l)). rewrite Hv in Hok. discriminate.
Qed.

(** [__init__] completes on a distribution that has the attribute
    [entry_points] and whose list-like fields can be made lists *)
Lemma init_completes (dist : Distribution) :
  (forall a, a ∈ list_attrs ->
     is_ok (to_list (getattr_or (attrs dist) a (PList []))) = true) ->
  is_ok (to_list (getattr_or (metadata dist) "classifiers" (PList []))) = true ->
  is_Some (attrs dist !! "entry_points") ->
  exists dist', init dist = Ok dist'.
Proof.
  intros Hl Hc [ep Hep]. unfold init.
  destruct (list_pass_total _ _ list_attrs_nodup Hl) as (d1 & H1). rewrite H1.
  cbn [mbind result_bind]. cbv zeta.
  destruct (list_pass_spec _ _ _ list_attrs_nodup H1) as (Hm1 & _ & Hout1).
  destruct (str_pass_spec str_attrs d1 str_attrs_nodup) as (Hm2 & _ & Hout2).
  set (d2 := fold_left coerce_str_attr str_attrs d1) in *.
  rewrite Hm2, Hm1.
  destruct (to_list (getattr_or (metadata dist) "classifiers" (PList []))) as [c|e];
    [|discriminate]. cbn [mbind result_bind set_dist_attr attrs].
  assert (Hep' : attrs d2 !! "entry_points" = Some ep).
  { rewrite Hout2, Hout1; [exact Hep | |].
    - unfold list_attrs. rewrite !not_elem_of_cons.
      repeat split; try discriminate. apply not_elem_of_nil.
    - unfold str_attrs. rewrite !not_elem_of_cons.
      repeat split; try discriminate. apply not_elem_of_nil. }
  unfold getattr, setattr. rewrite lookup_insert_ne by discriminate. rewrite Hep'.
  cbn [mbind result_bind].
  destruct (truthy ep && negb (is_dict ep)); eauto.
Qed.

(** what [__init__] leaves in the eleven coerced fields, in terms of the
    distribution it was given *)
Lemma init_fields (dist dist' : Distribution) :
  init dist = Ok dist' ->
  (forall a, a ∈ list_attrs ->
     exists v, to_list (getattr_or (attrs dist) a (PList [])) = Ok v /\
               attrs dist' !! a = Some v) /\
  (exists c, to_list (getattr_or (metadata dist) "classifiers" (PList [])) = Ok c /\
             attrs dist' !! "classifiers" = Some c) /\
  (forall a, a ∈ str_attrs ->
     attrs dist' !! a = Some (to_str (getattr_or (metadata dist) a PNone))).
Proof.
  unfold init. intros H.
  bind_inv H d1 H1. cbv zeta in H.
  destruct (list_pass_spec _ _ _ list_attrs_nodup H1) as (Hm1 & Hin1 & Hout1).
  destruct (str_pass_spec str_attrs d1 str_attrs_nodup) as (Hm2 & Hin2 & Hout2).
  set (d2 := fold_left coerce_str_attr str_attrs d1) in *.
  bind_inv H c Hc.
  set (d3 := set_dist_attr d2 "classifiers" c) in *.
  bind_inv H ep Hep.
  assert (Hfinal : forall a, a <> "entry_points" -> attrs dist' !! a = attrs d3 !! a).
  { intros a Ha.
    destruct (truthy ep && negb (is_dict ep)); inversion H; subst; [|reflexivity].
    simpl. unfold setattr. apply lookup_insert_ne. congruence. }
  assert (H3 : forall a, a <> "classifiers" -> attrs d3 !! a = attrs d2 !! a).
  { intros a Ha. subst d3. simpl. unfold setattr. apply lookup_insert_ne. congruence. }
  split; [|split].
  - intros a Ha. destruct (Hin1 a Ha) as (v & Hv & Hl). exists v. split; [exact Hv|].
    destruct (list_attrs_apart a Ha) as (Hs & Hc' & He).
    rewrite (Hfinal a He), (H3 a Hc'), (Hout2 a Hs). exact Hl.
  - exists c. split.
    + rewrite <- Hc. rewrite Hm2, Hm1. reflexivity.
    + rewrite Hfinal by discriminate. subst d3. simpl. unfold setattr.
      apply lookup_insert_eq.
  - intros a Ha. destruct (str_attrs_apart a Ha) as (Hc' & He).
    rewrite (Hfinal a He), (H3 a Hc'), (Hin2 a Ha), Hm1. reflexivity.
Qed.

(** C4.  After [extract_dist.__init__] has completed, each of the
    list-like fields ([setup_requires], [tests_require],
    [install_requires], [conflicts], [packages], [py_modules], and
    [classifiers], which is read from the metadata object) that was absent
    or [None] is the empty list, each of the free-text fields ([url],
    [long_description], [description], [license]) that was absent or not a
    string is the sentinel string, and none of the eleven fields is left
    as an uncoerced value: the former are lists, the latter strings. *)
Theorem init_coerces_absent_fields (dist dist' : Distribution) :
  init dist = Ok dist' ->
  (forall a, a ∈ list_attrs ->
     attrs dist !! a = None \/ attrs dist !! a = Some PNone ->
     attrs dist' !! a = Some (PList [])) /\
  (metadata dist !! "classifiers" = None \/ metadata dist !! "classifiers" = Some PNone ->
     attrs dist' !! "classifiers" = Some (PList [])) /\
  (forall a, a ∈ str_attrs ->
     (forall s, metadata dist !! a <> Some (PStr s)) ->
     attrs dist' !! a = Some (PStr "TODO")) /\
  (forall a, a ∈ list_attrs ++ ["classifiers"] ->
     exists l, attrs dist' !! a = Some (PList l)) /\
  (forall a, a ∈ str_attrs -> exists s, attrs dist' !! a = Some (PStr s)).
Proof.
  intros H. destruct (init_fields _ _ H) as (Hl & (c & Hc & Hcl) & Hs).
  split; [|split; [|split; [|split]]].
  - intros a Ha Habs. destruct (Hl a Ha) as (v & Hv & Hlk).
    rewrite Hlk. f_equal.
    rewrite to_list_absent in Hv; [congruence|].
    unfold getattr_or. destruct Habs as [-> | ->]; auto.
  - intros Habs. rewrite Hcl. f_equal.
    rewrite to_list_absent in Hc; [congruence|].
    unfold getattr_or. destruct Habs as [-> | ->]; auto.
  - intros a Ha Hns. rewrite (Hs a Ha). f_equal.
    apply to_str_sentinel. intros s. unfold getattr_or.
    destruct (metadata dist !! a) as [v|] eqn:E; [|discriminate].
    intros ->. exact (Hns s eq_refl).
  - intros a Ha. apply elem_of_app in Ha as [Ha | Ha].
    + destruct (Hl a Ha) as (v & Hv & Hlk).
      destruct (to_list_is_list _ _ Hv) as (l & ->). eauto.
    + apply list_elem_of_singleton in Ha as ->.
      destruct (to_list_is_list _ _ Hc) as (l & ->). eauto.
  - intros a Ha. rewrite (Hs a Ha).
    destruct (to_str_is_str (getattr_or (metadata dist) a PNone)) as (s & ->). eauto.
Qed.

Lemma init_coerces_absent_fields_witness :
  init Samples.spam_raw = Ok Samples.spam_dist /\
  attrs Samples.spam_dist !! "packages" = Some (PList []) /\
  attrs Samples.spam_dist !! "setup_requires" = Some (PList []) /\
  attrs Samples.spam_dist !! "license" = Some (PStr "TODO").
Proof.
  assert (H : init Samples.spam_raw = Ok Samples.spam_dist)
    by (apply ok_default; vm_compute; reflexivity).
  destruct (init_coerces_absent_fields _ _ H) as (Hl & _ & Hs & _).
  split; [exact H|]. split; [|split].
  - apply Hl; [unfold list_attrs; rewrite !elem_of_cons; tauto
              | right; vm_compute; reflexivity].
  - apply Hl; [unfold list_attrs; rewrite !elem_of_cons; tauto
              | left; vm_compute; reflexivity].
  - apply Hs; [unfold str_attrs; rewrite !elem_of_cons; tauto |].
    intros s. vm_compute. discriminate.
Defined.

(** ** module_runners: the in-process handoff *)

Lemma run_stores_class_dist self modules p p' :
  ModuleRunners.run self modules p = Ok p' ->
  exists d, extract_dist_class p' = ExtractDist.run d (extract_dist_class p).
Proof.
  unfold ModuleRunners.run. intros H.
  destruct (not_suffixed (filename self)) as [mod_name|]; [|discriminate].
  destruct (modules mod_name) as [script|]; [|discriminate].
  bind_inv H cls Hcls. inversion H; subst; simpl.
  unfold run_extract_dist in Hcls.
  bind_inv Hcls d Hd. bind_inv Hcls d' Hd'. inversion Hcls. eauto.
Qed.

(** what the sibling of the runner, [SetupPyMetadataExtractor.__init__],
    reads after a run: the slot [class_dist], which holds the captured
    distribution *)
Lemma read_class_dist_after_run self modules p p' :
  ModuleRunners.run self modules p = Ok p' ->
  exists d, read_class_dist p' = Ok (SDist d).
Proof.
  intros H. destruct (run_stores_class_dist _ _ _ _ H) as (d & Hd).
  exists d. unfold read_class_dist, class_getattr. rewrite Hd.
  unfold ExtractDist.run. now rewrite lookup_insert_eq.
Qed.

(** the sibling in full: the extractor of Strategy A, after its own
    in-process run, holds the captured distribution *)
Lemma SetupPy_init_holds_capture lib base glob modules p w w' self p' :
  SetupPy_init lib base glob modules p w = (w', Ok (self, p')) ->
  exists d, distribution self = SDist d /\
            extract_dist_class p' !! "class_dist" = Some (SDist d).
Proof.
  unfold SetupPy_init. destruct (mkdtemp lib w) as [temp_dir w1].
  intros H. inversion H as [[Hw Hr]]. clear H Hw.
  destruct (glob _) as [|setup_py found]; [discriminate|].
  bind_inv Hr q Hq. bind_inv Hr sl Hsl. inversion Hr; subst. simpl.
  unfold current_interpreter_run in Hq.
  destruct (modules _) as [script|]; [|discriminate].
  bind_inv Hq cls Hcls. inversion Hq as [Hp]. rewrite <- Hp in Hsl. simpl in Hsl.
  unfold run_extract_dist in Hcls.
  bind_inv Hcls d0 Hd0. bind_inv Hcls d Hd. inversion Hcls; subst cls.
  unfold class_getattr, ExtractDist.run in Hsl. rewrite lookup_insert_eq in Hsl.
  inversion Hsl; subst sl. exists d. split; [reflexivity|].
  cbn [extract_dist_class]. unfold ExtractDist.run. apply lookup_insert_eq.
Qed.

(** C1.  The code does not do what the claim says.  [extract_dist.run]
    stores the captured distribution in the class attribute [class_dist],
    and [ModuleRunner.results] reads the class attribute [class_metadata],
    which nothing defines: after every completed [run()], [results] raises
    [AttributeError] instead of returning the captured distribution, which
    sits in [class_dist]. *)
Theorem results_misses_handoff self modules p p' :
  extract_dist_class p !! "class_metadata" = None ->
  ModuleRunners.run self modules p = Ok p' ->
  results p' = Raise AttributeError /\
  exists d, extract_dist_class p' !! "class_dist" = Some (SDist d).
Proof.
  intros Hnone H. destruct (run_stores_class_dist _ _ _ _ H) as (d & Hd).
  split.
  - unfold results, class_getattr. rewrite Hd. unfold ExtractDist.run.
    rewrite lookup_insert_ne by discriminate. now rewrite Hnone.
  - exists d. rewrite Hd. unfold ExtractDist.run. apply lookup_insert_eq.
Qed.

Lemma results_misses_handoff_witness :
  ModuleRunners.run Samples.spam_runner Samples.spam_modules Samples.fresh_process
    = Ok Samples.spam_process /\
  results Samples.spam_process = Raise AttributeError /\
  exists d, extract_dist_class Samples.spam_process !! "class_dist" = Some (SDist d).
Proof.
  assert (H : ModuleRunners.run Samples.spam_runner Samples.spam_modules
                Samples.fresh_process = Ok Samples.spam_process)
    by (vm_compute; reflexivity).
  split; [exact H|].
  apply (results_misses_handoff _ _ _ _ (eq_refl : extract_dist_class Samples.fresh_process !! "class_metadata" = None) H).
Defined.

(** ** module_runners: the out-of-process runner *)

(** The claim C2 does not hold as stated.  A subprocess that exits with
    status 1 after printing the marker and a JSON document: [run] logs the
    error and goes on, and ends with the result stored.  A subprocess that
    prints nothing: [run] fails, with the decoder's exception and not with
    [SandboxExecutionError]. *)
Lemma extern_run_nonzero_continues :
  (returncode (Samples.shell_exit_1 "" "") <> 0 /\
   extern_run Samples.decode_ascii Samples.loads_few "/usr/lib/pyp2rpm" "python2"
     Samples.shell_exit_1 Samples.spam_extern []
   = ([subprocess_failed],
      Ok {| base := Samples.spam_runner; _result := Some (PDict []) |})) /\
  (Samples.loads_few (List.last (split marker (stdout (Samples.shell_silent "" ""))) "")
   = Raise JSONDecodeError /\
   extern_run Samples.decode_ascii Samples.loads_few "/usr/lib/pyp2rpm" "python2"
     Samples.shell_silent Samples.spam_extern []
   = ([], Raise JSONDecodeError)).
Proof.
  split; split; try reflexivity. discriminate.
Qed.

(** an output without the marker is parsed whole *)
Lemma segment_without_marker (text : string) :
  str_in marker text = false -> List.last (split marker text) "" = text.
Proof. intros H. now rewrite split_absent. Qed.

Section ExternFacts.

Variable decode_utf8 : string -> result string.
Variable json_loads : string -> result pyval.
Variable main_dir : string.
Variable PYTHON2_INTERPRETER : string.
Variable shell : string -> string -> completed.

Let proc_of (self : ExternModuleRunner) : completed :=
  shell (dirname (base self)) (join " " (command_list main_dir PYTHON2_INTERPRETER self)).

Let run_of (self : ExternModuleRunner) (log : list log_record) :=
  extern_run decode_utf8 json_loads main_dir PYTHON2_INTERPRETER shell self log.

(** C2, amended.  For every descriptor executed in out-of-process mode: a
    non-zero return code is logged as an error and execution goes on (a
    zero return code logs nothing); [run] fails exactly when the standard
    output cannot be decoded or the text after the last marker line is not
    parseable, and the exception that reaches the caller is the decoder's
    own; when that text is parseable, [run] stores the parsed result,
    whatever the return code. *)
Theorem extern_run_outcome (self : ExternModuleRunner) (log : list log_record) :
  (returncode (proc_of self) <> 0 -> fst (run_of self log) = log ++ [subprocess_failed]) /\
  (returncode (proc_of self) = 0 -> fst (run_of self log) = log) /\
  (forall e, decode_utf8 (stdout (proc_of self)) = Raise e ->
     snd (run_of self log) = Raise e) /\
  (forall text e,
     decode_utf8 (stdout (proc_of self)) = Ok text ->
     json_loads (List.last (split marker text) "") = Raise e ->
     snd (run_of self log) = Raise e) /\
  (forall text v,
     decode_utf8 (stdout (proc_of self)) = Ok text ->
     json_loads (List.last (split marker text) "") = Ok v ->
     snd (run_of self log) = Ok {| base := base self; _result := Some v |} /\
     extern_results {| base := base self; _result := Some v |} = v).
Proof.
  unfold run_of, proc_of, extern_run. simpl.
  repeat split.
  - intros Hrc. apply Z.eqb_neq in Hrc. now rewrite Hrc.
  - intros Hrc. apply Z.eqb_eq in Hrc. now rewrite Hrc.
  - intros e He. now rewrite He.
  - intros text e Ht He. rewrite Ht. simpl. now rewrite He.
  - rewrite H. simpl. now rewrite H0.
Qed.

End ExternFacts.

Lemma extern_run_outcome_witness :
  fst (extern_run Samples.decode_ascii Samples.loads_few "/usr/lib/pyp2rpm" "python2"
         Samples.shell_exit_1 Samples.spam_extern [])
    = [subprocess_failed] /\
  snd (extern_run Samples.decode_ascii Samples.loads_few "/usr/lib/pyp2rpm" "python2"
         Samples.shell_exit_1 Samples.spam_extern [])
    = Ok {| base := Samples.spam_runner; _result := Some (PDict []) |} /\
  snd (extern_run Samples.decode_ascii Samples.loads_few "/usr/lib/pyp2rpm" "python2"
         Samples.shell_silent Samples.spam_extern [])
    = Raise JSONDecodeError.
Proof.
  destruct (extern_run_outcome Samples.decode_ascii Samples.loads_few
              "/usr/lib/pyp2rpm" "python2" Samples.shell_exit_1 Samples.spam_extern [])
    as (Hlog & _ & _ & _ & Hok).
  destruct (extern_run_outcome Samples.decode_ascii Samples.loads_few
              "/usr/lib/pyp2rpm" "python2" Samples.shell_silent Samples.spam_extern [])
    as (_ & _ & _ & Hbad & _).
  split; [|split].
  - apply Hlog. simpl. discriminate.
  - apply (Hok ("warning: no files found" +:+ LF +:+ marker +:+ "{}") (PDict []));
      reflexivity.
  - apply (Hbad "" JSONDecodeError); reflexivity.
Defined.

(** ** metadata_extractors: the registry overlay *)

Section RegistryOverlay.

Variable settings : Settings.
Variable collab : Collaborators.
Variable extraction_fce : LocalMetadataExtractor -> action PackageData.
Variable self : LocalMetadataExtractor.

(** the failures that the [try] block of the overlay covers: no client,
    or a lookup of the release that raises *)
Lemma pypi_lookup_failure_keeps_record (client : option Client) w w1 data :
  extraction_fce self w = (w1, Ok data) ->
  (client = None \/
   exists c e, client = Some c /\ release_data c (name self) (version self) = Raise e) ->
  pypi_metadata_extension settings collab extraction_fce self client w
  = (emit communication_warning w1, Ok data).
Proof.
  intros Hbase Hfail. unfold pypi_metadata_extension. rewrite Hbase.
  destruct Hfail as [-> | (c & e & -> & He)]; [reflexivity|].
  now rewrite He.
Qed.

(** C3.  The code does not do what the claim says.  The query for the URL
    and the checksum, [get_url(client, ...)], stands after the [try] block
    of the overlay: when the lookup of the release has succeeded and this
    second query to the registry fails, its exception leaves the overlay,
    and the caller receives no record. *)
Theorem pypi_url_failure_escapes (c : Client) w w1 data rel e :
  extraction_fce self w = (w1, Ok data) ->
  release_data c (name self) (version self) = Ok rel ->
  get_url c (name self) (version self) = Raise e ->
  pypi_metadata_extension settings collab extraction_fce self (Some c) w
  = (w1, Raise e).
Proof.
  intros Hbase Hrel Hurl. unfold pypi_metadata_extension.
  rewrite Hbase, Hrel. simpl. now rewrite Hurl.
Qed.

End RegistryOverlay.

Lemma pypi_url_failure_escapes_witness :
  pypi_metadata_extension Samples.settings Samples.collaborators
    Samples.spam_extraction Samples.spam_local (Some Samples.flaky_client)
    Samples.quiet_world
  = (Samples.quiet_world, Raise (OtherError "ProtocolError")).
Proof.
  apply (pypi_url_failure_escapes Samples.settings Samples.collaborators
           Samples.spam_extraction Samples.spam_local Samples.flaky_client
           Samples.quiet_world Samples.quiet_world Samples.spam_record
           (PDict [("name", PStr "spam")]) (OtherError "ProtocolError"));
    reflexivity.
Defined.

Example pypi_dead_registry :
  pypi_metadata_extension Samples.settings Samples.collaborators
    Samples.spam_extraction Samples.spam_local (Some Samples.dead_client)
    Samples.quiet_world
  = (emit communication_warning Samples.quiet_world, Ok Samples.spam_record).
Proof. reflexivity. Qed.

(** ** metadata_extractors: the environment probe overlay *)

Section EnvironmentOverlay.

Variable lib : Library.
Variable collab : Collaborators.
Variable venv_mod : VirtualenvModule.
Variable extraction_fce : LocalMetadataExtractor -> action PackageData.
Variable self : LocalMetadataExtractor.

(** the failure that the handler names, [VirtualenvFailException]: the
    overlay logs an error and returns the record of the base extraction *)
Lemma venv_named_failure_handled w w1 data :
  extraction_fce self w = (w1, Ok data) ->
  venv self = true ->
  provision collab venv_mod self (temp_name lib (created w1))
    = Raise VirtualenvFailException ->
  let out := venv_metadata_extension lib collab (Some venv_mod) extraction_fce self w in
  snd out = Ok data /\ log (fst out) = log w1 ++ [skipping_venv].
Proof.
  intros Hbase Hvenv Hfail. unfold venv_metadata_extension.
  rewrite Hbase, Hvenv. simpl. rewrite Hfail. simpl. split; reflexivity.
Qed.

(** an exception of another class passes through the [finally] clause:
    nothing is logged, the exception leaves *)
Lemma venv_other_exception_escapes w w1 data e :
  extraction_fce self w = (w1, Ok data) ->
  venv self = true ->
  provision collab venv_mod self (temp_name lib (created w1)) = Raise e ->
  e <> VirtualenvFailException ->
  let out := venv_metadata_extension lib collab (Some venv_mod) extraction_fce self w in
  snd out = Raise e /\ log (fst out) = log w1.
Proof.
  intros Hbase Hvenv Hfail Hne. unfold venv_metadata_extension.
  rewrite Hbase, Hvenv. simpl. rewrite Hfail.
  destruct e; try (split; reflexivity). contradiction.
Qed.

(** the [finally] clause: whatever the provisioning raises, the temporary
    directory is removed *)
Lemma venv_failure_removes_directory w w1 data e :
  extraction_fce self w = (w1, Ok data) ->
  venv self = true ->
  provision collab venv_mod self (temp_name lib (created w1)) = Raise e ->
  temp_name lib (created w1)
    ∉ tempdirs (fst (venv_metadata_extension lib collab (Some venv_mod)
                       extraction_fce self w)).
Proof.
  intros Hbase Hvenv Hfail. unfold venv_metadata_extension.
  rewrite Hbase, Hvenv. simpl. rewrite Hfail.
  assert (Hgone : forall l : list string,
            temp_name lib (created w1)
              ∉ List.filter (fun x => negb (String.eqb x (temp_name lib (created w1)))) l).
  { intros l Hin. apply list_elem_of_In, filter_In in Hin as [_ Hne].
    now rewrite String.eqb_refl in Hne. }
  destruct e; simpl; rewrite String.eqb_refl; apply Hgone.
Qed.

(** C8.  The claim holds for one class of failure only.  For every base
    record and every exception that the provisioning of the environment
    raises: when it is the [VirtualenvFailException] that the handler
    names, the overlay logs the failure as an error and returns the record
    of the base extraction unchanged; when it is of any other class, the
    overlay logs nothing and the exception leaves it, so that the caller
    gets no record.  In both cases the temporary directory is gone. *)
Theorem venv_failure_outcome w w1 data e :
  extraction_fce self w = (w1, Ok data) ->
  venv self = true ->
  provision collab venv_mod self (temp_name lib (created w1)) = Raise e ->
  let out := venv_metadata_extension lib collab (Some venv_mod) extraction_fce self w in
  (e = VirtualenvFailException ->
   snd out = Ok data /\ log (fst out) = log w1 ++ [skipping_venv]) /\
  (e <> VirtualenvFailException ->
   snd out = Raise e /\ log (fst out) = log w1) /\
  (temp_name lib (created w1) ∉ tempdirs (fst out)).
Proof.
  intros Hbase Hvenv Hfail. cbv zeta. split; [|split].
  - intros ->. exact (venv_named_failure_handled _ _ _ Hbase Hvenv Hfail).
  - intros Hne. exact (venv_other_exception_escapes _ _ _ _ Hbase Hvenv Hfail Hne).
  - exact (venv_failure_removes_directory _ _ _ _ Hbase Hvenv Hfail).
Qed.

End EnvironmentOverlay.

Lemma venv_failure_outcome_witness :
  snd (venv_metadata_extension Samples.library Samples.collaborators
         (Some Samples.failing_virtualenv) Samples.spam_extraction Samples.spam_local
         Samples.quiet_world)
    = Ok Samples.spam_record /\
  snd (venv_metadata_extension Samples.library Samples.collaborators
         (Some Samples.failing_install) Samples.spam_extraction Samples.spam_local
         Samples.quiet_world)
    = Ok Samples.spam_record /\
  snd (venv_metadata_extension Samples.library Samples.collaborators
         (Some Samples.crashing_virtualenv) Samples.spam_extraction Samples.spam_local
         Samples.quiet_world)
    = Raise (OtherError "OSError").
Proof.
  split; [|split].
  - apply (venv_failure_outcome Samples.library Samples.collaborators
             Samples.failing_virtualenv Samples.spam_extraction Samples.spam_local
             Samples.quiet_world Samples.quiet_world Samples.spam_record
             VirtualenvFailException); reflexivity.
  - apply (venv_failure_outcome Samples.library Samples.collaborators
             Samples.failing_install Samples.spam_extraction Samples.spam_local
             Samples.quiet_world Samples.quiet_world Samples.spam_record
             VirtualenvFailException); reflexivity.
  - apply (venv_failure_outcome Samples.library Samples.collaborators
             Samples.crashing_virtualenv Samples.spam_extraction Samples.spam_local
             Samples.quiet_world Samples.quiet_world Samples.spam_record
             (OtherError "OSError")); try reflexivity. discriminate.
Defined.

(** The claim as it was made fails when the environment cannot be built
    for a reason that the handler does not name: the [OSError] of the
    constructor leaves the overlay, nothing is logged, and the caller gets
    no record. *)
Lemma venv_unnamed_failure_escapes :
  provision Samples.collaborators Samples.crashing_virtualenv Samples.spam_local
    "/tmp/tmpab12cd" = Raise (OtherError "OSError") /\
  snd (venv_metadata_extension Samples.library Samples.collaborators
         (Some Samples.crashing_virtualenv) Samples.spam_extraction Samples.spam_local
         Samples.quiet_world)
    = Raise (OtherError "OSError") /\
  log (fst (venv_metadata_extension Samples.library Samples.collaborators
              (Some Samples.crashing_virtualenv) Samples.spam_extraction
              Samples.spam_local Samples.quiet_world)) = [].
Proof. repeat split; reflexivity. Qed.

(** ** metadata_extractors: the split of documentation files *)

Lemma marker_test_agrees (markers : list string) (doc : string) :
  Forall Spec.lower_case markers ->
  existsb (fun s => str_in s (lower doc)) markers = Spec.holds_marker markers doc.
Proof.
  unfold Spec.holds_marker. induction 1 as [|m markers Hm _ IH]; simpl; [reflexivity|].
  rewrite IH. unfold Spec.lower_case in Hm. now rewrite Hm.
Qed.

Lemma forallb_negb_existsb {A} (f : A -> bool) (l : list A) :
  forallb (fun x => negb (f x)) l = negb (existsb f l).
Proof. induction l as [|x l IH]; simpl; [reflexivity|]. rewrite IH. now destruct (f x). Qed.

Lemma count_occ_split (f : string -> bool) (l : list string) (d : string) :
  count_occ string_dec l d
  = (count_occ string_dec (List.filter f l) d
     + count_occ string_dec (List.filter (fun x => negb (f x)) l) d)%nat.
Proof.
  induction l as [|x l IH]; simpl; [reflexivity|].
  destruct (f x); simpl; destruct (string_dec x d); simpl; lia.
Qed.

(** C7.  For every list of candidates, [separate_license_files] splits
    it into two lists that keep the order of the candidates, every
    occurrence of a candidate being in exactly one of them; with the
    markers configured in lower case, the licenses are exactly the
    candidates that hold one of the markers case-insensitively and the
    others are all the remaining candidates; and the candidates
    [LICENSE.txt], [README.rst], [COPYING] with the markers [license],
    [copying] give the licenses [LICENSE.txt], [COPYING] and the other
    [README.rst]. *)
Theorem separate_license_files_partition (markers doc_files : list string) :
  let other := fst (separate_license_files markers doc_files) in
  let licenses := snd (separate_license_files markers doc_files) in
  (forall doc, count_occ string_dec doc_files doc
               = (count_occ string_dec licenses doc + count_occ string_dec other doc)%nat) /\
  (forall doc, In doc licenses -> ~ In doc other) /\
  (Forall Spec.lower_case markers ->
   licenses = List.filter (Spec.holds_marker markers) doc_files /\
   other = List.filter (fun doc => negb (Spec.holds_marker markers doc)) doc_files) /\
  separate_license_files ["license"; "copying"] ["LICENSE.txt"; "README.rst"; "COPYING"]
  = (["README.rst"], ["LICENSE.txt"; "COPYING"]).
Proof.
  simpl.
  assert (Ho : List.filter (fun doc => forallb (fun s => negb (str_in s (lower doc))) markers)
                 doc_files
               = List.filter
                   (fun doc => negb (existsb (fun s => str_in s (lower doc)) markers))
                   doc_files).
  { apply filter_ext. intros doc. apply forallb_negb_existsb. }
  rewrite Ho. repeat split.
  - intros doc. apply count_occ_split.
  - intros doc H1 H2. apply filter_In in H1 as [_ H1]. apply filter_In in H2 as [_ H2].
    rewrite H1 in H2. discriminate.
  - apply filter_ext. intros doc. now apply marker_test_agrees.
  - apply filter_ext. intros doc. now rewrite marker_test_agrees.
Qed.

Lemma separate_license_files_partition_witness :
  snd (separate_license_files ["license"; "copying"]
         ["docs/Licence.md"; "LICENSE.txt"; "README.rst"; "COPYING"; "LICENSE.txt"])
  = ["LICENSE.txt"; "COPYING"; "LICENSE.txt"] /\
  fst (separate_license_files ["license"; "copying"]
         ["docs/Licence.md"; "LICENSE.txt"; "README.rst"; "COPYING"; "LICENSE.txt"])
  = ["docs/Licence.md"; "README.rst"].
Proof.
  assert (Hlow : Forall Spec.lower_case ["license"; "copying"])
    by (repeat constructor).
  destruct (separate_license_files_partition ["license"; "copying"]
              ["docs/Licence.md"; "LICENSE.txt"; "README.rst"; "COPYING"; "LICENSE.txt"])
    as (_ & _ & Hci & _).
  destruct (Hci Hlow) as (Hl & Ho).
  split; [rewrite Hl | rewrite Ho]; reflexivity.
Defined.

(** a marker written with a capital is compared as it stands with the
    lower-cased candidate, and matches nothing *)
Example capital_marker_matches_nothing :
  separate_license_files ["LICENSE"] ["LICENSE.txt"] = (["LICENSE.txt"], []).
Proof. reflexivity. Qed.

(** ** metadata_extractors: requirement groups of a wheel *)

Lemma requires_of_group_encoded (acc : list pyval) (g : Spec.requirement_group) :
  requires_of_group acc (Spec.encode_group g)
  = Ok (acc ++ map PStr (if Written.names_win g then [] else Spec.rg_requires g)).
Proof.
  destruct g as [[x|] [e|] reqs]; unfold requires_of_group, Spec.encode_group,
    Written.names_win; simpl;
    try (destruct (str_in "win" e); simpl; [now rewrite app_nil_r | reflexivity]);
    reflexivity.
Qed.

Lemma group_loop_encoded (gs : list Spec.requirement_group) (acc : list pyval) :
  for_each requires_of_group (map Spec.encode_group gs) acc
  = Ok (acc ++ map PStr
          (flat_map (fun g => if Written.names_win g then [] else Spec.rg_requires g) gs)).
Proof.
  revert acc. induction gs as [|g gs IH]; intros acc; simpl.
  - now rewrite app_nil_r.
  - rewrite requires_of_group_encoded, IH. now rewrite map_app, app_assoc.
Qed.

Lemma category_loop_encoded (self : WheelMetadataExtractor)
    (groups : string -> list Spec.requirement_group) (requires_types : list string)
    (acc : list pyval) :
  (forall category, In category requires_types ->
     py_get (json_metadata self) category (PList [])
     = Ok (PList (map Spec.encode_group (groups category)))) ->
  for_each (requires_of_category self) requires_types acc
  = Ok (acc ++ map PStr (Written.passed groups requires_types)).
Proof.
  unfold Written.passed. revert acc.
  induction requires_types as [|t types IH]; intros acc Hmd.
  - simpl. now rewrite app_nil_r.
  - cbn [for_each flat_map]. unfold requires_of_category at 1.
    rewrite (Hmd t) by (now left). simpl.
    rewrite group_loop_encoded. rewrite IH by (intros c Hc; apply Hmd; now right).
    now rewrite map_app, app_assoc.
Qed.

(** what [get_requires] returns on a metadata file whose requested
    categories hold requirement groups: the requirement strings of the
    groups whose filter text does not hold [win] *)
Lemma get_requires_passed (self : WheelMetadataExtractor)
    (groups : string -> list Spec.requirement_group) (requires_types : list string) :
  (forall category, In category requires_types ->
     py_get (json_metadata self) category (PList [])
     = Ok (PList (map Spec.encode_group (groups category)))) ->
  get_requires self requires_types = Ok (map PStr (Written.passed groups requires_types)).
Proof.
  intros Hmd. unfold get_requires.
  now rewrite (category_loop_encoded self groups requires_types [] Hmd).
Qed.

(** C9.  The code does not do what the claim says.  [get_requires] does
    not read the environment filter of a group: it tests whether the text
    of the filter holds the three characters [win], and returns the
    requirement strings of the groups whose filter text does not, in
    order.  So a group whose filter applies on the target platform and
    mentions Windows to rule it out, as [sys_platform != 'win32'] does, is
    dropped with all its requirements, against the claim that the groups
    that apply to the target platform are all kept; and a group that is
    scoped to Windows by a filter whose text does not hold [win], as
    [platform_system == 'Windows'] is, is kept, against the claim that
    exactly the groups not scoped to the excluded environment are
    returned. *)
Theorem get_requires_tests_substring (self : WheelMetadataExtractor) :
  (forall (groups : string -> list Spec.marked_group) (requires_types : list string),
     (forall category, In category requires_types ->
        py_get (json_metadata self) category (PList [])
        = Ok (PList (map Spec.encode_group (map Spec.written (groups category))))) ->
     get_requires self requires_types
     = Ok (map PStr (Written.passed (fun category => map Spec.written (groups category))
                       requires_types))) /\
  (forall (category : string) (g : Spec.marked_group),
     py_get (json_metadata self) category (PList [])
     = Ok (PList [Spec.encode_group (Spec.written g)]) ->
     Spec.applies_to Spec.target_environment g = true ->
     Written.names_win (Spec.written g) = true ->
     get_requires self [category] = Ok [] /\
     Spec.kept_requires (fun _ => [g]) [category] = Spec.mg_requires g) /\
  (forall (category : string) (g : Spec.marked_group),
     py_get (json_metadata self) category (PList [])
     = Ok (PList [Spec.encode_group (Spec.written g)]) ->
     Spec.scoped_to_excluded g = true ->
     Written.names_win (Spec.written g) = false ->
     get_requires self [category] = Ok (map PStr (Spec.mg_requires g)) /\
     Spec.kept_requires (fun _ => [g]) [category] = []).
Proof.
  split; [|split].
  - intros groups requires_types Hmd.
    apply (get_requires_passed self (fun category => map Spec.written (groups category))).
    exact Hmd.
  - intros category g Hmd Happlies Hwin. split.
    + rewrite (get_requires_passed self (fun _ => [Spec.written g]) [category]).
      * unfold Written.passed. cbn [flat_map]. rewrite Hwin. reflexivity.
      * intros c [<- | []]. exact Hmd.
    + unfold Spec.kept_requires, Spec.scoped_to_excluded. cbn [flat_map].
      rewrite Happlies, andb_false_r. now rewrite !app_nil_r.
  - intros category g Hmd Hscoped Hwin. split.
    + rewrite (get_requires_passed self (fun _ => [Spec.written g]) [category]).
      * unfold Written.passed. cbn [flat_map]. rewrite Hwin.
        cbn [Spec.written Spec.rg_requires]. now rewrite !app_nil_r.
      * intros c [<- | []]. exact Hmd.
    + unfold Spec.kept_requires. cbn [flat_map]. rewrite Hscoped. reflexivity.
Qed.

Lemma get_requires_tests_substring_witness :
  (get_requires Samples.posix_wheel ["run_requires"] = Ok [] /\
   Spec.kept_requires (fun _ => [Samples.posix_group]) ["run_requires"] = ["pexpect"]) /\
  (get_requires Samples.posix_wheel ["test_requires"] = Ok [PStr "colorama"] /\
   Spec.kept_requires (fun _ => [Samples.windows_group]) ["test_requires"] = []).
Proof.
  destruct (get_requires_tests_substring Samples.posix_wheel) as (_ & Hdropped & Hkept).
  split.
  - apply (Hdropped "run_requires" Samples.posix_group); reflexivity.
  - apply (Hkept "test_requires" Samples.windows_group); reflexivity.
Defined.

(** the test on the text of the filter: a filter that names [darwin]
    holds the three characters, and one that names [Windows] does not;
    the first group of the two is not scoped to Windows, the second is *)
Example tag_is_a_substring :
  Written.names_win
    (Spec.written (Spec.mkMarked None (Some (Spec.MEq "sys_platform" "darwin")) ["appnope"]))
    = true /\
  Spec.scoped_to_excluded
    (Spec.mkMarked None (Some (Spec.MEq "sys_platform" "darwin")) ["appnope"]) = false /\
  Written.names_win (Spec.written Samples.windows_group) = false /\
  Spec.scoped_to_excluded Samples.windows_group = true.
Proof. repeat split; reflexivity. Qed.

(** on the wheel [ham], whose filters are [sys_platform == 'win32'] and
    [python_version == '2.7'], the test drops the group for Windows *)
Example ham_get_requires :
  get_requires Samples.ham_wheel ["run_requires"; "meta_requires"]
  = Ok [PStr "six"; PStr "requests"; PStr "enum34"].
Proof.
  apply (get_requires_passed Samples.ham_wheel Samples.ham_groups
           ["run_requires"; "meta_requires"]).
  intros category [<- | [<- | []]]; reflexivity.
Qed.

(** ** metadata_extractors: the injected [setuptools] *)

Lemma pyeq_str_eq (x : string) (v : pyval) : pyeq (PStr x) v = true -> v = PStr x.
Proof.
  destruct v; simpl; try discriminate. intros H. apply String.eqb_eq in H. now subst.
Qed.

Lemma elem_in_In (x : string) (l : list pyval) :
  elem_in (PStr x) l = true -> In (PStr x) l.
Proof.
  unfold elem_in. intros H. apply existsb_exists in H as (v & Hin & Heq).
  apply pyeq_str_eq in Heq. now subst.
Qed.

Lemma elem_in_appended (x : string) (l : list pyval) :
  elem_in (PStr x) (l ++ [PStr x]) = true.
Proof.
  unfold elem_in. rewrite existsb_app. simpl. rewrite String.eqb_refl.
  now rewrite orb_true_r.
Qed.

Lemma contains_appended (x : string) (v v' : pyval) :
  py_append v (PStr x) = Ok v' -> contains x v' = Ok true.
Proof.
  destruct v; simpl; try discriminate. intros H. inversion H; subst. simpl.
  now rewrite elem_in_appended.
Qed.





(** ** metadata_extractors: the base record *)

Section BaseRecord.

Variable settings : Settings.
Variable lib : Library.
Variable collab : Collaborators.


Lemma last_assigned_before (k : string) (items : list (string * pyval))
    (before : option pyval) :
  last_assigned k items before
  = match last_assigned k items None with Some v => Some v | None => before end.
Proof.
  revert before. induction items as [|[k' v] items IH]; intros before; simpl; [reflexivity|].
  rewrite IH. rewrite (IH (if (k' =? k)%string then Some v else None)).
  destruct (last_assigned k items None); [reflexivity|].
  now destruct (k' =? k)%string.
Qed.

(** a field of a record after [set_from]: the last value the dictionary
    holds for it, or the value the record had *)
Lemma set_from_lookup (ad : list (string * pyval)) (update : bool) (d0 : PackageData)
    (field : string) :
  set_from ad update d0 !! field
  = match last_assigned field ad None with Some v => Some v | None => d0 !! field end.
Proof.
  unfold set_from. revert d0. induction ad as [|[k v] ad IH]; intros d0; [reflexivity|].
  cbn [fold_left last_assigned fst snd]. rewrite IH. unfold pd_setattr.
  rewrite (last_assigned_before field ad (if (k =? field)%string then Some v else None)).
  destruct (last_assigned field ad None); [reflexivity|].
  destruct (String.eqb_spec k field) as [-> | Hne].
  - now rewrite lookup_insert_eq.
  - now rewrite lookup_insert_ne.
Qed.

Tactic Notation "dict_compute" "in" hyp(H) :=
  cbn [dict_set last_assigned py_getitem py_append List.find fst snd
       String.eqb Ascii.eqb Bool.eqb andb mbind result_bind app] in H.

(** the items that the base class collects, in the order of assignment *)
Lemma data_from_archive_inv {Self : Type} (ops : Strategy Self) (self self' : Self)
    (ad : list (string * pyval)) :
  data_from_archive settings ops self = Ok (ad, self') ->
  exists rt bd x3 x4 x5 x6 x7 x8 x9 x10 x11 x12 x13 x14 x15,
    runtime_deps ops self = Ok (rt, self') /\
    build_deps ops self' = Ok bd /\
    ad = [("runtime_deps", PList rt);
          ("build_deps", PList (PList [PStr "BuildRequires"; PStr "python2-devel"] :: bd));
          ("py_modules", x3); ("scripts", x4); ("home_page", x5);
          ("description", x6); ("summary", x7); ("license", x8);
          ("has_pth", x9); ("has_extension", x10); ("has_test_suite", x11);
          ("base_python_version", x12); ("python_versions", x13);
          ("doc_files", x14); ("doc_license", x15)].
Proof.
  unfold data_from_archive. intros H.
  bind_inv H r1 H1. destruct r1 as [rt self1].
  bind_inv H bd H2. bind_inv H pm H3. bind_inv H sc H4. bind_inv H hp H5.
  bind_inv H de H6. bind_inv H su H7. bind_inv H li H8. bind_inv H ts H9.
  bind_inv H pv H10. bind_inv H docs H11.
  destruct (separate_license_files (LICENSE_FILES settings) docs) as [other licenses].
  inversion H; subst.
  do 15 eexists. split; [exact H1|]. split; [exact H2|]. reflexivity.
Qed.

(** the fields of the record that the tail of [extract_data] leaves as
    [set_from] wrote them *)
Lemma extract_data_body_keeps (self : LocalMetadataExtractor)
    (ad : list (string * pyval)) (data : PackageData) (field : string) :
  extract_data_body collab self (Ok ad) = Ok data ->
  field <> "scripts" -> field <> "packages" ->
  data !! field
  = set_from ad false
      (new_PackageData (local_file self) (name self)
         (match rpm_name_arg self with
          | Some r => r
          | None => rpm_name collab (name self) None
          end) (version self)) !! field.
Proof.
  unfold extract_data_body. intros H Hs Hp. cbv zeta in H.
  bind_inv H ad' Had. inversion Had; subst ad'; clear Had.
  match type of H with context [set_from ad false ?d0] => set (d := set_from ad false d0) in * end.
  bind_inv H d1 H1.
  assert (Hd1 : d1 !! field = d !! field).
  { destruct (d !! "scripts") as [sc|]; [|now inversion H1].
    bind_inv H1 sc' Hsc. inversion H1; subst. unfold pd_setattr.
    apply lookup_insert_ne. congruence. }
  destruct (elem_in (pd_getattr d1 "packages") [PStr "TODO:"; PSet ∅]).
  - destruct (pd_getattr d1 "name"); try discriminate. inversion H; subst.
    unfold pd_setattr. rewrite lookup_insert_ne by congruence.
    rewrite Hd1. subst d. destruct (rpm_name_arg self); reflexivity.
  - inversion H; subst. rewrite Hd1. subst d. destruct (rpm_name_arg self); reflexivity.
Qed.


(** *** Strategy A *)

Lemma dist_attr_after_runtime (self self' : SetupPyMetadataExtractor)
    (rt : list pyval) (attr : string) :
  sp_runtime_deps settings collab self = Ok (rt, self') ->
  attr <> "install_requires" ->
  dist_attr self' attr = dist_attr self attr.
Proof.
  unfold sp_runtime_deps. intros H Hne.
  bind_inv H ir Hir. cbv zeta in H. bind_inv H deps Hdeps. bind_inv H conv Hconv.
  inversion H; subst. unfold dist_attr. simpl.
  destruct (distribution self) as [v|d]; simpl; [reflexivity|].
  unfold getattr, setattr. rewrite lookup_insert_ne by congruence. reflexivity.
Qed.

Lemma sp_local_after_runtime (self self' : SetupPyMetadataExtractor) (rt : list pyval) :
  sp_runtime_deps settings collab self = Ok (rt, self') ->
  sp_local self' = sp_local self.
Proof.
  unfold sp_runtime_deps. intros H.
  bind_inv H ir Hir. cbv zeta in H. bind_inv H deps Hdeps. bind_inv H conv Hconv.
  inversion H; subst. reflexivity.
Qed.


Lemma sp_build_requires_after_runtime (self self' : SetupPyMetadataExtractor)
    (rt : list pyval) :
  sp_runtime_deps settings collab self = Ok (rt, self') ->
  sp_build_requires self' = sp_build_requires self.
Proof.
  intros H. unfold sp_build_requires.
  rewrite (dist_attr_after_runtime _ _ _ "setup_requires" H) by discriminate.
  now rewrite (dist_attr_after_runtime _ _ _ "tests_require" H) by discriminate.
Qed.



End BaseRecord.

Section ResolvedRecord.

Variable settings : Settings.
Variable lib : Library.
Variable collab : Collaborators.



Lemma build_requires_is_list (self : SetupPyMetadataExtractor) (a b : list pyval)
    (v : pyval) :
  dist_attr self "setup_requires" = Ok (PList a) ->
  dist_attr self "tests_require" = Ok (PList b) ->
  sp_build_requires self = Ok v ->
  exists l, v = PList l /\ In (PStr "setuptools") l.
Proof.
  unfold sp_build_requires. intros Ha Hb H. rewrite Ha, Hb in H. simpl in H.
  destruct (elem_in (PStr "setuptools") (a ++ b)) eqn:E; simpl in H; inversion H; subst.
  - eexists. split; [reflexivity|]. now apply elem_in_In.
  - eexists. split; [reflexivity|]. apply elem_in_In, elem_in_appended.
Qed.

End ResolvedRecord.

Example declared_packages_stay :
  sp_packages Samples.toast_extractor = Ok (PSet {[ "toast" ]}).
Proof. vm_compute. reflexivity. Qed.


Example spam_build_requires :
  sp_build_requires Samples.spam_extractor = Ok (PList [PStr "setuptools"]) /\
  sp_install_requires Samples.spam_extractor = Ok (PList []).
Proof. split; vm_compute; reflexivity. Qed.

(** entry points are what the captured distribution holds under
    [entry_points]: a dictionary makes the runtime list gain [setuptools],
    a text was reset to [None] by the command and does not *)
Example entry_points_forms :
  sp_install_requires Samples.bacon_extractor = Ok (PList [PStr "setuptools"]) /\
  dist_attr Samples.eggs_extractor "entry_points" = Ok PNone /\
  sp_install_requires Samples.eggs_extractor = Ok (PList []).
Proof. repeat split; vm_compute; reflexivity. Qed.

Example ham_requires :
  wh_run_requires Samples.ham_wheel
  = Ok [PStr "six"; PStr "requests"; PStr "enum34"; PStr "setuptools"] /\
  wh_build_requires Samples.ham_wheel = Ok [PStr "pytest"; PStr "setuptools"].
Proof. split; vm_compute; reflexivity. Qed.

(** ** metadata_extractors: the description *)

Lemma substring_one (i : nat) (s : string) (c : ascii) :
  String.get i s = Some c <-> String.substring i 1 s = String c EmptyString.
Proof.
  revert i. induction s as [|a s IH]; intros i.
  - destruct i; simpl; split; discriminate.
  - destruct i; simpl.
    + destruct s; simpl; split; intros H; inversion H; reflexivity.
    + apply IH.
Qed.

Lemma index_lower_bound (s1 s2 : string) (n m : nat) :
  String.index n s1 s2 = Some m -> (n <= m)%nat.
Proof.
  revert n m. induction s2 as [|b s2 IH]; intros n m; simpl.
  - destruct n; [lia|discriminate].
  - destruct n; [lia|].
    destruct (String.index n s1 s2) as [k|] eqn:E; [|discriminate].
    intros H. inversion H; subst. apply IH in E. lia.
Qed.

(** [find] gives the first position, from [start] on, where the
    character stands *)
Lemma find_first (c : ascii) (start cut : nat) (s : string) :
  (start <= cut)%nat ->
  String.get cut s = Some c ->
  (forall i, (start <= i < cut)%nat -> String.get i s <> Some c) ->
  find (String c EmptyString) start s = Z.of_nat cut.
Proof.
  intros Hle Hcut Hfirst. unfold find.
  destruct (String.index start (String c EmptyString) s) as [m|] eqn:E.
  - f_equal.
    pose proof (index_lower_bound _ _ _ _ E) as Hm.
    pose proof (String.index_correct1 _ _ _ _ E) as Hat. simpl in Hat.
    apply substring_one in Hat.
    destruct (Nat.lt_trichotomy m cut) as [Hlt | [Heq | Hgt]]; [|exact Heq|].
    + destruct (Hfirst m); [lia | exact Hat].
    + exfalso. apply (String.index_correct2 _ _ _ _ E cut Hle Hgt).
      simpl. now apply substring_one.
  - exfalso. apply (String.index_correct3 start cut _ _ E); [discriminate | exact Hle |].
    simpl. now apply substring_one.
Qed.

Lemma find_none (c : ascii) (start : nat) (s : string) :
  (forall i, (start <= i)%nat -> String.get i s <> Some c) ->
  find (String c EmptyString) start s = -1.
Proof.
  intros Hnone. unfold find.
  destruct (String.index start (String c EmptyString) s) as [m|] eqn:E; [|reflexivity].
  exfalso. apply (Hnone m (index_lower_bound _ _ _ _ E)).
  apply substring_one. exact (String.index_correct1 _ _ _ _ E).
Qed.

Lemma long_description_is_cleaned (lib : Library) (self : SetupPyMetadataExtractor)
    (c : string) :
  sp_long_description lib self = Ok c ->
  exists raw, dist_attr self "long_description" = Ok (PStr raw) /\
              c = process_description lib raw.
Proof.
  unfold sp_long_description. intros Hc. bind_inv Hc v Hv.
  destruct v; try discriminate. inversion Hc. eauto.
Qed.

Lemma description_whole (lib : Library) (self : SetupPyMetadataExtractor) (c : string) :
  sp_long_description lib self = Ok c ->
  (forall i, (threshold <= i)%nat -> String.get i c <> Some LF_char) ->
  sp_description lib self = Ok c.
Proof.
  intros Hc Hnone. unfold sp_description. rewrite Hc. simpl.
  unfold shorten, LF. now rewrite (find_none LF_char threshold c Hnone).
Qed.

(** the branch of [description] that cuts: on a text with a line break
    at or behind the threshold, the text before the first such line break,
    a line break and three dots *)
Lemma shorten_cuts (s : string) (cut : nat) :
  (threshold <= cut)%nat ->
  String.get cut s = Some LF_char ->
  (forall i, (threshold <= i < cut)%nat -> String.get i s <> Some LF_char) ->
  shorten s = String.substring 0 cut s +:+ LF +:+ "...".
Proof.
  intros Hle Hcut Hfirst.
  unfold shorten, LF. rewrite (find_first LF_char threshold cut s Hle Hcut Hfirst).
  assert (Hpos : (-1 <? Z.of_nat cut) = true) by (apply Z.ltb_lt; lia).
  rewrite Hpos. unfold slice_to.
  assert (Hneg : (Z.of_nat cut <? 0) = false) by (apply Z.ltb_ge; lia).
  rewrite Hneg. now rewrite Nat2Z.id.
Qed.

(** the cut on a text with a line break before the threshold and one
    behind it: the second one is where the text ends *)
Example shorten_two_breaks :
  String.get 320 Samples.two_breaks = Some LF_char /\
  String.get 642 Samples.two_breaks = Some LF_char /\
  String.length Samples.two_breaks = 645%nat /\
  shorten Samples.two_breaks
  = String.substring 0 642 Samples.two_breaks +:+ LF +:+ "...".
Proof. repeat split; vm_compute; reflexivity. Qed.

Lemma get_append_cases (s1 s2 : string) (i : nat) (c : ascii) :
  String.get i (s1 +:+ s2) = Some c ->
  String.get i s1 = Some c \/ exists j, String.get j s2 = Some c.
Proof.
  revert i. induction s1 as [|a s1 IH]; intros i; simpl.
  - intros H. right. eauto.
  - destruct i; [now left | apply IH].
Qed.

Lemma join_no_line_break (lines : list string) :
  (forall line i, In line lines -> String.get i line <> Some LF_char) ->
  forall i, String.get i (join " " lines) <> Some LF_char.
Proof.
  unfold join. induction lines as [|x lines IH]; intros Hlines i; simpl.
  - destruct i; discriminate.
  - destruct lines as [|y lines].
    + apply Hlines. now left.
    + intros H. apply get_append_cases in H as [H | (j & H)].
      * now apply (Hlines x i (or_introl eq_refl)).
      * apply (get_append_cases " " _ j) in H as [H | (k & H)].
        -- destruct j as [|[|j]]; simpl in H; discriminate.
        -- apply (IH (fun line n Hin => Hlines line n (or_intror Hin)) k H).
Qed.

(** with lines free of line breaks, as [textwrap.wrap] gives them, the
    cleaned text has no line break and the description is always the
    cleaned text, whole *)
Lemma description_whole_after_wrap (lib : Library) (self : SetupPyMetadataExtractor)
    (c : string) :
  (forall text width line i,
     In line (textwrap_wrap lib text width) -> String.get i line <> Some LF_char) ->
  sp_long_description lib self = Ok c ->
  sp_description lib self = Ok c.
Proof.
  intros Hwrap Hc. apply description_whole; [exact Hc|].
  destruct (long_description_is_cleaned _ _ _ Hc) as (raw & _ & ->).
  intros i _. unfold process_description.
  apply join_no_line_break. intros line n. apply Hwrap.
Qed.

(** * Further properties *)

(** ** Strings: [split] and [join] *)

Lemma append_cons (c : ascii) (s1 s2 : string) :
  String c s1 +:+ s2 = String c (s1 +:+ s2).
Proof. reflexivity. Qed.

Lemma append_nil_r (s : string) : s +:+ "" = s.
Proof. induction s as [|c s IH]; [reflexivity|]. now rewrite append_cons, IH. Qed.

Lemma append_assoc (s1 s2 s3 : string) : (s1 +:+ s2) +:+ s3 = s1 +:+ (s2 +:+ s3).
Proof. induction s1 as [|c s1 IH]; [reflexivity|]. now rewrite !append_cons, IH. Qed.

Lemma rev_app_append (s1 s2 : string) :
  String.rev_app s1 s2 = String.rev s1 +:+ s2.
Proof.
  unfold String.rev. revert s2. induction s1 as [|c s1 IH]; intros s2; [reflexivity|].
  simpl. rewrite IH, (IH (String c "")). now rewrite append_assoc.
Qed.

Lemma rev_cons_append (c : ascii) (cur s : string) :
  String.rev (String c cur) +:+ s = String.rev cur +:+ String c s.
Proof.
  unfold String.rev. simpl. rewrite (rev_app_append cur (String c "")).
  now rewrite append_assoc.
Qed.

Lemma prefix_drop (s1 s2 : string) :
  String.prefix s1 s2 = true -> s2 = s1 +:+ Text.drop (String.length s1) s2.
Proof.
  revert s2. induction s1 as [|a s1 IH]; intros s2 H; [reflexivity|].
  destruct s2 as [|b s2]; [discriminate|]. simpl in H.
  destruct (ascii_dec a b) as [-> |]; [|discriminate].
  simpl. rewrite append_cons. f_equal. now apply IH.
Qed.

Lemma split_go_nonempty (sep : string) (k : nat) (cur s : string) :
  split_go sep k cur s <> [].
Proof.
  revert k cur. induction s as [|c s IH]; intros k cur; [discriminate|].
  cbn [split_go]. destruct k; [|apply IH].
  destruct (String.prefix sep (String c s)); [discriminate | apply IH].
Qed.

(** the pieces of a text, joined by the separator, are the text; the
    characters still to be skipped belong to the separator just read *)
Lemma join_split_go (sep : string) (k : nat) (cur s : string) :
  sep <> "" ->
  join sep (split_go sep k cur s) = String.rev cur +:+ Text.drop k s.
Proof.
  intros Hsep. unfold join. revert k cur.
  induction s as [|c s IH]; intros k cur.
  - destruct k; simpl; now rewrite append_nil_r.
  - cbn [split_go]. destruct k as [|k]; [|rewrite IH; reflexivity].
    destruct (String.prefix sep (String c s)) eqn:Hp.
    + pose proof (split_go_nonempty sep (String.length sep - 1) "" s) as Hne.
      cbn [String.concat].
      destruct (split_go sep (String.length sep - 1) "" s) as [|x xs] eqn:E;
        [contradiction|].
      rewrite <- E, IH. f_equal. cbn [Text.drop].
      change (String.rev "" +:+ Text.drop (String.length sep - 1) s)
        with (Text.drop (String.length sep - 1) s).
      rewrite (prefix_drop _ _ Hp) at 1.
      destruct sep as [|a sep]; [contradiction|].
      cbn [String.length Text.drop Nat.sub]. now rewrite ?Nat.sub_0_r.
    + rewrite IH. cbn [Text.drop]. apply rev_cons_append.
Qed.

Lemma join_split (sep s : string) : sep <> "" -> join sep (split sep s) = s.
Proof. intros H. unfold split. now rewrite join_split_go. Qed.

Lemma free_of_cons (c a : ascii) (s : string) :
  Text.free_of c (String a s) <-> a <> c /\ Text.free_of c s.
Proof.
  unfold Text.free_of. split.
  - intros H. split.
    + intros ->. now apply (H 0%nat).
    + intros i. apply (H (S i)).
  - intros [Ha Hs] [|i]; simpl; [congruence | apply Hs].
Qed.

Lemma free_of_nil (c : ascii) : Text.free_of c "".
Proof. intros [|i]; discriminate. Qed.

Lemma free_of_append (c : ascii) (s1 s2 : string) :
  Text.free_of c (s1 +:+ s2) <-> Text.free_of c s1 /\ Text.free_of c s2.
Proof.
  induction s1 as [|a s1 IH].
  - split; [intros H; split; [apply free_of_nil | exact H] | now intros [_ H]].
  - rewrite append_cons, !free_of_cons, IH. tauto.
Qed.

Lemma free_of_rev_cons (c a : ascii) (cur : string) :
  a <> c -> Text.free_of c (String.rev cur) -> Text.free_of c (String.rev (String a cur)).
Proof.
  intros Ha Hcur. rewrite <- (append_nil_r (String.rev (String a cur))).
  rewrite rev_cons_append. apply free_of_append. split; [exact Hcur|].
  apply free_of_cons. split; [exact Ha | apply free_of_nil].
Qed.

Lemma prefix_char (c a : ascii) (s : string) :
  String.prefix (String c "") (String a s) = true <-> c = a.
Proof.
  simpl. destruct (ascii_dec c a) as [-> | Hne]; split; try tauto; try discriminate.
  intros _. now destruct s.
Qed.

(** no piece of a split at a character holds the character *)
Lemma split_go_pieces_free (c : ascii) (cur s : string) :
  Text.free_of c (String.rev cur) ->
  forall piece, In piece (split_go (String c "") 0 cur s) -> Text.free_of c piece.
Proof.
  revert cur. induction s as [|a s IH]; intros cur Hcur piece Hin.
  - destruct Hin as [<- | []]. exact Hcur.
  - cbn [split_go] in Hin.
    destruct (String.prefix (String c "") (String a s)) eqn:Hp.
    + destruct Hin as [<- | Hin]; [exact Hcur|].
      apply (IH "" (free_of_nil c) piece Hin).
    + apply (IH (String a cur)); [|exact Hin].
      apply free_of_rev_cons; [|exact Hcur].
      intros ->. rewrite (proj2 (prefix_char c c s) eq_refl) in Hp. discriminate.
Qed.

Lemma split_pieces_free (c : ascii) (s piece : string) :
  In piece (split (String c "") s) -> Text.free_of c piece.
Proof. apply split_go_pieces_free, free_of_nil. Qed.

(** a text that begins with a piece free of the character, then the
    character: the piece is the first piece of the split *)
Lemma split_go_first_piece (c : ascii) (cur top rest : string) :
  Text.free_of c top ->
  split_go (String c "") 0 cur (top +:+ String c rest)
  = (String.rev cur +:+ top) :: split (String c "") rest.
Proof.
  revert cur. induction top as [|a top IH]; intros cur Hfree.
  - change ("" +:+ String c rest) with (String c rest). cbn [split_go].
    rewrite (proj2 (prefix_char c c rest) eq_refl). now rewrite append_nil_r.
  - apply free_of_cons in Hfree as [Ha Hfree].
    rewrite append_cons. cbn [split_go].
    destruct (String.prefix (String c "") (String a (top +:+ String c rest))) eqn:Hp.
    + apply prefix_char in Hp. congruence.
    + rewrite IH by exact Hfree. now rewrite rev_cons_append.
Qed.

Lemma split_go_skip (sep : string) (k : nat) (cur s : string) :
  split_go sep k cur s = split_go sep 0 cur (Text.drop k s).
Proof.
  revert s. induction k as [|k IH]; intros s; [reflexivity|].
  destruct s as [|c s]; [reflexivity|]. cbn [split_go Text.drop]. apply IH.
Qed.

(** the split of a text at the first occurrence of the separator *)
Lemma split_go_first (sep : string) (n : nat) (cur s : string) :
  sep <> "" ->
  String.index 0 sep s = Some n ->
  split_go sep 0 cur s
  = (String.rev cur +:+ String.substring 0 n s)
      :: split sep (Text.drop (n + String.length sep) s).
Proof.
  intros Hsep. revert n cur. induction s as [|c s IH]; intros n cur H.
  - simpl in H. destruct sep; [contradiction | discriminate].
  - cbn [String.index] in H. cbn [split_go].
    destruct (String.prefix sep (String c s)) eqn:Hp.
    + inversion H; subst n. rewrite split_go_skip.
      cbn [String.substring]. rewrite append_nil_r.
      destruct sep as [|a sep]; [contradiction|].
      cbn [String.length Nat.add Nat.sub Text.drop]. now rewrite Nat.sub_0_r.
    + destruct (String.index 0 sep s) as [m|] eqn:E; [|discriminate].
      inversion H; subst n. rewrite (IH m (String c cur) eq_refl).
      cbn [String.substring Nat.add Text.drop]. now rewrite rev_cons_append.
Qed.

Lemma last_cons_nonempty {A : Type} (x : A) (l : list A) (d : A) :
  l <> [] -> List.last (x :: l) d = List.last l d.
Proof. destruct l; [contradiction | reflexivity]. Qed.

(** the last piece of a text in which the separator occurs once *)
Lemma last_piece_after_single (sep text : string) (n : nat) :
  sep <> "" ->
  String.index 0 sep text = Some n ->
  str_in sep (Text.drop (n + String.length sep) text) = false ->
  List.last (split sep text) "" = Text.drop (n + String.length sep) text.
Proof.
  intros Hsep Hn Hrest. unfold split at 1.
  rewrite (split_go_first sep n "" text Hsep Hn).
  rewrite last_cons_nonempty by apply split_go_nonempty.
  now rewrite (split_absent _ _ Hrest).
Qed.

(** ** extract_dist: the whole effect of [__init__] *)

Lemma set_dist_attr_same (d : Distribution) (a : string) (v : pyval) :
  attrs d !! a = Some v -> set_dist_attr d a v = d.
Proof.
  destruct d as [at0 md]. unfold set_dist_attr, setattr. simpl. intros H.
  f_equal. now apply insert_id.
Qed.

(** the first pass changes nothing on attributes that are lists *)
Lemma list_pass_fixed (l : list string) (d : Distribution) :
  (forall a, a ∈ l -> exists x, attrs d !! a = Some (PList x)) ->
  for_each coerce_list_attr l d = Ok d.
Proof.
  induction l as [|a l IH]; intros H; simpl; [reflexivity|].
  destruct (H a (list_elem_of_here a l)) as (x & Hx).
  unfold coerce_list_attr at 1. unfold getattr_or. rewrite Hx.
  cbn [to_list mbind result_bind]. rewrite (set_dist_attr_same _ _ _ Hx).
  apply IH. intros b Hb. apply H. now right.
Qed.

(** the second pass changes nothing on attributes that hold the text
    of the metadata field, or the sentinel *)
Lemma str_pass_fixed (l : list string) (d : Distribution) :
  (forall a, a ∈ l -> attrs d !! a = Some (to_str (getattr_or (metadata d) a PNone))) ->
  fold_left coerce_str_attr l d = d.
Proof.
  induction l as [|a l IH]; intros H; simpl; [reflexivity|].
  unfold coerce_str_attr at 2.
  rewrite (set_dist_attr_same _ _ _ (H a (list_elem_of_here a l))).
  apply IH. intros b Hb. apply H. now right.
Qed.

(** what [__init__] leaves outside the eleven coerced fields *)
Lemma init_rest (dist dist' : Distribution) :
  init dist = Ok dist' ->
  metadata dist' = metadata dist /\
  (exists ep, attrs dist !! "entry_points" = Some ep /\
     attrs dist' !! "entry_points"
     = Some (if truthy ep && negb (is_dict ep) then PNone else ep)) /\
  (forall a, a ∉ list_attrs -> a ∉ str_attrs -> a <> "classifiers" ->
     a <> "entry_points" -> attrs dist' !! a = attrs dist !! a).
Proof.
  unfold init. intros H.
  bind_inv H d1 H1. cbv zeta in H.
  destruct (list_pass_spec _ _ _ list_attrs_nodup H1) as (Hm1 & Hin1 & Hout1).
  destruct (str_pass_spec str_attrs d1 str_attrs_nodup) as (Hm2 & Hin2 & Hout2).
  set (d2 := fold_left coerce_str_attr str_attrs d1) in *.
  bind_inv H c Hc.
  set (d3 := set_dist_attr d2 "classifiers" c) in *.
  bind_inv H ep Hep.
  assert (H3 : forall a, a <> "classifiers" -> attrs d3 !! a = attrs d2 !! a).
  { intros a Ha. subst d3. simpl. unfold setattr. apply lookup_insert_ne. congruence. }
  assert (Hep0 : attrs dist !! "entry_points" = Some ep).
  { unfold getattr in Hep. rewrite H3 in Hep by discriminate.
    rewrite Hout2, Hout1 in Hep.
    - destruct (attrs dist !! "entry_points"); inversion Hep; reflexivity.
    - unfold list_attrs. rewrite !not_elem_of_cons.
      repeat split; try discriminate. apply not_elem_of_nil.
    - unfold str_attrs. rewrite !not_elem_of_cons.
      repeat split; try discriminate. apply not_elem_of_nil. }
  assert (Hm3 : metadata d3 = metadata dist).
  { change (metadata d2 = metadata dist). now rewrite Hm2, Hm1. }
  assert (Hep3 : attrs d3 !! "entry_points" = Some ep).
  { unfold getattr in Hep. destruct (attrs d3 !! "entry_points"); inversion Hep; reflexivity. }
  split; [|split].
  - destruct (truthy ep && negb (is_dict ep)); inversion H; subst; exact Hm3.
  - exists ep. split; [exact Hep0|].
    destruct (truthy ep && negb (is_dict ep)); inversion H; subst.
    + simpl. unfold setattr. apply lookup_insert_eq.
    + exact Hep3.
  - intros a Hl Hs Hc' He.
    transitivity (attrs d3 !! a).
    + destruct (truthy ep && negb (is_dict ep)); inversion H; subst; [|reflexivity].
      simpl. unfold setattr. apply lookup_insert_ne. congruence.
    + rewrite (H3 a Hc'), (Hout2 a Hs), (Hout1 a Hl). reflexivity.
Qed.

Lemma reset_settles (ep : pyval) :
  let ep' := if truthy ep && negb (is_dict ep) then PNone else ep in
  truthy ep' && negb (is_dict ep') = false.
Proof.
  cbv zeta. destruct (truthy ep && negb (is_dict ep)) eqn:E; [reflexivity | exact E].
Qed.

(** X1.  [extract_dist.__init__] is idempotent: on the distribution that
    one completed run of the coercions has left, a second run completes
    and leaves the same distribution. *)
Theorem init_idempotent (dist dist' : Distribution) :
  init dist = Ok dist' -> init dist' = Ok dist'.
Proof.
  intros H.
  destruct (init_fields _ _ H) as (Hl & (c & Hc & Hcl) & Hs).
  destruct (init_rest _ _ H) as (Hm & (ep & Hep0 & Hep) & _).
  unfold init.
  rewrite list_pass_fixed.
  2:{ intros a Ha. destruct (Hl a Ha) as (v & Hv & Hlk).
      destruct (to_list_is_list _ _ Hv) as (x & ->). eauto. }
  cbn [mbind result_bind]. cbv zeta.
  rewrite str_pass_fixed.
  2:{ intros a Ha. rewrite Hm. apply Hs, Ha. }
  rewrite Hm, Hc. cbn [mbind result_bind].
  rewrite (set_dist_attr_same _ _ _ Hcl).
  unfold getattr. rewrite Hep. cbn [mbind result_bind].
  pose proof (reset_settles ep) as Hr. cbv zeta in Hr. rewrite Hr. reflexivity.
Qed.

Lemma init_idempotent_witness :
  init Samples.eggs_raw = Ok Cases.eggs_dist /\
  init Cases.eggs_dist = Ok Cases.eggs_dist.
Proof.
  assert (H : init Samples.eggs_raw = Ok Cases.eggs_dist).
  { apply ok_default. vm_compute. reflexivity. }
  split; [exact H|]. exact (init_idempotent _ _ H).
Defined.

(** X2.  [extract_dist.__init__] touches the twelve attributes it names
    and nothing else: the metadata object is left as it was, every other
    attribute of the distribution keeps its value, and [entry_points]
    keeps its value unless that value is truthy and no dictionary, in
    which case it becomes [None]; afterwards a truthy [entry_points] is
    always a dictionary. *)
Theorem init_frame (dist dist' : Distribution) :
  init dist = Ok dist' ->
  metadata dist' = metadata dist /\
  (forall a, a ∉ list_attrs ++ str_attrs ++ ["classifiers"; "entry_points"] ->
     attrs dist' !! a = attrs dist !! a) /\
  (exists ep ep',
     attrs dist !! "entry_points" = Some ep /\
     attrs dist' !! "entry_points" = Some ep' /\
     (is_dict ep = true \/ truthy ep = false -> ep' = ep) /\
     (is_dict ep = false -> truthy ep = true -> ep' = PNone) /\
     (truthy ep' = true -> is_dict ep' = true)).
Proof.
  intros H. destruct (init_rest _ _ H) as (Hm & (ep & Hep0 & Hep) & Hout).
  split; [exact Hm|]. split.
  - intros a Ha. rewrite !not_elem_of_app, !not_elem_of_cons in Ha.
    destruct Ha as (Hl & Hs & Hc & He & _). now apply Hout.
  - exists ep, (if truthy ep && negb (is_dict ep) then PNone else ep).
    split; [exact Hep0|]. split; [exact Hep|]. split; [|split].
    + intros [Hd | Ht]; [rewrite Hd | rewrite Ht]; simpl;
        [now rewrite andb_false_r | reflexivity].
    + intros Hd Ht. now rewrite Hd, Ht.
    + intros Ht. pose proof (reset_settles ep) as Hr. cbv zeta in Hr.
      rewrite Ht in Hr. simpl in Hr. now apply negb_false_iff in Hr.
Qed.

Lemma init_frame_witness :
  metadata Cases.eggs_dist = metadata Samples.eggs_raw /\
  attrs Cases.eggs_dist !! "test_suite" = attrs Samples.eggs_raw !! "test_suite" /\
  attrs Cases.eggs_dist !! "entry_points" = Some PNone.
Proof.
  assert (H : init Samples.eggs_raw = Ok Cases.eggs_dist).
  { apply ok_default. vm_compute. reflexivity. }
  destruct (init_frame _ _ H) as (Hm & Hout & (ep & ep' & Hep & Hep' & _ & Hreset & _)).
  split; [exact Hm|]. split.
  - apply Hout. apply (bool_decide_eq_true_1 _). vm_compute. reflexivity.
  - rewrite Hep'. f_equal.
    assert (Hv : ep = PStr "[console_scripts] eggs = eggs:main").
    { vm_compute in Hep. now inversion Hep. }
    subst ep. apply Hreset; reflexivity.
Defined.

Lemma to_list_raises (v : pyval) (e : exn) : to_list v = Raise e -> e = ValueError.
Proof.
  destruct v; simpl; try discriminate; intros H; try (now inversion H).
Qed.

Lemma list_pass_raises (l : list string) (d : Distribution) (e : exn) :
  for_each coerce_list_attr l d = Raise e -> e = ValueError.
Proof.
  revert d. induction l as [|a l IH]; intros d H; simpl in H; [discriminate|].
  destruct (coerce_list_attr d a) as [d0|e0] eqn:E.
  - exact (IH _ H).
  - inversion H; subst e0. unfold coerce_list_attr in E.
    destruct (to_list (getattr_or (attrs d) a (PList []))) eqn:Et; [discriminate|].
    cbn [mbind result_bind] in E. inversion E; subst.
    exact (to_list_raises _ _ Et).
Qed.

(** X3.  [extract_dist.__init__] completes exactly on the distributions
    whose six list-like attributes and whose metadata [classifiers] can
    be made lists and which have the attribute [entry_points]; when it
    does not complete, the exception is the [ValueError] of [to_list] or
    the [AttributeError] of the missing [entry_points], and no other. *)
Theorem init_outcome (dist : Distribution) :
  (is_ok (init dist) = true <->
   (forall a, a ∈ list_attrs ->
      is_ok (to_list (getattr_or (attrs dist) a (PList []))) = true) /\
   is_ok (to_list (getattr_or (metadata dist) "classifiers" (PList []))) = true /\
   is_Some (attrs dist !! "entry_points")) /\
  (forall e, init dist = Raise e -> e = ValueError \/ e = AttributeError).
Proof.
  split; [split|].
  - destruct (init dist) as [dist'|e] eqn:H; [intros _|discriminate].
    destruct (init_fields _ _ H) as (Hl & (c & Hc & _) & _).
    destruct (init_rest _ _ H) as (_ & (ep & Hep & _) & _).
    split; [|split].
    + intros a Ha. destruct (Hl a Ha) as (v & -> & _). reflexivity.
    + now rewrite Hc.
    + eauto.
  - intros (Hl & Hc & Hep).
    destruct (init_completes dist Hl Hc Hep) as (dist' & ->). reflexivity.
  - intros e. unfold init.
    destruct (for_each coerce_list_attr list_attrs dist) as [d1|e1] eqn:H1.
    + cbn [mbind result_bind]. cbv zeta.
      destruct (to_list _) as [c|e2] eqn:Hc.
      * cbn [mbind result_bind]. unfold getattr.
        destruct (_ !! "entry_points") as [ep|].
        -- cbn [mbind result_bind].
           destruct (truthy ep && negb (is_dict ep)); discriminate.
        -- cbn [mbind result_bind]. intros H; inversion H. now right.
      * cbn [mbind result_bind]. intros H; inversion H; subst.
        left. exact (to_list_raises _ _ Hc).
    + cbn [mbind result_bind]. intros H; inversion H; subst.
      left. exact (list_pass_raises _ _ _ H1).
Qed.

Lemma init_outcome_witness :
  is_ok (init Samples.spam_raw) = true /\
  (exists e, init Cases.distutils_raw = Raise e /\ (e = ValueError \/ e = AttributeError)) /\
  (exists e, init Cases.numeric_raw = Raise e /\ (e = ValueError \/ e = AttributeError)).
Proof.
  split; [|split].
  - apply (proj1 (init_outcome Samples.spam_raw)). split; [|split].
    + intros a Ha. unfold list_attrs in Ha. rewrite !elem_of_cons, elem_of_nil in Ha.
      repeat destruct Ha as [-> | Ha]; first [contradiction | reflexivity].
    + reflexivity.
    + exists PNone. reflexivity.
  - exists AttributeError.
    assert (H : init Cases.distutils_raw = Raise AttributeError)
      by (vm_compute; reflexivity).
    split; [exact H|]. exact (proj2 (init_outcome _) _ H).
  - exists ValueError.
    assert (H : init Cases.numeric_raw = Raise ValueError)
      by (vm_compute; reflexivity).
    split; [exact H|]. exact (proj2 (init_outcome _) _ H).
Defined.

(** X4.  [to_list] on a string loses nothing: the list it returns is
    never empty, none of its lines holds a line break, and joining the
    lines with the line break gives the string back. *)
Theorem to_list_lines (s : string) :
  exists lines,
    to_list (PStr s) = Ok (PList (map PStr lines)) /\
    lines <> [] /\
    (forall line, In line lines -> Text.free_of LF_char line) /\
    join LF lines = s.
Proof.
  exists (split LF s). split; [reflexivity|]. split; [apply split_go_nonempty|].
  split.
  - intros line. apply split_pieces_free.
  - apply join_split. discriminate.
Qed.

(** X5.  Once [extract_dist.__init__] has run, [has_packages] is true for
    every distribution: [packages] is then a list, and a list never
    equals [set()].  So [packages] never takes its [None] branch, and a
    distribution without packages gives the empty set. *)
Theorem has_packages_after_init (dist dist' : Distribution)
    (self : SetupPyMetadataExtractor) :
  init dist = Ok dist' ->
  distribution self = SDist dist' ->
  sp_has_packages self = Ok true /\
  sp_packages self <> Ok PNone /\
  (attrs dist !! "packages" = None \/ attrs dist !! "packages" = Some PNone ->
   sp_packages self = Ok (PSet ∅)).
Proof.
  intros H Hd. destruct (init_fields _ _ H) as (Hl & _ & _).
  assert (Hin : "packages" ∈ list_attrs).
  { unfold list_attrs. rewrite !elem_of_cons. tauto. }
  destruct (Hl _ Hin) as (v & Hv & Hlk).
  destruct (to_list_is_list _ _ Hv) as (l & ->).
  assert (Hp : dist_attr self "packages" = Ok (PList l)).
  { unfold dist_attr. rewrite Hd. unfold getattr. now rewrite Hlk. }
  assert (Hh : sp_has_packages self = Ok true).
  { unfold sp_has_packages. rewrite Hp. reflexivity. }
  split; [exact Hh|]. split.
  - unfold sp_packages. rewrite Hh. cbn [mbind result_bind]. rewrite Hp.
    cbn [mbind result_bind iter].
    destruct (map_each top_level l) as [tops|]; [|discriminate].
    cbn [mbind result_bind].
    destruct (str_set tops); discriminate.
  - intros Habs. rewrite to_list_absent in Hv.
    2:{ unfold getattr_or. destruct Habs as [-> | ->]; auto. }
    inversion Hv; subst l.
    unfold sp_packages. rewrite Hh. cbn [mbind result_bind]. rewrite Hp.
    reflexivity.
Qed.

Lemma has_packages_after_init_witness :
  sp_has_packages Samples.spam_extractor = Ok true /\
  sp_packages Samples.spam_extractor = Ok (PSet ∅).
Proof.
  assert (H : init Samples.spam_raw = Ok Samples.spam_dist).
  { apply ok_default. vm_compute. reflexivity. }
  destruct (has_packages_after_init _ _ Samples.spam_extractor H eq_refl)
    as (Hh & _ & He).
  split; [exact Hh|]. apply He. right. reflexivity.
Defined.

(** ** module_runners: module names and the state a run leaves *)

Lemma length_app (s1 s2 : string) :
  String.length (s1 +:+ s2) = (String.length s1 + String.length s2)%nat.
Proof.
  induction s1 as [|a s1 IH]; [reflexivity|].
  rewrite append_cons. simpl. now rewrite IH.
Qed.

Lemma substring_after (s1 s2 : string) (m : nat) :
  String.substring (String.length s1) m (s1 +:+ s2) = String.substring 0 m s2.
Proof.
  induction s1 as [|a s1 IH]; [reflexivity|].
  rewrite append_cons. simpl. exact IH.
Qed.

Lemma substring_before (s1 s2 : string) :
  String.substring 0 (String.length s1) (s1 +:+ s2) = s1.
Proof.
  induction s1 as [|a s1 IH]; [now destruct s2|].
  rewrite append_cons. simpl. now rewrite IH.
Qed.

Lemma substring_all (s : string) : String.substring 0 (String.length s) s = s.
Proof. induction s as [|a s IH]; [reflexivity|]. simpl. now rewrite IH. Qed.

Lemma length_substring_0 (n : nat) (s : string) :
  (n <= String.length s)%nat -> String.length (String.substring 0 n s) = n.
Proof.
  revert n. induction s as [|a s IH]; intros [|n] H; simpl in *; try reflexivity; try lia.
  rewrite IH; lia.
Qed.

Lemma not_suffixed_drops_three (stem : string) (c : ascii) :
  not_suffixed (stem +:+ String c "py") = Some stem.
Proof.
  unfold not_suffixed, endswith, slice_to.
  rewrite length_app. cbn [String.length].
  replace (String.length stem + 3 - 2)%nat with (String.length (stem +:+ String c ""))
    by (rewrite length_app; simpl; lia).
  replace (stem +:+ String c "py") with ((stem +:+ String c "") +:+ "py")
    by (now rewrite append_assoc).
  rewrite substring_after.
  replace (2 <=? String.length stem + 3)%nat with true
    by (symmetry; apply Nat.leb_le; lia).
  cbn [String.substring String.eqb Ascii.eqb Bool.eqb andb].
  change (-3 <? 0) with true. cbv iota.
  replace (Z.to_nat (Z.of_nat (String.length stem + 3) + -3)) with (String.length stem)
    by lia.
  rewrite append_assoc. now rewrite substring_before.
Qed.

Lemma prefix_substring_0 (n : nat) (s : string) :
  String.prefix (String.substring 0 n s) s = true.
Proof.
  revert n. induction s as [|a s IH]; intros [|n]; try reflexivity.
  cbn [String.substring String.prefix].
  destruct (ascii_dec a a) as [_|Hne]; [apply IH | now destruct Hne].
Qed.

(** X6.  [ModuleRunner.not_suffixed] tests for the two characters [py]
    and then cuts three: for a file name [stem.py] it gives [stem], and
    for any other name of three characters or more that ends in [py] it
    also drops the character before the [py], whatever it is.  The result
    is a prefix of the name, three characters shorter when the name has
    three or more, and empty for the name [py], which has two.  A name
    that does not end in [py] gives [None], and after [run] has passed
    that to [runpy] no module is run. *)
Theorem not_suffixed_cut :
  (forall stem, not_suffixed (stem +:+ ".py") = Some stem) /\
  (forall stem c, not_suffixed (stem +:+ String c "py") = Some stem) /\
  not_suffixed "py" = Some "" /\
  (forall name r, not_suffixed name = Some r ->
     endswith "py" name = true /\
     String.prefix r name = true /\
     (2 <= String.length name)%nat /\
     ((3 <= String.length name)%nat ->
      String.length name = (String.length r + 3)%nat) /\
     (String.length name = 2%nat -> name = "py" /\ r = "")) /\
  (forall self modules p,
     endswith "py" (filename self) = false ->
     is_ok (ModuleRunners.run self modules p) = false).
Proof.
  split; [|split; [|split; [|split]]].
  - intros stem. apply (not_suffixed_drops_three stem "."%char).
  - apply not_suffixed_drops_three.
  - reflexivity.
  - intros name r. unfold not_suffixed.
    destruct (endswith "py" name) eqn:E; [|discriminate].
    intros H. inversion H. split; [reflexivity|].
    unfold slice_to. change (-3 <? 0) with true. cbv iota.
    unfold endswith in E. apply andb_true_iff in E as [E Hpy].
    apply Nat.leb_le in E. cbn [String.length] in E.
    split; [apply prefix_substring_0|]. split; [exact E|]. split.
    + intros H3. rewrite length_substring_0; lia.
    + intros H2. rewrite H2 in *. cbn [String.length Nat.sub] in Hpy.
      apply String.eqb_eq in Hpy.
      destruct name as [|a [|b [|c name]]]; try discriminate.
      cbn in Hpy. split; [exact Hpy | reflexivity].
  - intros self modules p E. unfold ModuleRunners.run, not_suffixed.
    now rewrite E.
Qed.

Lemma not_suffixed_cut_witness :
  String.length "setup.py" = (String.length "setup" + 3)%nat /\
  not_suffixed "happy" = Some "ha" /\
  is_ok (ModuleRunners.run Cases.makefile_runner Samples.spam_modules Samples.fresh_process)
  = false.
Proof.
  destruct not_suffixed_cut as (_ & Hany & _ & Hcut & Hnone).
  split; [|split].
  - destruct (Hcut "setup.py" "setup" eq_refl) as (_ & _ & _ & Hthree & _).
    apply Hthree. simpl. lia.
  - apply (Hany "ha" "p"%char).
  - apply Hnone. reflexivity.
Defined.

(** X7.  [ModuleRunner(setup_py, *args).run()] and
    [current_interpreter_run(setup_py, *args)] do the same on every path
    whose file name ends in [py]; on any other path the class fails before
    a module is run, while the function runs the module that has the
    whole file name. *)
Theorem run_matches_current_interpreter_run (lib : Library) (setup_py : string)
    (args : list string) (modules : string -> option descriptor) (p : Process) :
  let self := Constructors.ModuleRunner_init lib setup_py args in
  (endswith "py" (os_path_basename lib setup_py) = true ->
   ModuleRunners.run self modules p = current_interpreter_run lib setup_py args modules p) /\
  (endswith "py" (os_path_basename lib setup_py) = false ->
   is_ok (ModuleRunners.run self modules p) = false /\
   forall script,
     modules (os_path_basename lib setup_py) = Some script ->
     is_ok (run_extract_dist script (extract_dist_class p)) = true ->
     is_ok (current_interpreter_run lib setup_py args modules p) = true).
Proof.
  cbv zeta. unfold ModuleRunners.run, current_interpreter_run, not_suffixed,
    Constructors.ModuleRunner_init. cbn [filename dirname ModuleRunners.args].
  split; intros E; rewrite E.
  - reflexivity.
  - split; [reflexivity|]. intros script Hs Hc. rewrite Hs.
    destruct (run_extract_dist script (extract_dist_class p)); [reflexivity|discriminate].
Qed.

Lemma run_matches_current_interpreter_run_witness :
  ModuleRunners.run
    (Constructors.ModuleRunner_init Cases.path_library "/tmp/tmpab12cd/spam-1.0/setup.py"
       ["--quiet"; "--command-packages"; "command"; "extract_dist"])
    Samples.spam_modules Samples.fresh_process
  = current_interpreter_run Cases.path_library "/tmp/tmpab12cd/spam-1.0/setup.py"
      ["--quiet"; "--command-packages"; "command"; "extract_dist"]
      Samples.spam_modules Samples.fresh_process /\
  is_ok (ModuleRunners.run
           (Constructors.ModuleRunner_init Cases.path_library
              "/tmp/tmpab12cd/spam-1.0/Makefile" [])
           (fun _ => Some (Ok Samples.spam_raw)) Samples.fresh_process) = false /\
  is_ok (current_interpreter_run Cases.path_library "/tmp/tmpab12cd/spam-1.0/Makefile" []
           (fun _ => Some (Ok Samples.spam_raw)) Samples.fresh_process) = true.
Proof.
  split; [|split].
  - apply (run_matches_current_interpreter_run Cases.path_library
             "/tmp/tmpab12cd/spam-1.0/setup.py"). reflexivity.
  - apply (run_matches_current_interpreter_run Cases.path_library
             "/tmp/tmpab12cd/spam-1.0/Makefile"). reflexivity.
  - destruct (run_matches_current_interpreter_run Cases.path_library
                "/tmp/tmpab12cd/spam-1.0/Makefile" []
                (fun _ => Some (Ok Samples.spam_raw)) Samples.fresh_process) as (_ & H).
    destruct (H eq_refl) as (_ & H').
    apply (H' (Ok Samples.spam_raw)).
    + reflexivity.
    + vm_compute. reflexivity.
Defined.

(** what a completed run has done *)
Lemma run_inv (self : ModuleRunner) (modules : string -> option descriptor)
    (p p' : Process) :
  ModuleRunners.run self modules p = Ok p' ->
  exists mod_name raw d,
    not_suffixed (filename self) = Some mod_name /\
    modules mod_name = Some (Ok raw) /\
    init raw = Ok d /\
    p' = {| cwd := cwd p; sys_path := dirname self :: sys_path p;
            sys_argv := firstn 1 (sys_argv p) ++ args self;
            extract_dist_class := ExtractDist.run d (extract_dist_class p) |}.
Proof.
  unfold ModuleRunners.run. intros H.
  destruct (not_suffixed (filename self)) as [mod_name|]; [|discriminate].
  destruct (modules mod_name) as [script|] eqn:Hm; [|discriminate].
  bind_inv H cls Hc. unfold run_extract_dist in Hc.
  bind_inv Hc raw Hraw. bind_inv Hc d Hd. inversion Hc; subst cls.
  exists mod_name, raw, d. repeat split; try assumption.
  - rewrite Hm. now rewrite Hraw.
  - now inversion H.
Qed.

(** X8.  What two completed runs in one interpreter leave behind: the
    working directory is the one before the first run; [sys.path] has
    gained the directory of each run, the later one first, and neither is
    taken off again; [sys.argv] holds the arguments of the second run
    only, after the program name that was there; and the handoff slot
    holds the distribution of the second descriptor, coerced. *)
Theorem runs_accumulate (self1 self2 : ModuleRunner)
    (modules1 modules2 : string -> option descriptor) (p p1 p2 : Process) :
  ModuleRunners.run self1 modules1 p = Ok p1 ->
  ModuleRunners.run self2 modules2 p1 = Ok p2 ->
  cwd p2 = cwd p /\
  sys_path p2 = dirname self2 :: dirname self1 :: sys_path p /\
  (sys_argv p <> [] -> sys_argv p2 = firstn 1 (sys_argv p) ++ args self2) /\
  exists mod_name raw d,
    not_suffixed (filename self2) = Some mod_name /\
    modules2 mod_name = Some (Ok raw) /\
    init raw = Ok d /\
    read_class_dist p2 = Ok (SDist d).
Proof.
  intros H1 H2.
  destruct (run_inv _ _ _ _ H1) as (n1 & raw1 & d1 & _ & _ & _ & ->).
  destruct (run_inv _ _ _ _ H2) as (n2 & raw2 & d2 & Hn & Hm & Hd & ->).
  cbn [cwd sys_path sys_argv extract_dist_class].
  split; [reflexivity|]. split; [reflexivity|]. split.
  - intros Hne. destruct (sys_argv p) as [|a0 rest]; [contradiction|]. reflexivity.
  - exists n2, raw2, d2. repeat split; try assumption.
    unfold read_class_dist, class_getattr, ExtractDist.run.
    cbn [extract_dist_class]. now rewrite lookup_insert_eq.
Qed.

Lemma runs_accumulate_witness :
  ModuleRunners.run Samples.spam_runner Samples.spam_modules Samples.spam_process
  = Ok Cases.spam_process_twice /\
  sys_path Cases.spam_process_twice
  = [dirname Samples.spam_runner; dirname Samples.spam_runner] /\
  sys_argv Cases.spam_process_twice = "pyp2rpm" :: args Samples.spam_runner.
Proof.
  assert (H1 : ModuleRunners.run Samples.spam_runner Samples.spam_modules
                 Samples.fresh_process = Ok Samples.spam_process)
    by (vm_compute; reflexivity).
  assert (H2 : ModuleRunners.run Samples.spam_runner Samples.spam_modules
                 Samples.spam_process = Ok Cases.spam_process_twice)
    by (vm_compute; reflexivity).
  destruct (runs_accumulate _ _ _ _ _ _ _ H1 H2) as (_ & Hp & Ha & _).
  split; [exact H2|]. split; [exact Hp|]. apply Ha. discriminate.
Defined.

(** ** module_runners: the text that the out-of-process runner parses *)

Section ExternSegment.

Variable decode_utf8 : string -> result string.
Variable json_loads : string -> result pyval.
Variable main_dir : string.
Variable PYTHON2_INTERPRETER : string.
Variable shell : string -> string -> completed.

(** X9.  Which part of the standard output [ExternModuleRunner.run]
    hands to [json.loads]: when the output does not hold the marker line,
    the whole output; when the marker line stands at one place only,
    everything after it.  Nothing before the marker is parsed, and the
    marker is not required. *)
Theorem extern_run_parses_after_marker (self : ExternModuleRunner)
    (log : list log_record) (text : string) :
  decode_utf8 (stdout (shell (dirname (base self))
                         (join " " (command_list main_dir PYTHON2_INTERPRETER self))))
    = Ok text ->
  let outcome :=
    snd (extern_run decode_utf8 json_loads main_dir PYTHON2_INTERPRETER shell self log) in
  let stored (payload : string) :=
    v ← json_loads payload; Ok {| base := base self; _result := Some v |} in
  (str_in marker text = false -> outcome = stored text) /\
  (forall n, String.index 0 marker text = Some n ->
     str_in marker (Text.drop (n + String.length marker) text) = false ->
     outcome = stored (Text.drop (n + String.length marker) text)).
Proof.
  intros Hd. cbv zeta. unfold extern_run. cbn [snd]. rewrite Hd.
  cbn [mbind result_bind]. split.
  - intros Hno. now rewrite (segment_without_marker _ Hno).
  - intros n Hn Hno.
    rewrite (last_piece_after_single marker text n); [reflexivity | discriminate | exact Hn | exact Hno].
Qed.

End ExternSegment.

Lemma extern_run_parses_after_marker_witness :
  snd (extern_run Samples.decode_ascii Samples.loads_few "/usr/lib/pyp2rpm" "python2"
         Samples.shell_exit_1 Samples.spam_extern [])
  = (v ← Samples.loads_few "{}"; Ok {| base := Samples.spam_runner; _result := Some v |}) /\
  snd (extern_run Samples.decode_ascii Samples.loads_few "/usr/lib/pyp2rpm" "python2"
         Cases.shell_bare Samples.spam_extern [])
  = Ok {| base := Samples.spam_runner; _result := Some (PList []) |}.
Proof.
  split.
  - destruct (extern_run_parses_after_marker Samples.decode_ascii Samples.loads_few
                "/usr/lib/pyp2rpm" "python2" Samples.shell_exit_1 Samples.spam_extern []
                ("warning: no files found" +:+ LF +:+ marker +:+ "{}") eq_refl)
      as (_ & H).
    exact (H 24%nat eq_refl eq_refl).
  - destruct (extern_run_parses_after_marker Samples.decode_ascii Samples.loads_few
                "/usr/lib/pyp2rpm" "python2" Cases.shell_bare Samples.spam_extern []
                "[]" eq_refl) as (H & _).
    exact (H eq_refl).
Defined.

(** ** metadata_extractors: temporary directories *)

Lemma rmtree_mkdtemp (lib : Library) (w : World) (d : string) :
  d ∈ tempdirs (rmtree (fst (mkdtemp lib w)) (snd (mkdtemp lib w))) <->
  d <> temp_name lib (created w) /\ d ∈ tempdirs w.
Proof.
  unfold rmtree, mkdtemp. cbn [fst snd tempdirs].
  rewrite list_elem_of_In, filter_In, <- list_elem_of_In, elem_of_cons.
  rewrite negb_true_iff, String.eqb_neq. intuition congruence.
Qed.

Lemma rmtree_emit (d : string) (r : log_record) (w : World) :
  tempdirs (rmtree d (emit r w)) = tempdirs (rmtree d w).
Proof. reflexivity. Qed.

(** X10.  [SetupPyMetadataExtractor.__init__] leaves no temporary
    directory behind, whether the descriptor was found and ran, raised,
    or was not found: the directory it made is gone on every exit, the
    other directories are as before, and nothing is logged.  Without a
    [setup.py] in the extracted tree the constructor ends in
    [SystemExit(3)]. *)
Theorem SetupPy_init_cleans_up (lib : Library) (base : LocalMetadataExtractor)
    (glob : string -> list string) (modules : string -> option descriptor)
    (p : Process) (w : World) :
  let out := SetupPy_init lib base glob modules p w in
  let temp_dir := temp_name lib (created w) in
  (temp_dir ∉ tempdirs (fst out)) /\
  (forall d, d <> temp_dir -> (d ∈ tempdirs (fst out) <-> d ∈ tempdirs w)) /\
  log (fst out) = log w /\
  (glob (temp_dir +:+ "/" +:+ name base +:+ "*/" +:+ "setup.py") = [] ->
   snd out = Raise (SystemExit 3)).
Proof.
  cbv zeta. unfold SetupPy_init.
  pose proof (rmtree_mkdtemp lib w) as Hd.
  destruct (mkdtemp lib w) as [temp_dir w1] eqn:E. cbn [fst snd] in *.
  assert (Ht : temp_dir = temp_name lib (created w)).
  { unfold mkdtemp in E. now inversion E. }
  assert (Hl : log w1 = log w).
  { unfold mkdtemp in E. now inversion E. }
  split; [|split; [|split]].
  - rewrite Hd. intros [Hne _]. now apply Hne.
  - intros d Hne. rewrite Hd. tauto.
  - exact Hl.
  - intros Hg. rewrite Ht, Hg. reflexivity.
Qed.

Lemma SetupPy_init_cleans_up_witness :
  snd (SetupPy_init Samples.library Samples.spam_local Cases.no_setup_py
         Samples.spam_modules Samples.fresh_process Cases.busy_world)
  = Raise (SystemExit 3) /\
  ("/tmp/tmpzz99yy" ∈ tempdirs
     (fst (SetupPy_init Samples.library Samples.spam_local Cases.no_setup_py
             Samples.spam_modules Samples.fresh_process Cases.busy_world)) <->
   "/tmp/tmpzz99yy" ∈ tempdirs Cases.busy_world).
Proof.
  destruct (SetupPy_init_cleans_up Samples.library Samples.spam_local Cases.no_setup_py
              Samples.spam_modules Samples.fresh_process Cases.busy_world)
    as (_ & Hother & _ & Hexit).
  split.
  - apply Hexit. reflexivity.
  - apply Hother. discriminate.
Defined.

Section OverlayPaths.

Variable settings : Settings.
Variable lib : Library.
Variable collab : Collaborators.

(** X11.  The environment overlay leaves no temporary directory behind
    on any path: whatever the base extraction, the probe and the
    [virtualenv] module do, a directory that exists afterwards existed
    when the base extraction had returned.  When the module is missing or
    the extractor was built with [venv=False], no directory is made at
    all: one debug record is logged and the base record is returned. *)
Theorem venv_overlay_leaves_no_directory (virtualenv : option VirtualenvModule)
    (extraction_fce : LocalMetadataExtractor -> action PackageData)
    (self : LocalMetadataExtractor) (w : World) :
  let out := venv_metadata_extension lib collab virtualenv extraction_fce self w in
  let w1 := fst (extraction_fce self w) in
  (forall d, d ∈ tempdirs (fst out) -> d ∈ tempdirs w1) /\
  (forall data,
     snd (extraction_fce self w) = Ok data ->
     virtualenv = None \/ venv self = false ->
     out = (emit skipping_debug w1, Ok data) /\
     created (fst out) = created w1).
Proof.
  cbv zeta. unfold venv_metadata_extension.
  destruct (extraction_fce self w) as [w1 [data|e]]; cbn [fst snd].
  - split.
    + intros d. destruct virtualenv as [venv_mod|]; [|auto].
      destruct (venv self); [|auto].
      pose proof (rmtree_mkdtemp lib w1 d) as Hd.
      destruct (mkdtemp lib w1) as [temp_dir w2]. cbn [fst snd] in Hd.
      destruct (provision collab venv_mod self temp_dir) as [venv_data|e];
        [cbn [fst]; rewrite Hd; tauto|].
      destruct e; cbn [fst]; rewrite ?rmtree_emit, Hd; tauto.
    + intros data' Hdata Hskip. inversion Hdata; subst data'.
      destruct Hskip as [-> | Hv]; [split; reflexivity|].
      rewrite Hv. destruct virtualenv; split; reflexivity.
  - split; [auto|]. discriminate.
Qed.

(** X12.  The environment overlay, when the probe succeeds: every field
    that the probe reports takes the probe's value, whatever the base
    record held, every other field keeps the value of the base record,
    nothing is logged and the temporary directory is gone. *)
Theorem venv_success_overrides (venv_mod : VirtualenvModule)
    (extraction_fce : LocalMetadataExtractor -> action PackageData)
    (self : LocalMetadataExtractor) (w w1 : World) (data : PackageData)
    (venv_data : list (string * pyval)) :
  extraction_fce self w = (w1, Ok data) ->
  venv self = true ->
  provision collab venv_mod self (temp_name lib (created w1)) = Ok venv_data ->
  exists data',
    snd (venv_metadata_extension lib collab (Some venv_mod) extraction_fce self w)
      = Ok data' /\
    log (fst (venv_metadata_extension lib collab (Some venv_mod) extraction_fce self w))
      = log w1 /\
    (forall field v, last_assigned field venv_data None = Some v ->
       data' !! field = Some v) /\
    (forall field, field ∉ map fst venv_data -> data' !! field = data !! field).
Proof.
  intros Hbase Hvenv Hprobe. unfold venv_metadata_extension.
  rewrite Hbase, Hvenv. cbn [mkdtemp]. cbv zeta. rewrite Hprobe.
  exists (set_from venv_data true data). cbn [fst snd rmtree log].
  split; [reflexivity|]. split; [reflexivity|]. split.
  - intros field v Hv. rewrite set_from_lookup, Hv. reflexivity.
  - intros field Hf. rewrite set_from_lookup.
    assert (Hn : forall before, last_assigned field venv_data before = before).
    { clear Hprobe. induction venv_data as [|[k v] rest IH]; intros before; [reflexivity|].
      cbn [map fst] in Hf. apply not_elem_of_cons in Hf as [Hne Hf].
      cbn [last_assigned]. apply String.eqb_neq in Hne.
      rewrite String.eqb_sym, Hne. now apply IH. }
    now rewrite Hn.
Qed.

End OverlayPaths.

Lemma venv_overlay_leaves_no_directory_witness :
  venv_metadata_extension Samples.library Samples.collaborators None
    Samples.spam_extraction Samples.spam_local Cases.busy_world
  = (emit skipping_debug Cases.busy_world, Ok Samples.spam_record).
Proof.
  destruct (venv_overlay_leaves_no_directory Samples.library Samples.collaborators None
              Samples.spam_extraction Samples.spam_local Cases.busy_world) as (_ & H).
  destruct (H Samples.spam_record eq_refl (or_introl eq_refl)) as (Hout & _).
  exact Hout.
Defined.

Lemma venv_success_overrides_witness :
  exists data',
    snd (venv_metadata_extension Samples.library Samples.collaborators
           (Some Cases.probing_virtualenv) Cases.described_extraction Samples.spam_local
           Samples.quiet_world) = Ok data' /\
    data' !! "has_pth" = Some (PBool false) /\
    data' !! "description" = Some (PStr "Spam, spam, spam").
Proof.
  destruct (venv_success_overrides Samples.library Samples.collaborators
              Cases.probing_virtualenv Cases.described_extraction Samples.spam_local
              Samples.quiet_world Samples.quiet_world Cases.described_record
              [("packages", PSet {[ "spam" ]}); ("has_pth", PBool false)]
              eq_refl eq_refl eq_refl) as (data' & Hout & _ & Hnew & Hold).
  exists data'. split; [exact Hout|]. split.
  - apply Hnew. reflexivity.
  - rewrite Hold.
    + reflexivity.
    + apply (bool_decide_eq_true_1 _). vm_compute. reflexivity.
Defined.

(** ** metadata_extractors: what the registry overlay writes *)

Lemma find_dict_set_eq (k : string) (v : pyval) (d : list (string * pyval)) :
  List.find (fun kv => String.eqb (fst kv) k) (dict_set k v d) = Some (k, v).
Proof.
  induction d as [|[k' v'] d IH]; cbn [dict_set List.find fst].
  - now rewrite String.eqb_refl.
  - destruct (String.eqb k' k) eqn:E; cbn [List.find fst].
    + now rewrite String.eqb_refl.
    + rewrite E. exact IH.
Qed.

Lemma find_dict_set_ne (k k' : string) (v : pyval) (d : list (string * pyval)) :
  k <> k' ->
  List.find (fun kv => String.eqb (fst kv) k) (dict_set k' v d)
  = List.find (fun kv => String.eqb (fst kv) k) d.
Proof.
  intros Hne. induction d as [|[k0 v0] d IH]; cbn [dict_set List.find fst].
  - apply String.eqb_neq in Hne. now rewrite String.eqb_sym, Hne.
  - destruct (String.eqb k0 k') eqn:E; cbn [List.find fst].
    + apply String.eqb_eq in E. subst k0.
      apply String.eqb_neq in Hne. now rewrite String.eqb_sym, Hne.
    + destruct (String.eqb k0 k); [reflexivity | exact IH].
Qed.

Lemma dict_set_keys (k x : string) (v : pyval) (d : list (string * pyval)) :
  In x (map fst (dict_set k v d)) -> x = k \/ In x (map fst d).
Proof.
  induction d as [|[k' v'] d IH]; cbn [dict_set map fst In].
  - intuition.
  - destruct (String.eqb k' k) eqn:E; cbn [map fst In].
    + apply String.eqb_eq in E. subst k'. intuition.
    + intuition.
Qed.

Lemma dict_set_nodup (k : string) (v : pyval) (d : list (string * pyval)) :
  List.NoDup (map fst d) -> List.NoDup (map fst (dict_set k v d)).
Proof.
  induction d as [|[k' v'] d IH]; cbn [dict_set map fst]; intros H.
  - constructor; [intros []|constructor].
  - inversion H as [|? ? Hnin Hnd]; subst.
    destruct (String.eqb k' k) eqn:E; cbn [map fst].
    + apply String.eqb_eq in E. subst k'. now constructor.
    + constructor; [|now apply IH].
      intros Hin. apply dict_set_keys in Hin as [-> | Hin]; [|contradiction].
      now rewrite String.eqb_refl in E.
Qed.

(** on a dictionary, the assignments in the order of its items leave
    under every key the value the dictionary has there *)
Lemma last_assigned_dict (k : string) (d : list (string * pyval))
    (before : option pyval) :
  List.NoDup (map fst d) ->
  last_assigned k d before
  = match List.find (fun kv => String.eqb (fst kv) k) d with
    | Some (_, v) => Some v
    | None => before
    end.
Proof.
  revert before. induction d as [|[k' v'] d IH]; intros before H; [reflexivity|].
  cbn [map fst] in H. inversion H as [|? ? Hnin Hnd]; subst.
  cbn [last_assigned List.find fst]. rewrite (IH _ Hnd).
  destruct (String.eqb k' k) eqn:E; [|reflexivity].
  apply String.eqb_eq in E. subst k'.
  destruct (List.find _ d) as [[k0 v0]|] eqn:Ef; [|reflexivity].
  apply find_some in Ef as [Hin Hk]. cbn [fst] in Hk. apply String.eqb_eq in Hk.
  subst k0. exfalso. apply Hnin. change k with (fst (k, v0)). now apply in_map.
Qed.

Lemma assigned_set_eq (k : string) (v : pyval) (d : list (string * pyval)) :
  List.NoDup (map fst d) -> last_assigned k (dict_set k v d) None = Some v.
Proof.
  intros H. rewrite (last_assigned_dict _ _ _ (dict_set_nodup k v d H)).
  now rewrite find_dict_set_eq.
Qed.

Lemma assigned_set_ne (k k' : string) (v : pyval) (d : list (string * pyval)) :
  List.NoDup (map fst d) -> k <> k' ->
  last_assigned k (dict_set k' v d) None = last_assigned k d None.
Proof.
  intros H Hne. rewrite (last_assigned_dict _ _ _ (dict_set_nodup k' v d H)).
  rewrite (last_assigned_dict _ _ _ H). now rewrite find_dict_set_ne.
Qed.

Section RegistryData.

Variable settings : Settings.
Variable collab : Collaborators.

(** the loop of the overlay over [settings.PYPI_USABLE_DATA] *)
Lemma usable_loop (rel : list (string * pyval)) (fields : list string)
    (d0 : list (string * pyval)) :
  List.NoDup (map fst d0) ->
  exists d,
    for_each (fun d field => v ← py_get (PDict rel) field (PStr ""); Ok (dict_set field v d))
      fields d0 = Ok d /\
    List.NoDup (map fst d) /\
    forall k,
      last_assigned k d None
      = if bool_decide (k ∈ fields) then Some (dict_get k rel (PStr ""))
        else last_assigned k d0 None.
Proof.
  revert d0. induction fields as [|f fields IH]; intros d0 Hnd.
  - exists d0. split; [reflexivity|]. split; [exact Hnd|]. intros k.
    rewrite bool_decide_eq_false_2; [reflexivity | apply not_elem_of_nil].
  - cbn [for_each py_get mbind result_bind].
    destruct (IH (dict_set f (dict_get f rel (PStr "")) d0) (dict_set_nodup _ _ _ Hnd))
      as (d & Hd & Hnd' & Hget).
    exists d. split; [exact Hd|]. split; [exact Hnd'|]. intros k.
    rewrite Hget. destruct (decide (k ∈ fields)) as [Hin | Hnin].
    + rewrite !bool_decide_eq_true_2; [reflexivity | now right | exact Hin].
    + rewrite (bool_decide_eq_false_2 _ Hnin).
      destruct (decide (k = f)) as [-> | Hne].
      * rewrite bool_decide_eq_true_2 by now left. now apply assigned_set_eq.
      * rewrite bool_decide_eq_false_2 by (rewrite elem_of_cons; tauto).
        now apply assigned_set_ne.
Qed.

(** the dictionary that the overlay builds from a release that is a
    dictionary, key by key *)
Lemma pypi_data_dict_assigned (rel : list (string * pyval)) (url md5_digest lic : pyval) :
  license_from_trove collab (dict_get "classifiers" rel (PStr "")) = Ok lic ->
  exists data_dict,
    pypi_data_dict settings collab url md5_digest (PDict rel) = Ok data_dict /\
    List.NoDup (map fst data_dict) /\
    forall k,
      last_assigned k data_dict None
      = if String.eqb k "license" then Some lic
        else if bool_decide (k ∈ PYPI_USABLE_DATA settings)
             then Some (dict_get k rel (PStr ""))
             else last_assigned k [("url", url); ("md5", md5_digest)] None.
Proof.
  intros Hlic. unfold pypi_data_dict.
  assert (Hnd0 : List.NoDup (map fst [("url", url); ("md5", md5_digest)])).
  { cbn [map fst]. constructor; [|constructor; [intros []|constructor]].
    intros [H | []]. discriminate. }
  destruct (usable_loop rel (PYPI_USABLE_DATA settings) _ Hnd0) as (d & Hd & Hnd & Hget).
  rewrite Hd. cbn [mbind result_bind py_get]. rewrite Hlic. cbn [mbind result_bind].
  eexists. split; [reflexivity|]. split; [now apply dict_set_nodup|].
  intros k. destruct (String.eqb k "license") eqn:E.
  - apply String.eqb_eq in E. subst k. now apply assigned_set_eq.
  - apply String.eqb_neq in E. rewrite (assigned_set_ne _ _ _ _ Hnd E). apply Hget.
Qed.

Lemma getitem_of_assigned (k : string) (d : list (string * pyval)) (v : pyval) :
  List.NoDup (map fst d) ->
  last_assigned k d None = Some v -> py_getitem (PDict d) k = Ok v.
Proof.
  intros Hnd H. rewrite (last_assigned_dict _ _ _ Hnd) in H. cbn [py_getitem].
  destruct (List.find _ d) as [[k0 v0]|]; [|discriminate]. now inversion H.
Qed.

Lemma assigned_of_key (k : string) (d : list (string * pyval)) :
  List.NoDup (map fst d) ->
  In k (map fst d) -> exists v, last_assigned k d None = Some v.
Proof.
  intros Hnd Hin. rewrite (last_assigned_dict _ _ _ Hnd).
  destruct (List.find _ d) as [[k0 v0]|] eqn:Ef; [eauto|].
  exfalso. apply in_map_iff in Hin as ([k1 v1] & Hk & Hin). cbn [fst] in Hk. subst k1.
  pose proof (List.find_none _ _ Ef _ Hin) as Hf. cbn [fst] in Hf.
  now rewrite String.eqb_refl in Hf.
Qed.

(** X13.  The dictionary that the registry overlay builds and hands to
    [data.set_from(data_dict, update=True)], when the release is a
    dictionary and [get_url] has answered: under [license] it holds what
    [license_from_trove] reads off the classifiers of the release, never
    the [license] of the release, even if [settings.PYPI_USABLE_DATA]
    lists that field; under every other field of
    [settings.PYPI_USABLE_DATA] the value of the release, and the empty
    string when the release does not have the field; under [url] and
    [md5] the answer of [get_url], unless the settings list these; and it
    has no other key.  Nothing is logged, and the record returned is the
    base record after that call of [set_from].  An exception of
    [license_from_trove] leaves the overlay. *)
Theorem pypi_data_dict_contents
    (extraction_fce : LocalMetadataExtractor -> action PackageData)
    (self : LocalMetadataExtractor) (c : Client) (w w1 : World) (data : PackageData)
    (rel : list (string * pyval)) (url md5_digest : pyval) :
  extraction_fce self w = (w1, Ok data) ->
  release_data c (name self) (version self) = Ok (PDict rel) ->
  get_url c (name self) (version self) = Ok (url, md5_digest) ->
  (forall lic,
     license_from_trove collab (dict_get "classifiers" rel (PStr "")) = Ok lic ->
     exists data_dict,
       pypi_data_dict settings collab url md5_digest (PDict rel) = Ok data_dict /\
       pypi_metadata_extension settings collab extraction_fce self (Some c) w
         = (w1, Ok (set_from data_dict true data)) /\
       py_getitem (PDict data_dict) "license" = Ok lic /\
       (forall field, field ∈ PYPI_USABLE_DATA settings -> field <> "license" ->
          py_getitem (PDict data_dict) field = Ok (dict_get field rel (PStr ""))) /\
       ("url" ∉ PYPI_USABLE_DATA settings ->
        py_getitem (PDict data_dict) "url" = Ok url) /\
       ("md5" ∉ PYPI_USABLE_DATA settings ->
        py_getitem (PDict data_dict) "md5" = Ok md5_digest) /\
       (forall field, In field (map fst data_dict) ->
          field ∈ PYPI_USABLE_DATA settings \/
          field = "url" \/ field = "md5" \/ field = "license")) /\
  (forall e,
     license_from_trove collab (dict_get "classifiers" rel (PStr "")) = Raise e ->
     pypi_metadata_extension settings collab extraction_fce self (Some c) w
       = (w1, Raise e)).
Proof.
  intros Hbase Hrel Hurl. split.
  - intros lic Hlic.
    destruct (pypi_data_dict_assigned rel url md5_digest lic Hlic)
      as (data_dict & Hd & Hnd & Hget).
    exists data_dict. split; [exact Hd|]. split.
    { unfold pypi_metadata_extension. rewrite Hbase, Hrel. cbn [mbind result_bind].
      rewrite Hurl. cbn [mbind result_bind]. rewrite Hd. reflexivity. }
    split; [|split; [|split; [|split]]].
    + apply (getitem_of_assigned _ _ _ Hnd). now rewrite Hget.
    + intros field Hin Hne. apply (getitem_of_assigned _ _ _ Hnd). rewrite Hget.
      apply String.eqb_neq in Hne. rewrite Hne.
      now rewrite (bool_decide_eq_true_2 _ Hin).
    + intros Hnin. apply (getitem_of_assigned _ _ _ Hnd). rewrite Hget.
      now rewrite (bool_decide_eq_false_2 _ Hnin).
    + intros Hnin. apply (getitem_of_assigned _ _ _ Hnd). rewrite Hget.
      now rewrite (bool_decide_eq_false_2 _ Hnin).
    + intros field Hin. destruct (assigned_of_key _ _ Hnd Hin) as (v & Hv).
      rewrite Hget in Hv.
      destruct (String.eqb field "license") eqn:El.
      { apply String.eqb_eq in El. tauto. }
      destruct (decide (field ∈ PYPI_USABLE_DATA settings)) as [Hu | Hu]; [now left|].
      rewrite (bool_decide_eq_false_2 _ Hu) in Hv. cbn [last_assigned] in Hv.
      destruct (String.eqb "md5" field) eqn:Em.
      { apply String.eqb_eq in Em. subst field. tauto. }
      destruct (String.eqb "url" field) eqn:Eu.
      { apply String.eqb_eq in Eu. subst field. tauto. }
      discriminate.
  - intros e He. unfold pypi_metadata_extension. rewrite Hbase, Hrel.
    cbn [mbind result_bind]. rewrite Hurl. cbn [mbind result_bind].
    unfold pypi_data_dict.
    assert (Hnd0 : List.NoDup (map fst [("url", url); ("md5", md5_digest)])).
    { cbn [map fst]. constructor; [|constructor; [intros []|constructor]].
      intros [H | []]. discriminate. }
    destruct (usable_loop rel (PYPI_USABLE_DATA settings) _ Hnd0) as (d & Hd & _ & _).
    rewrite Hd. cbn [mbind result_bind py_get]. now rewrite He.
Qed.

(** X14.  How the two overlays compose in [extract_data]: an exception
    of the base extraction leaves at once, with no log record, no
    directory and no query to the registry; when both overlays fail in
    the way they handle, the caller gets the base record, and the log
    holds the error of the environment overlay and then the warning of
    the registry overlay. *)
Theorem extract_data_composition {Self : Type} (lib : Library)
    (virtualenv : option VirtualenvModule) (ops : Strategy Self)
    (archive_data : Self -> result (list (string * pyval))) (self : Self)
    (client : option Client) (w : World) :
  (forall e,
     extract_data_body collab (local ops self) (archive_data self) = Raise e ->
     extract_data settings lib collab virtualenv ops archive_data self client w
     = (w, Raise e)) /\
  (forall data venv_mod,
     extract_data_body collab (local ops self) (archive_data self) = Ok data ->
     virtualenv = Some venv_mod ->
     venv (local ops self) = true ->
     provision collab venv_mod (local ops self) (temp_name lib (created w))
       = Raise VirtualenvFailException ->
     (client = None \/
      exists c e, client = Some c /\
        release_data c (name (local ops self)) (version (local ops self)) = Raise e) ->
     let out := extract_data settings lib collab virtualenv ops archive_data self client w in
     snd out = Ok data /\
     log (fst out) = log w ++ [skipping_venv; communication_warning] /\
     tempdirs (fst out)
     = List.filter (fun x => negb (String.eqb x (temp_name lib (created w)))) (tempdirs w)).
Proof.
  split.
  - intros e He. unfold extract_data, pypi_metadata_extension, venv_metadata_extension.
    now rewrite He.
  - intros data venv_mod Hd -> Hv Hp Hc. cbv zeta.
    unfold extract_data.
    rewrite (pypi_lookup_failure_keeps_record settings collab _ _ client w
               (rmtree (temp_name lib (created w))
                  (emit skipping_venv (snd (mkdtemp lib w)))) data).
    + cbn [fst snd emit rmtree mkdtemp log tempdirs].
      split; [reflexivity|]. split.
      * now rewrite <- app_assoc.
      * cbn [List.filter]. now rewrite String.eqb_refl.
    + unfold venv_metadata_extension. rewrite Hd, Hv. cbn [mkdtemp]. cbv zeta.
      now rewrite Hp.
    + exact Hc.
Qed.

End RegistryData.

Lemma pypi_data_dict_contents_witness :
  exists data_dict,
    pypi_data_dict Samples.settings Cases.trove_collaborators
      (PStr "https://files.example.org/spam-1.0.tar.gz")
      (PStr "0cc175b9c0f1b6a831c399e269772661")
      (PDict [("name", PStr "spam"); ("summary", PStr "Spam for all");
              ("license", PStr "UNKNOWN");
              ("classifiers", PList [PStr "License :: OSI Approved :: MIT License"])])
      = Ok data_dict /\
    py_getitem (PDict data_dict) "license" = Ok (PStr "MIT") /\
    py_getitem (PDict data_dict) "summary" = Ok (PStr "Spam for all") /\
    py_getitem (PDict data_dict) "description" = Ok (PStr "").
Proof.
  destruct (pypi_data_dict_contents Samples.settings Cases.trove_collaborators
              Cases.described_extraction Samples.spam_local Cases.good_client
              Samples.quiet_world Samples.quiet_world Cases.described_record
              [("name", PStr "spam"); ("summary", PStr "Spam for all");
               ("license", PStr "UNKNOWN");
               ("classifiers", PList [PStr "License :: OSI Approved :: MIT License"])]
              (PStr "https://files.example.org/spam-1.0.tar.gz")
              (PStr "0cc175b9c0f1b6a831c399e269772661")
              eq_refl eq_refl eq_refl) as (Hok & _).
  destruct (Hok (PStr "MIT") eq_refl) as (data_dict & Hd & _ & Hlic & Huse & _).
  exists data_dict. split; [exact Hd|]. split; [exact Hlic|]. split.
  - apply (Huse "summary"); [|discriminate].
    apply (bool_decide_eq_true_1 _). vm_compute. reflexivity.
  - apply (Huse "description"); [|discriminate].
    apply (bool_decide_eq_true_1 _). vm_compute. reflexivity.
Defined.

Lemma extract_data_composition_witness :
  let out :=
    sp_extract_data Samples.settings Samples.library Samples.collaborators
      (Some Samples.failing_virtualenv) Samples.spam_extractor (Some Samples.dead_client)
      Samples.quiet_world in
  snd out = Ok Samples.spam_base /\
  log (fst out) = [skipping_venv; communication_warning] /\
  tempdirs (fst out) = [].
Proof.
  assert (Hb : extract_data_body Samples.collaborators Samples.spam_local
                 (sp_data_from_archive Samples.settings Samples.library
                    Samples.collaborators Samples.spam_extractor) = Ok Samples.spam_base).
  { apply ok_default. vm_compute. reflexivity. }
  destruct (extract_data_composition Samples.settings Samples.collaborators
              Samples.library (Some Samples.failing_virtualenv)
              (SetupPy_strategy Samples.settings Samples.library Samples.collaborators)
              (sp_data_from_archive Samples.settings Samples.library Samples.collaborators)
              Samples.spam_extractor (Some Samples.dead_client) Samples.quiet_world)
    as (_ & H).
  apply (H Samples.spam_base Samples.failing_virtualenv Hb eq_refl eq_refl eq_refl).
  right. exists Samples.dead_client, (OtherError "ProtocolError"). split; reflexivity.
Defined.

(** ** metadata_extractors: the conversion of dependency names *)

Section Conversion.

Variable settings : Settings.
Variable collab : Collaborators.

(** X15.  [name_convert_deps_list] keeps the number and the order of the
    entries; of every entry it replaces the element at index 1, a name,
    by the converted name, and leaves the label before it and whatever
    comes after it as they are.  An entry with fewer than two elements
    makes the whole conversion fail with [IndexError]. *)
Theorem name_convert_deps_list_shape (deps deps' : list pyval) :
  (name_convert_deps_list settings collab deps = Ok deps' ->
   Forall2
     (fun dep dep' =>
        exists kind n rest,
          dep = PList (kind :: PStr n :: rest) /\
          dep' = PList (kind
                         :: PStr (rpm_name collab n (Some (DEFAULT_PYTHON_VERSION settings)))
                         :: rest))
     deps deps') /\
  (forall before short after,
     deps = before ++ PList short :: after ->
     (length short < 2)%nat ->
     is_ok (name_convert_deps_list settings collab before) = true ->
     name_convert_deps_list settings collab deps = Raise IndexError).
Proof.
  split.
  - revert deps'. induction deps as [|dep deps IH]; intros deps' H.
    + inversion H. constructor.
    + cbn [name_convert_deps_list] in H. bind_inv H dep' Hdep. bind_inv H rest' Hrest.
      inversion H; subst deps'. constructor; [|now apply IH].
      unfold convert_dep in Hdep.
      destruct dep as [| | | |l| | |]; try discriminate.
      destruct l as [|kind [|n rest]]; try discriminate.
      destruct n; try discriminate. inversion Hdep. eauto.
  - intros before short after -> Hshort. induction before as [|dep before IH]; intros Hok.
    + cbn [app name_convert_deps_list].
      destruct short as [|x [|y short]]; [reflexivity | reflexivity | simpl in Hshort; lia].
    + cbn [app name_convert_deps_list] in *.
      destruct (convert_dep settings collab dep) as [dep'|]; [|discriminate].
      cbn [mbind result_bind] in *.
      destruct (name_convert_deps_list settings collab before) as [r|]; [|discriminate].
      rewrite IH by reflexivity. reflexivity.
Qed.

End Conversion.

Lemma name_convert_deps_list_shape_witness :
  Forall2
    (fun dep dep' =>
       exists kind n rest,
         dep = PList (kind :: PStr n :: rest) /\
         dep' = PList (kind :: PStr ("python-" +:+ n) :: rest))
    [PList [PStr "Requires"; PStr "six"; PStr ">="; PStr "1.9"]]
    [PList [PStr "Requires"; PStr "python-six"; PStr ">="; PStr "1.9"]] /\
  name_convert_deps_list Samples.settings Samples.collaborators
    [PList [PStr "Requires"; PStr "six"]; PList [PStr "Requires"]] = Raise IndexError.
Proof.
  split.
  - apply (name_convert_deps_list_shape Samples.settings Samples.collaborators
             [PList [PStr "Requires"; PStr "six"; PStr ">="; PStr "1.9"]]).
    reflexivity.
  - apply (proj2 (name_convert_deps_list_shape Samples.settings Samples.collaborators
                    [PList [PStr "Requires"; PStr "six"]; PList [PStr "Requires"]] [])
             [PList [PStr "Requires"; PStr "six"]] [PStr "Requires"] []).
    + reflexivity.
    + simpl. lia.
    + reflexivity.
Defined.

(** ** metadata_extractors: more on the split of documentation files *)

Lemma filter_filter_same {A} (f : A -> bool) (l : list A) :
  List.filter f (List.filter f l) = List.filter f l.
Proof.
  induction l as [|x l IH]; [reflexivity|]. simpl.
  destruct (f x) eqn:E; [|exact IH]. simpl. now rewrite E, IH.
Qed.

Lemma filter_filter_neg {A} (f : A -> bool) (l : list A) :
  List.filter f (List.filter (fun x => negb (f x)) l) = [].
Proof.
  induction l as [|x l IH]; [reflexivity|]. simpl.
  destruct (f x) eqn:E; simpl; [exact IH|]. now rewrite E.
Qed.

Lemma filter_neg_filter {A} (f : A -> bool) (l : list A) :
  List.filter (fun x => negb (f x)) (List.filter f l) = [].
Proof.
  induction l as [|x l IH]; [reflexivity|]. simpl.
  destruct (f x) eqn:E; simpl; [|exact IH]. now rewrite E.
Qed.

Lemma filter_true {A} (f : A -> bool) (l : list A) :
  (forall x, f x = true) -> List.filter f l = l.
Proof.
  intros H. induction l as [|x l IH]; [reflexivity|]. simpl. now rewrite H, IH.
Qed.

Lemma filter_false {A} (f : A -> bool) (l : list A) :
  (forall x, f x = false) -> List.filter f l = [].
Proof.
  intros H. induction l as [|x l IH]; [reflexivity|]. simpl. now rewrite H.
Qed.

Lemma empty_in_every_string (s : string) : str_in "" s = true.
Proof. unfold str_in. destruct s; reflexivity. Qed.

(** X16.  [separate_license_files] is stable and has two degenerate
    configurations: splitting either of the two lists it returns again
    leaves that list whole on its own side; without markers no file is a
    licence file; with the empty string among the markers every file
    is. *)
Theorem separate_license_files_stable (markers doc_files : list string) :
  let other := fst (separate_license_files markers doc_files) in
  let licenses := snd (separate_license_files markers doc_files) in
  separate_license_files markers other = (other, []) /\
  separate_license_files markers licenses = ([], licenses) /\
  separate_license_files [] doc_files = (doc_files, []) /\
  (In "" markers -> separate_license_files markers doc_files = ([], doc_files)).
Proof.
  cbv zeta. unfold separate_license_files. cbn [fst snd].
  split; [|split; [|split]].
  - f_equal.
    + apply filter_filter_same.
    + rewrite (filter_ext _ _
                 (fun doc => forallb_negb_existsb (fun s => str_in s (lower doc)) markers)).
      apply (filter_filter_neg (fun doc => existsb (fun s => str_in s (lower doc)) markers)).
  - f_equal.
    + rewrite (filter_ext _ _
                 (fun doc => forallb_negb_existsb (fun s => str_in s (lower doc)) markers)).
      apply (filter_neg_filter (fun doc => existsb (fun s => str_in s (lower doc)) markers)).
    + apply filter_filter_same.
  - f_equal; [now apply filter_true | now apply filter_false].
  - intros Hin.
    assert (Hall : forall doc, existsb (fun s => str_in s (lower doc)) markers = true).
    { intros doc. apply existsb_exists. exists "". split; [exact Hin|].
      apply empty_in_every_string. }
    f_equal.
    + apply filter_false. intros doc. rewrite forallb_negb_existsb. now rewrite Hall.
    + now apply filter_true.
Qed.

Lemma separate_license_files_stable_witness :
  separate_license_files [""; "license"] ["README.rst"; "LICENSE.txt"]
  = ([], ["README.rst"; "LICENSE.txt"]).
Proof.
  apply (separate_license_files_stable [""; "license"] ["README.rst"; "LICENSE.txt"]).
  left. reflexivity.
Defined.

(** ** Strategy A: the in-place append of [runtime_deps] *)

Section RuntimeOnce.

Variable settings : Settings.
Variable collab : Collaborators.

Lemma set_dist_attr_twice (d : Distribution) (a : string) (v : pyval) :
  set_dist_attr (set_dist_attr d a v) a v = set_dist_attr d a v.
Proof.
  unfold set_dist_attr, setattr. cbn [attrs metadata]. f_equal. apply insert_insert_eq.
Qed.

Lemma sp_install_requires_settled (self : SetupPyMetadataExtractor) (v : pyval) :
  sp_install_requires self = Ok v ->
  sp_install_requires
    {| sp_local := sp_local self;
       distribution := slot_set_attr (distribution self) "install_requires" v |}
  = Ok v.
Proof.
  unfold sp_install_requires, dist_attr. cbn [distribution].
  destruct (distribution self) as [x|d]; [discriminate|]. cbn [slot_set_attr].
  unfold getattr. cbn [set_dist_attr attrs]. unfold setattr.
  rewrite lookup_insert_eq, lookup_insert_ne by discriminate.
  destruct (attrs d !! "install_requires") as [ir|]; [|discriminate].
  cbn [mbind result_bind].
  destruct (attrs d !! "entry_points") as [ep|]; [|discriminate].
  cbn [mbind result_bind].
  destruct (truthy ep); [|now intros H; inversion H].
  destruct (contains "setuptools" ir) as [held|] eqn:Hc; [|discriminate].
  cbn [mbind result_bind]. destruct held; cbn [negb].
  - intros H. inversion H; subst v. now rewrite Hc.
  - intros H. rewrite (contains_appended _ _ _ H). reflexivity.
Qed.

(** X17.  The append that [runtime_deps] of Strategy A makes to the list
    [distribution.install_requires] happens at most once: on the
    extractor that one evaluation has left, a second evaluation gives the
    same dependencies and leaves the extractor as it is. *)
Theorem sp_runtime_deps_settles (self self' : SetupPyMetadataExtractor)
    (rt : list pyval) :
  sp_runtime_deps settings collab self = Ok (rt, self') ->
  sp_runtime_deps settings collab self' = Ok (rt, self').
Proof.
  unfold sp_runtime_deps. intros H.
  bind_inv H ir Hir. cbv zeta in H. bind_inv H deps Hdeps. bind_inv H conv Hconv.
  inversion H; subst rt self'. clear H.
  rewrite (sp_install_requires_settled _ _ Hir). cbn [mbind result_bind]. cbv zeta.
  rewrite Hdeps. cbn [mbind result_bind]. rewrite Hconv. cbn [mbind result_bind].
  cbn [sp_local distribution]. do 3 f_equal.
  destruct (distribution self) as [x|d]; [reflexivity|].
  cbn [slot_set_attr]. now rewrite set_dist_attr_twice.
Qed.

End RuntimeOnce.

Lemma sp_runtime_deps_settles_witness :
  sp_runtime_deps Samples.settings Samples.collaborators Samples.bacon_extractor
    = Ok Cases.bacon_runtime /\
  fst Cases.bacon_runtime = [PList [PStr "Requires"; PStr "python-setuptools"]] /\
  sp_runtime_deps Samples.settings Samples.collaborators (snd Cases.bacon_runtime)
    = Ok Cases.bacon_runtime.
Proof.
  assert (H1 : sp_runtime_deps Samples.settings Samples.collaborators
                 Samples.bacon_extractor = Ok Cases.bacon_runtime).
  { apply ok_default. vm_compute. reflexivity. }
  assert (H2 : fst Cases.bacon_runtime
               = [PList [PStr "Requires"; PStr "python-setuptools"]]).
  { vm_compute. reflexivity. }
  revert H1 H2. generalize Cases.bacon_runtime. intros [rt self'] H1 H2.
  split; [exact H1|]. split; [exact H2|].
  exact (sp_runtime_deps_settles Samples.settings Samples.collaborators _ _ _ H1).
Defined.

(** ** Strategy A: packages, scripts, documentation *)

Lemma split_go_free (c : ascii) (cur x : string) :
  Text.free_of c x -> split_go (String c "") 0 cur x = [String.rev cur +:+ x].
Proof.
  revert cur. induction x as [|a x IH]; intros cur H.
  - cbn [split_go]. now rewrite append_nil_r.
  - apply free_of_cons in H as [Hne Hfree]. cbn [split_go].
    destruct (String.prefix (String c "") (String a x)) eqn:E.
    + apply prefix_char in E. congruence.
    + rewrite (IH _ Hfree). now rewrite rev_cons_append.
Qed.

(** the first piece of a split: it is free of the separator, and the
    string is that piece alone or the piece, the separator and a rest *)
Lemma split_head (c : ascii) (s : string) :
  exists top,
    List.hd "" (split (String c "") s) = top /\
    Text.free_of c top /\
    (s = top \/ exists rest, s = top +:+ String c "" +:+ rest).
Proof.
  pose proof (split_pieces_free c s) as Hfree.
  pose proof (join_split (String c "") s) as Hjoin.
  destruct (split (String c "") s) as [|top pieces] eqn:E.
  - exfalso. exact (split_go_nonempty _ _ _ _ E).
  - exists top. split; [reflexivity|]. split; [apply Hfree; now left|].
    specialize (Hjoin ltac:(discriminate)). unfold join in Hjoin.
    destruct pieces as [|p pieces]; [left; now symmetry|].
    right. exists (String.concat (String c "") (p :: pieces)). now symmetry.
Qed.

Lemma str_set_spec (l : list pyval) (st : gset string) :
  str_set l = Ok st -> forall x, x ∈ st <-> In (PStr x) l.
Proof.
  revert st. induction l as [|v l IH]; intros st H x.
  - inversion H. rewrite elem_of_empty. simpl. tauto.
  - destruct v; try discriminate. cbn [str_set] in H. bind_inv H r Hr.
    inversion H; subst st. rewrite elem_of_union, elem_of_singleton, (IH _ Hr).
    simpl. split; intros [Hx | Hx]; auto; [left; congruence | left; congruence].
Qed.

Lemma map_each_spec {X Y : Type} (f : X -> result Y) (xs : list X) (ys : list Y) :
  map_each f xs = Ok ys -> Forall2 (fun x y => f x = Ok y) xs ys.
Proof.
  revert ys. induction xs as [|x xs IH]; intros ys H.
  - inversion H. constructor.
  - cbn [map_each] in H. destruct (f x) as [y|] eqn:Ey; [|discriminate].
    destruct (map_each f xs) as [ys'|]; [|discriminate].
    inversion H; subst. constructor; auto.
Qed.

(** X18.  What [packages] of Strategy A holds: for every declared
    package the text before its first dot, and nothing else.  No member
    holds a dot, and every member is a declared package itself or is
    followed in one by a dot. *)
Theorem sp_packages_top_level (self : SetupPyMetadataExtractor) (st : gset string) :
  sp_packages self = Ok (PSet st) ->
  exists declared,
    (v ← dist_attr self "packages"; iter v) = Ok declared /\
    (forall top, top ∈ st ->
       Text.free_of "."%char top /\
       exists pkg, In (PStr pkg) declared /\
                   (pkg = top \/ exists rest, pkg = top +:+ "." +:+ rest)) /\
    (forall pkg, In (PStr pkg) declared ->
       exists top, top ∈ st /\
                   (pkg = top \/ exists rest, pkg = top +:+ "." +:+ rest)).
Proof.
  unfold sp_packages. intros H. bind_inv H has Hhas.
  destruct has; [|discriminate].
  bind_inv H v Hv. bind_inv H items Hitems. bind_inv H tops Htops.
  bind_inv H st' Hst. inversion H; subst st'. clear H.
  exists items. split; [rewrite Hv; exact Hitems|].
  pose proof (str_set_spec _ _ Hst) as Hmem.
  pose proof (map_each_spec _ _ _ Htops) as Hall.
  clear Hst Htops Hv Hitems Hhas. split.
  - intros top Hin. apply Hmem in Hin. clear Hmem.
    induction Hall as [|x y xs ys Hxy Hall IH]; [contradiction|].
    destruct Hin as [-> | Hin].
    + destruct x as [| | |s| | | |]; try discriminate.
      unfold top_level in Hxy. cbn [as_str mbind result_bind] in Hxy.
      injection Hxy as Htop.
      destruct (split_head "."%char s) as (top' & Hhd & Hfree & Hshape).
      subst top'. rewrite Htop in Hfree, Hshape. split; [exact Hfree|].
      exists s. split; [now left | exact Hshape].
    + destruct (IH Hin) as (Hfree & pkg & Hpkg & Hshape).
      split; [exact Hfree|]. exists pkg. split; [now right | exact Hshape].
  - intros pkg Hin.
    assert (Hex : exists top, In (PStr top) tops /\
                    (pkg = top \/ exists rest, pkg = top +:+ "." +:+ rest)).
    { clear Hmem. induction Hall as [|x y xs ys Hxy Hall IH]; [contradiction|].
      destruct Hin as [-> | Hin].
      - unfold top_level in Hxy. cbn [as_str mbind result_bind] in Hxy.
        injection Hxy as Htop.
        destruct (split_head "."%char pkg) as (top' & Hhd & _ & Hshape).
        exists top'. split; [left; congruence | exact Hshape].
      - destruct (IH Hin) as (top & Htop & Hshape).
        exists top. split; [now right | exact Hshape]. }
    destruct Hex as (top & Htop & Hshape). exists top. split; [|exact Hshape].
    now apply Hmem.
Qed.

Lemma sp_packages_top_level_witness :
  Text.free_of "."%char "toast" /\
  exists pkg, In (PStr pkg) [PStr "toast"; PStr "toast.core"] /\
              (pkg = "toast" \/ exists rest, pkg = "toast" +:+ "." +:+ rest).
Proof.
  assert (H : sp_packages Samples.toast_extractor = Ok (PSet {[ "toast" ]})).
  { vm_compute. reflexivity. }
  destruct (sp_packages_top_level _ _ H) as (declared & Hd & Htop & _).
  assert (Hdecl : declared = [PStr "toast"; PStr "toast.core"]).
  { vm_compute in Hd. now inversion Hd. }
  subst declared. apply Htop. now apply elem_of_singleton.
Defined.

(** X19.  The name that [doc_files] of Strategy A gives to a file of the
    archive: a path [top/rest] loses its first component and the slash,
    whatever [rest] is; a path without a slash, a file at the top of the
    archive, becomes the empty name. *)
Theorem drop_first_component_cases :
  (forall top rest, Text.free_of "/"%char top ->
     drop_first_component (top +:+ "/" +:+ rest) = rest) /\
  (forall x, Text.free_of "/"%char x -> drop_first_component x = "").
Proof.
  unfold drop_first_component, split. split.
  - intros top rest Hfree.
    change (top +:+ "/" +:+ rest) with (top +:+ String "/" rest).
    rewrite (split_go_first_piece _ _ _ _ Hfree). cbn [List.tl].
    apply join_split. discriminate.
  - intros x Hfree. rewrite (split_go_free _ _ _ Hfree). reflexivity.
Qed.

Lemma drop_first_component_cases_witness :
  drop_first_component "spam-1.0/docs/README.rst" = "docs/README.rst" /\
  drop_first_component "README.rst" = "".
Proof.
  destruct drop_first_component_cases as (Hcut & Hnone). split.
  - apply (Hcut "spam-1.0" "docs/README.rst").
    intros i. do 9 (destruct i as [|i]; [discriminate|]). discriminate.
  - apply (Hnone "README.rst").
    intros i. do 11 (destruct i as [|i]; [discriminate|]). discriminate.
Defined.

Lemma last_shift {A : Type} (a : A) (l : list A) (d : A) :
  List.last (a :: l) d = List.last l a.
Proof.
  revert a d. induction l as [|b l IH]; intros a d; [reflexivity|].
  change (List.last (a :: b :: l) d) with (List.last (b :: l) d).
  now rewrite (IH b d), (IH b a).
Qed.

(** X20.  [sphinx_dir] of Strategy A is the last of the candidate
    directories in which the archive has a [conf.py], in the order in
    which the archive lists the candidates, and [None] when no candidate
    has one. *)
Theorem sp_sphinx_dir_is_last (settings : Settings) (lib : Library)
    (self : SetupPyMetadataExtractor) :
  let candidate_dirs :=
    get_directories_re (archive (sp_local self)) (SPHINX_DIR_RE settings) true in
  let contains_conf_py d :=
    (0 <? length (get_files_re (archive (sp_local self))
                    (re_escape lib d +:+ "/conf.py") false true))%nat in
  sp_sphinx_dir settings lib self
  = List.last (map Some (List.filter contains_conf_py candidate_dirs)) None.
Proof.
  cbv zeta. unfold sp_sphinx_dir.
  generalize (@None string).
  induction (get_directories_re (archive (sp_local self)) (SPHINX_DIR_RE settings) true)
    as [|d l IH]; intros acc; [reflexivity|].
  cbn [fold_left List.filter]. rewrite IH.
  destruct (0 <? _)%nat; [|reflexivity].
  cbn [map]. now rewrite last_shift.
Qed.

(** X21.  The name that [scripts] of Strategy A takes from an entry of
    [console_scripts]: from [name = module:function] the text before the
    first equals sign, stripped; an entry without an equals sign is taken
    whole and is not stripped; an entry that is no string raises
    [AttributeError]. *)
Theorem script_name_cases (lib : Library) :
  (forall name rest, Text.free_of "="%char name ->
     script_name lib (PStr (name +:+ "=" +:+ rest)) = Ok (PStr (str_strip lib name))) /\
  (forall s, Text.free_of "="%char s -> script_name lib (PStr s) = Ok (PStr s)) /\
  (forall v, (forall s, v <> PStr s) -> script_name lib v = Raise AttributeError).
Proof.
  split; [|split].
  - intros name rest Hfree. unfold script_name. cbn [as_str mbind result_bind].
    assert (Hfind : find "=" 0 (name +:+ "=" +:+ rest) = Z.of_nat (String.length name)).
    { apply find_first.
      - lia.
      - pose proof (append_correct2 name ("=" +:+ rest) 0) as Hg.
        cbn [Nat.add] in Hg. rewrite <- Hg. reflexivity.
      - intros i [_ Hi]. rewrite <- (append_correct1 name ("=" +:+ rest) i Hi).
        apply Hfree. }
    cbv zeta. rewrite Hfind.
    replace (Z.of_nat (String.length name) =? -1) with false
      by (symmetry; apply Z.eqb_neq; lia).
    rewrite Nat2Z.id. now rewrite substring_before.
  - intros s Hfree. unfold script_name. cbn [as_str mbind result_bind]. cbv zeta.
    rewrite (find_none "="%char 0 s); [reflexivity|]. intros i _. apply Hfree.
  - intros v Hv. unfold script_name.
    destruct v; try reflexivity. exfalso. exact (Hv s eq_refl).
Qed.

Lemma script_name_cases_witness :
  script_name Samples.library (PStr "bacon=bacon:main") = Ok (PStr "bacon") /\
  script_name Samples.library (PStr "bacon") = Ok (PStr "bacon") /\
  script_name Samples.library PNone = Raise AttributeError.
Proof.
  destruct (script_name_cases Samples.library) as (Hcut & Hwhole & Hbad).
  assert (Hfree : Text.free_of "="%char "bacon").
  { intros i. do 5 (destruct i as [|i]; [discriminate|]). discriminate. }
  split; [|split].
  - apply (Hcut "bacon" "bacon:main" Hfree).
  - apply (Hwhole "bacon" Hfree).
  - apply Hbad. discriminate.
Defined.

(** ** metadata_extractors: more on the base record *)

Ltac dict_eval :=
  cbn [dict_set dict_get last_assigned py_getitem py_append List.find fst snd map
       String.eqb Ascii.eqb Bool.eqb andb mbind result_bind app].
Tactic Notation "dict_eval" "in" hyp(H) :=
  cbn [dict_set dict_get last_assigned py_getitem py_append List.find fst snd map
       String.eqb Ascii.eqb Bool.eqb andb mbind result_bind app] in H.

Section RecordShape.

Variable settings : Settings.
Variable lib : Library.
Variable collab : Collaborators.

Lemma sp_sphinx_dir_after_runtime (self self' : SetupPyMetadataExtractor)
    (rt : list pyval) :
  sp_runtime_deps settings collab self = Ok (rt, self') ->
  sp_sphinx_dir settings lib self' = sp_sphinx_dir settings lib self.
Proof.
  intros H. unfold sp_sphinx_dir.
  now rewrite (sp_local_after_runtime settings collab _ _ _ H).
Qed.

(** X22.  The dictionary of Strategy A and the Sphinx documentation:
    when [sphinx_dir] finds a directory, the dictionary holds it under
    [sphinx_dir] without its first path component, and the build
    dependencies end with [['BuildRequires', 'python-sphinx']]; when it
    finds none, the dictionary has no key [sphinx_dir] and the build
    dependencies are those of the base class.  In both cases they are
    [['BuildRequires', 'python2-devel']] followed by the value [bd] of
    the property [build_deps] of the extractor. *)
Theorem sp_sphinx_build_requirement (self : SetupPyMetadataExtractor)
    (ad : list (string * pyval)) :
  sp_data_from_archive settings lib collab self = Ok ad ->
  exists bd,
    sp_build_deps settings collab self = Ok bd /\
    (forall d, sp_sphinx_dir settings lib self = Some d -> d <> "" ->
       dict_get "sphinx_dir" ad PNone = PStr (drop_first_component d) /\
       dict_get "build_deps" ad PNone
       = PList (PList [PStr "BuildRequires"; PStr "python2-devel"]
                  :: bd ++ [PList [PStr "BuildRequires"; PStr "python-sphinx"]])) /\
    (sp_sphinx_dir settings lib self = None \/ sp_sphinx_dir settings lib self = Some "" ->
       ~ In "sphinx_dir" (map fst ad) /\
       dict_get "build_deps" ad PNone
       = PList (PList [PStr "BuildRequires"; PStr "python2-devel"] :: bd)).
Proof.
  unfold sp_data_from_archive. intros H.
  bind_inv H r Hr. destruct r as [ad0 self'].
  destruct (data_from_archive_inv settings _ _ _ _ Hr)
    as (rt & bd & x3 & x4 & x5 & x6 & x7 & x8 & x9 & x10 & x11 & x12 & x13 & x14 & x15
        & Hrt & Hbd & ->).
  bind_inv H has Hhas. cbv zeta in H. bind_inv H pk Hpk. cbv zeta in H.
  cbn [runtime_deps build_deps SetupPy_strategy] in Hrt, Hbd.
  rewrite (sp_sphinx_dir_after_runtime _ _ _ Hrt) in H.
  exists bd. split.
  { unfold sp_build_deps in *.
    now rewrite <- (sp_build_requires_after_runtime settings collab _ _ _ Hrt). }
  destruct (sp_sphinx_dir settings lib self) as [d|].
  - destruct (String.eqb d "") eqn:E; cbn [negb] in H.
    + apply String.eqb_eq in E. subst d. dict_eval in H. inversion H; subst ad. split.
      * intros d Hd Hne. inversion Hd. congruence.
      * intros _. split; [|reflexivity]. dict_eval. cbn [In].
        intuition discriminate.
    + apply String.eqb_neq in E. dict_eval in H. inversion H; subst ad. split.
      * intros d' Hd _. inversion Hd; subst d'. split; reflexivity.
      * intros [Hn | Hs]; [discriminate | inversion Hs; congruence].
  - dict_eval in H. inversion H; subst ad. split.
    + intros d Hd. discriminate.
    + intros _. split; [|reflexivity]. dict_eval. cbn [In].
      intuition discriminate.
Qed.

(** the tail of [extract_data] when the dictionary of the archive has
    no key [packages] *)
Lemma extract_data_body_no_packages (self : LocalMetadataExtractor)
    (ad : list (string * pyval)) (data : PackageData) :
  extract_data_body collab self (Ok ad) = Ok data ->
  last_assigned "packages" ad None = None ->
  last_assigned "name" ad None = None ->
  pd_getattr data "packages" = PSet {[ name self ]}.
Proof.
  unfold extract_data_body. intros H Hpk Hname. cbv zeta in H.
  bind_inv H ad' Had. inversion Had; subst ad'; clear Had.
  match type of H with context [set_from ad false ?d0] => set (d0' := d0) in * end.
  assert (Hp : set_from ad false d0' !! "packages" = None).
  { rewrite set_from_lookup, Hpk. subst d0'. now destruct (rpm_name_arg self). }
  assert (Hn : set_from ad false d0' !! "name" = Some (PStr (name self))).
  { rewrite set_from_lookup, Hname. subst d0'. now destruct (rpm_name_arg self). }
  set (d := set_from ad false d0') in *.
  bind_inv H d1 H1.
  assert (Hd1 : forall f, f <> "scripts" -> d1 !! f = d !! f).
  { intros f Hf. destruct (d !! "scripts") as [sc|]; [|now inversion H1].
    bind_inv H1 sc' Hsc. inversion H1; subst d1. unfold pd_setattr.
    apply lookup_insert_ne. congruence. }
  assert (Hp1 : pd_getattr d1 "packages" = PStr "TODO:").
  { unfold pd_getattr. rewrite Hd1 by discriminate. now rewrite Hp. }
  assert (Hn1 : pd_getattr d1 "name" = PStr (name self)).
  { unfold pd_getattr. rewrite Hd1 by discriminate. now rewrite Hn. }
  rewrite Hp1, Hn1 in H. cbn [elem_in existsb pyeq String.eqb Ascii.eqb Bool.eqb andb orb] in H.
  inversion H; subst data.
  unfold pd_getattr, pd_setattr. now rewrite lookup_insert_eq.
Qed.

(** X23.  The package set of a record of Strategy B is always the set of
    the source name alone: the dictionary that a wheel gives has no key
    [packages], the field reads as the sentinel, and the fallback of
    [extract_data] fills it. *)
Theorem wh_packages_is_name (self : WheelMetadataExtractor) (data : PackageData) :
  wh_extract_base settings lib collab self = Ok data ->
  pd_getattr data "packages" = PSet {[ name (wh_local self) ]}.
Proof.
  unfold wh_extract_base. intros H.
  destruct (wh_data_from_archive settings lib collab self) as [ad|e] eqn:Had.
  2:{ unfold extract_data_body in H. cbv zeta in H. bind_inv H x Hx. discriminate. }
  unfold wh_data_from_archive in Had. bind_inv Had r Hr. destruct r as [ad0 self'].
  inversion Had; subst ad0.
  destruct (data_from_archive_inv settings _ _ _ _ Hr)
    as (rt & bd & x3 & x4 & x5 & x6 & x7 & x8 & x9 & x10 & x11 & x12 & x13 & x14 & x15
        & Hrt & Hbd & ->).
  apply (extract_data_body_no_packages _ _ _ H); reflexivity.
Qed.

(** X24.  The four fields that identify a record are those the
    extractor was built with, for either strategy: nothing that the
    archive gives is written over [local_file], [name] or [version], and
    [pkg_name] is the [rpm_name] argument of the constructor when there
    is one, and the converted source name otherwise. *)
Theorem base_record_identity :
  let identifies (l : LocalMetadataExtractor) (data : PackageData) :=
    data !! "local_file" = Some (PStr (local_file l)) /\
    data !! "name" = Some (PStr (name l)) /\
    data !! "version" = Some (PStr (version l)) /\
    data !! "pkg_name"
    = Some (PStr (match rpm_name_arg l with
                  | Some r => r
                  | None => rpm_name collab (name l) None
                  end)) in
  (forall (self : SetupPyMetadataExtractor) data,
     sp_extract_base settings lib collab self = Ok data ->
     identifies (sp_local self) data) /\
  (forall (self : WheelMetadataExtractor) data,
     wh_extract_base settings lib collab self = Ok data ->
     identifies (wh_local self) data).
Proof.
  cbv zeta.
  assert (Hkeep : forall (l : LocalMetadataExtractor) ad data,
            extract_data_body collab l (Ok ad) = Ok data ->
            last_assigned "local_file" ad None = None ->
            last_assigned "name" ad None = None ->
            last_assigned "version" ad None = None ->
            last_assigned "pkg_name" ad None = None ->
            data !! "local_file" = Some (PStr (local_file l)) /\
            data !! "name" = Some (PStr (name l)) /\
            data !! "version" = Some (PStr (version l)) /\
            data !! "pkg_name"
            = Some (PStr (match rpm_name_arg l with
                          | Some r => r
                          | None => rpm_name collab (name l) None
                          end))).
  { intros l ad data H H1 H2 H3 H4.
    rewrite !(extract_data_body_keeps collab _ _ _ _ H) by discriminate.
    rewrite !set_from_lookup, H1, H2, H3, H4.
    destruct (rpm_name_arg l); repeat split; reflexivity. }
  split.
  - intros self data H. unfold sp_extract_base in H.
    destruct (sp_data_from_archive settings lib collab self) as [ad|e] eqn:Had.
    2:{ unfold extract_data_body in H. cbv zeta in H. bind_inv H x Hx. discriminate. }
    unfold sp_data_from_archive in Had.
    bind_inv Had r Hr. destruct r as [ad0 self'].
    destruct (data_from_archive_inv settings _ _ _ _ Hr)
      as (rt & bd & x3 & x4 & x5 & x6 & x7 & x8 & x9 & x10 & x11 & x12 & x13 & x14 & x15
          & Hrt & Hbd & ->).
    bind_inv Had has Hhas. cbv zeta in Had. bind_inv Had pk Hpk. cbv zeta in Had.
    destruct (sp_sphinx_dir settings lib self') as [d|];
      [destruct (negb (String.eqb d ""))|];
      dict_eval in Had; inversion Had; subst ad;
      apply (Hkeep _ _ _ H); reflexivity.
  - intros self data H. unfold wh_extract_base in H.
    destruct (wh_data_from_archive settings lib collab self) as [ad|e] eqn:Had.
    2:{ unfold extract_data_body in H. cbv zeta in H. bind_inv H x Hx. discriminate. }
    unfold wh_data_from_archive in Had. bind_inv Had r Hr. destruct r as [ad0 self'].
    inversion Had; subst ad0.
    destruct (data_from_archive_inv settings _ _ _ _ Hr)
      as (rt & bd & x3 & x4 & x5 & x6 & x7 & x8 & x9 & x10 & x11 & x12 & x13 & x14 & x15
          & Hrt & Hbd & ->).
    apply (Hkeep _ _ _ H); reflexivity.
Qed.

End RecordShape.

Lemma sp_sphinx_build_requirement_witness :
  sp_data_from_archive Samples.settings Samples.library Samples.collaborators
    Cases.docs_extractor = Ok Cases.docs_data /\
  dict_get "sphinx_dir" Cases.docs_data PNone = PStr "docs" /\
  exists bd,
    sp_build_deps Samples.settings Samples.collaborators Cases.docs_extractor = Ok bd /\
    dict_get "build_deps" Cases.docs_data PNone
    = PList (PList [PStr "BuildRequires"; PStr "python2-devel"]
               :: bd ++ [PList [PStr "BuildRequires"; PStr "python-sphinx"]]).
Proof.
  assert (H : sp_data_from_archive Samples.settings Samples.library Samples.collaborators
                Cases.docs_extractor = Ok Cases.docs_data).
  { apply ok_default. vm_compute. reflexivity. }
  split; [exact H|].
  destruct (sp_sphinx_build_requirement _ _ _ _ _ H) as (bd & Hbd & Hsome & _).
  destruct (Hsome "spam-1.0/docs") as (Hdir & Hbuild);
    [vm_compute; reflexivity | discriminate |].
  split; [exact Hdir|]. exists bd. split; [exact Hbd | exact Hbuild].
Defined.

Lemma wh_packages_is_name_witness :
  wh_extract_base Samples.settings Samples.library Samples.collaborators Samples.ham_wheel
    = Ok Samples.ham_base /\
  pd_getattr Samples.ham_base "packages" = PSet {[ "ham" ]}.
Proof.
  assert (H : wh_extract_base Samples.settings Samples.library Samples.collaborators
                Samples.ham_wheel = Ok Samples.ham_base).
  { apply ok_default. vm_compute. reflexivity. }
  split; [exact H|]. exact (wh_packages_is_name _ _ _ _ _ H).
Defined.

Lemma base_record_identity_witness :
  Samples.spam_base !! "pkg_name" = Some (PStr "python-spam") /\
  Samples.ham_base !! "version" = Some (PStr "0.3").
Proof.
  assert (Hs : sp_extract_base Samples.settings Samples.library Samples.collaborators
                 Samples.spam_extractor = Ok Samples.spam_base).
  { apply ok_default. vm_compute. reflexivity. }
  assert (Hw : wh_extract_base Samples.settings Samples.library Samples.collaborators
                 Samples.ham_wheel = Ok Samples.ham_base).
  { apply ok_default. vm_compute. reflexivity. }
  destruct (base_record_identity Samples.settings Samples.library Samples.collaborators)
    as (HA & HB).
  split.
  - apply (HA _ _ Hs).
  - apply (HB _ _ Hw).
Defined.

(** ** Strategy B: requirement categories and missing keys *)

Lemma requires_of_group_acc (acc : list pyval) (g : pyval) :
  requires_of_group acc g = (r ← requires_of_group [] g; Ok (acc ++ r)).
Proof.
  unfold requires_of_group.
  destruct (py_get g "environment" (PDict [])) as [env|]; [|reflexivity].
  cbn [mbind result_bind].
  destruct (contains "win" env) as [excluded|]; [|reflexivity].
  cbn [mbind result_bind]. destruct excluded.
  - cbn [mbind result_bind]. now rewrite app_nil_r.
  - destruct (py_getitem g "requires") as [listed|]; [|reflexivity].
    cbn [mbind result_bind]. destruct (iter listed); reflexivity.
Qed.

Lemma group_loop_acc (gs : list pyval) (acc : list pyval) :
  for_each requires_of_group gs acc
  = (r ← for_each requires_of_group gs []; Ok (acc ++ r)).
Proof.
  revert acc. induction gs as [|g gs IH]; intros acc.
  - cbn [for_each mbind result_bind]. now rewrite app_nil_r.
  - cbn [for_each]. rewrite (requires_of_group_acc acc g).
    destruct (requires_of_group [] g) as [r1|]; [|reflexivity].
    cbn [mbind result_bind app]. rewrite (IH (acc ++ r1)), (IH r1).
    destruct (for_each requires_of_group gs []); [|reflexivity].
    cbn [mbind result_bind]. now rewrite app_assoc.
Qed.

Lemma category_loop_acc (self : WheelMetadataExtractor) (ts : list string)
    (acc : list pyval) :
  for_each (requires_of_category self) ts acc
  = (r ← for_each (requires_of_category self) ts []; Ok (acc ++ r)).
Proof.
  revert acc. induction ts as [|t ts IH]; intros acc.
  - cbn [for_each mbind result_bind]. now rewrite app_nil_r.
  - cbn [for_each]. unfold requires_of_category at 1 3.
    destruct (py_get (json_metadata self) t (PList [])) as [groups|]; [|reflexivity].
    cbn [mbind result_bind]. destruct (iter groups) as [each|]; [|reflexivity].
    cbn [mbind result_bind]. rewrite (group_loop_acc each acc).
    destruct (for_each requires_of_group each []) as [r1|]; [|reflexivity].
    cbn [mbind result_bind app]. rewrite (IH (acc ++ r1)), (IH r1).
    destruct (for_each (requires_of_category self) ts []); [|reflexivity].
    cbn [mbind result_bind]. now rewrite app_assoc.
Qed.

Lemma for_each_app {S X : Type} (body : S -> X -> result S) (xs ys : list X) (s : S) :
  for_each body (xs ++ ys) s = (s' ← for_each body xs s; for_each body ys s').
Proof.
  revert s. induction xs as [|x xs IH]; intros s; [reflexivity|].
  cbn [app for_each]. destruct (body s x); [apply IH | reflexivity].
Qed.

(** X25.  [get_requires] is additive in the list of categories: the
    requirements of a concatenation are those of the first part followed
    by those of the second, and an exception of the first part is the
    exception of the whole.  Categories that the metadata file does not
    have give no requirement and no exception. *)
Theorem get_requires_additive (self : WheelMetadataExtractor) :
  (forall types1 types2,
     get_requires self (types1 ++ types2)
     = (a ← get_requires self types1; b ← get_requires self types2; Ok (a ++ b))) /\
  (forall items types,
     json_metadata self = PDict items ->
     (forall t, In t types -> ~ In t (map fst items)) ->
     get_requires self types = Ok []).
Proof.
  split.
  - intros types1 types2. unfold get_requires. rewrite for_each_app.
    destruct (for_each (requires_of_category self) types1 []) as [a|]; [|reflexivity].
    cbn [mbind result_bind]. apply category_loop_acc.
  - intros items types Hjson Habsent. unfold get_requires.
    induction types as [|t types IH]; [reflexivity|].
    cbn [for_each]. unfold requires_of_category at 1. rewrite Hjson.
    cbn [py_get mbind result_bind]. unfold dict_get.
    destruct (List.find _ items) as [[k v]|] eqn:Ef.
    + apply find_some in Ef as [Hin Hk]. cbn [fst] in Hk. apply String.eqb_eq in Hk.
      subst k. exfalso. apply (Habsent t); [now left|].
      change t with (fst (t, v)). now apply in_map.
    + cbn [iter mbind result_bind for_each]. apply IH.
      intros t' Ht'. apply Habsent. now right.
Qed.

Lemma get_requires_additive_witness :
  get_requires Cases.plain_wheel ["run_requires"; "meta_requires"] = Ok [].
Proof.
  apply (proj2 (get_requires_additive Cases.plain_wheel)
           [("name", PStr "jam"); ("version", PStr "2.1"); ("summary", PStr "Jam")]).
  - reflexivity.
  - intros t [<- | [<- | []]]; cbn [map fst In]; intuition discriminate.
Defined.

Lemma dict_get_default (k : string) (items : list (string * pyval)) (default : pyval) :
  ~ In k (map fst items) -> dict_get k items default = default.
Proof.
  intros Hn. unfold dict_get.
  destruct (List.find _ items) as [[k0 v0]|] eqn:Ef; [|reflexivity].
  apply find_some in Ef as [Hin Hk]. cbn [fst] in Hk. apply String.eqb_eq in Hk.
  subst k0. exfalso. apply Hn. change k with (fst (k, v0)). now apply in_map.
Qed.

(** X26.  A wheel whose metadata file lacks the [extensions], or whose
    extensions lack [python.details], has no home page and no
    documentation files, and neither property raises: [home_page] is
    [None] and [doc_files] is empty. *)
Theorem wh_details_default (self : WheelMetadataExtractor)
    (items : list (string * pyval)) :
  json_metadata self = PDict items ->
  (~ In "extensions" (map fst items) \/
   exists extensions,
     dict_get "extensions" items (PDict []) = PDict extensions /\
     ~ In "python.details" (map fst extensions)) ->
  wh_home_page self = Ok PNone /\ wh_doc_files self = Ok [].
Proof.
  intros Hjson Hlack.
  assert (Hd : forall key, details_values self key = Ok []).
  { intros key. unfold details_values. rewrite Hjson. cbn [py_get mbind result_bind].
    destruct Hlack as [Hn | (ext & Hext & Hn)].
    - rewrite (dict_get_default _ _ _ Hn). reflexivity.
    - rewrite Hext. cbn [py_get mbind result_bind].
      rewrite (dict_get_default _ _ _ Hn). reflexivity. }
  unfold wh_home_page, wh_doc_files. rewrite !Hd. split; reflexivity.
Qed.

Lemma wh_details_default_witness :
  wh_home_page Cases.plain_wheel = Ok PNone /\ wh_doc_files Cases.plain_wheel = Ok [].
Proof.
  apply (wh_details_default Cases.plain_wheel
           [("name", PStr "jam"); ("version", PStr "2.1"); ("summary", PStr "Jam")]).
  - reflexivity.
  - left. cbn [map fst In]. intuition discriminate.
Defined.

(** ** The description of the two strategies *)

(** X27.  With a [textwrap.wrap] whose lines hold no line break, the
    two strategies give the same description for the same text: the
    cleaned text, whole.  The cut that [description] of Strategy A makes
    after the threshold never applies, since the cleaned text has no line
    break to cut at. *)
Theorem descriptions_agree (settings : Settings) (lib : Library)
    (collab : Collaborators) (setup_py : SetupPyMetadataExtractor)
    (wheel : WheelMetadataExtractor) (raw : string) :
  (forall text width line,
     In line (textwrap_wrap lib text width) -> Text.free_of LF_char line) ->
  dist_attr setup_py "long_description" = Ok (PStr raw) ->
  wheel_description (archive (wh_local wheel)) = PStr raw ->
  description (SetupPy_strategy settings lib collab) setup_py
    = Ok (PStr (process_description lib raw)) /\
  description (Wheel_strategy settings lib collab) wheel
    = Ok (PStr (process_description lib raw)) /\
  Text.free_of LF_char (process_description lib raw).
Proof.
  intros Hwrap Hlong Hwheel.
  assert (Hc : sp_long_description lib setup_py = Ok (process_description lib raw)).
  { unfold sp_long_description. now rewrite Hlong. }
  split; [|split].
  - cbn [description SetupPy_strategy].
    rewrite (description_whole_after_wrap lib setup_py _
               (fun text width line i Hin => Hwrap text width line Hin i) Hc).
    reflexivity.
  - cbn [description Wheel_strategy]. unfold wh_description. now rewrite Hwheel.
  - intros i. unfold process_description. apply join_no_line_break.
    intros line j Hin. exact (Hwrap _ _ _ Hin j).
Qed.

Lemma descriptions_agree_witness :
  description
    (SetupPy_strategy Samples.settings Cases.line_library Samples.collaborators)
    Samples.long_extractor
  = description
      (Wheel_strategy Samples.settings Cases.line_library Samples.collaborators)
      Cases.plain_wheel.
Proof.
  destruct (descriptions_agree Samples.settings Cases.line_library Samples.collaborators
              Samples.long_extractor Cases.plain_wheel Samples.two_breaks)
    as (HA & HB & _).
  - intros text width line Hin. exact (split_pieces_free LF_char text line Hin).
  - vm_compute. reflexivity.
  - reflexivity.
  - now rewrite HA, HB.
Defined.

(** ** metadata_extractors: interpreter versions and scripts of a record *)

Section RecordFields.

Variable settings : Settings.
Variable lib : Library.
Variable collab : Collaborators.

(** what the base class writes under [scripts] and under the two keys
    for the interpreter versions *)
Lemma data_from_archive_fields {Self : Type} (ops : Strategy Self) (self self' : Self)
    (ad : list (string * pyval)) :
  data_from_archive settings ops self = Ok (ad, self') ->
  exists rt x2 x3 sc x5 x6 x7 x8 x9 x10 x11 py_vers x14 x15,
    runtime_deps ops self = Ok (rt, self') /\
    scripts ops self' = Ok sc /\
    versions_from_archive ops self' = Ok py_vers /\
    ad = [("runtime_deps", PList rt); ("build_deps", PList x2);
          ("py_modules", x3); ("scripts", sc); ("home_page", x5);
          ("description", x6); ("summary", x7); ("license", x8);
          ("has_pth", x9); ("has_extension", x10); ("has_test_suite", x11);
          ("base_python_version",
             match py_vers with
             | v :: _ => v
             | [] => PStr (DEFAULT_PYTHON_VERSION settings)
             end);
          ("python_versions",
             match py_vers with
             | _ :: vs => PList vs
             | [] => PList [PStr (DEFAULT_ADDITIONAL_VERSION settings)]
             end);
          ("doc_files", x14); ("doc_license", x15)].
Proof.
  unfold data_from_archive. intros H.
  bind_inv H r1 H1. destruct r1 as [rt self1].
  bind_inv H bd H2. bind_inv H pm H3. bind_inv H sc H4. bind_inv H hp H5.
  bind_inv H de H6. bind_inv H su H7. bind_inv H li H8. bind_inv H ts H9.
  bind_inv H pv H10. bind_inv H docs H11.
  destruct (separate_license_files (LICENSE_FILES settings) docs) as [other licenses].
  inversion H; subst.
  do 14 eexists. split; [exact H1|]. split; [exact H4|]. split; [exact H10|]. reflexivity.
Qed.

(** the tail of [extract_data] on the field [scripts] *)
Lemma extract_data_body_scripts (self : LocalMetadataExtractor)
    (ad : list (string * pyval)) (data : PackageData) (sc : pyval) :
  extract_data_body collab self (Ok ad) = Ok data ->
  last_assigned "scripts" ad None = Some sc ->
  exists sc', remove_major_minor_suffix collab sc = Ok sc' /\
              data !! "scripts" = Some sc'.
Proof.
  unfold extract_data_body. intros H Hsc. cbv zeta in H.
  bind_inv H ad' Had. inversion Had; subst ad'; clear Had.
  match type of H with context [set_from ad false ?d0] => set (d0' := d0) in * end.
  assert (Hs : set_from ad false d0' !! "scripts" = Some sc).
  { now rewrite set_from_lookup, Hsc. }
  set (d := set_from ad false d0') in *.
  bind_inv H d1 H1. rewrite Hs in H1. bind_inv H1 sc' Hsc'. inversion H1; subst d1.
  exists sc'. split; [exact Hsc'|].
  destruct (elem_in _ _).
  - destruct (pd_getattr _ "name"); try discriminate. inversion H; subst data.
    unfold pd_setattr. rewrite lookup_insert_ne by discriminate.
    apply lookup_insert_eq.
  - inversion H; subst data. unfold pd_setattr. apply lookup_insert_eq.
Qed.

Lemma sp_scripts_after_runtime (self self' : SetupPyMetadataExtractor) (rt : list pyval) :
  sp_runtime_deps settings collab self = Ok (rt, self') ->
  sp_scripts lib self' = sp_scripts lib self.
Proof.
  intros H. unfold sp_scripts.
  rewrite (dist_attr_after_runtime settings collab _ _ _ "scripts" H) by discriminate.
  now rewrite (dist_attr_after_runtime settings collab _ _ _ "entry_points" H)
    by discriminate.
Qed.

Lemma sp_versions_after_runtime (self self' : SetupPyMetadataExtractor)
    (rt : list pyval) :
  sp_runtime_deps settings collab self = Ok (rt, self') ->
  sp_versions_from_archive collab self' = sp_versions_from_archive collab self.
Proof.
  intros H. unfold sp_versions_from_archive.
  now rewrite (dist_attr_after_runtime settings collab _ _ _ "classifiers" H)
    by discriminate.
Qed.

(** what the dictionaries of the two strategies hold under [scripts] and
    under the two keys for the interpreter versions *)
Lemma sp_archive_fields (self : SetupPyMetadataExtractor) (ad : list (string * pyval)) :
  sp_data_from_archive settings lib collab self = Ok ad ->
  exists sc py_vers,
    sp_scripts lib self = Ok sc /\
    sp_versions_from_archive collab self = Ok py_vers /\
    last_assigned "scripts" ad None = Some sc /\
    last_assigned "base_python_version" ad None
    = Some (match py_vers with
            | v :: _ => v
            | [] => PStr (DEFAULT_PYTHON_VERSION settings)
            end) /\
    last_assigned "python_versions" ad None
    = Some (match py_vers with
            | _ :: vs => PList vs
            | [] => PList [PStr (DEFAULT_ADDITIONAL_VERSION settings)]
            end).
Proof.
  unfold sp_data_from_archive. intros H.
  bind_inv H r Hr. destruct r as [ad0 self'].
  destruct (data_from_archive_fields _ _ _ _ Hr)
    as (rt & x2 & x3 & sc & x5 & x6 & x7 & x8 & x9 & x10 & x11 & py_vers & x14 & x15
        & Hrt & Hsc & Hpv & ->).
  cbn [runtime_deps scripts versions_from_archive SetupPy_strategy] in Hrt, Hsc, Hpv.
  rewrite (sp_scripts_after_runtime _ _ _ Hrt) in Hsc.
  rewrite (sp_versions_after_runtime _ _ _ Hrt) in Hpv.
  bind_inv H has Hhas. cbv zeta in H. bind_inv H pk Hpk. cbv zeta in H.
  exists sc, py_vers. split; [exact Hsc|]. split; [exact Hpv|].
  destruct (sp_sphinx_dir settings lib self') as [d|];
    [destruct (negb (String.eqb d ""))|];
    dict_eval in H; injection H as <-; repeat split; reflexivity.
Qed.

Lemma wh_archive_fields (self : WheelMetadataExtractor) (ad : list (string * pyval)) :
  wh_data_from_archive settings lib collab self = Ok ad ->
  exists sc py_vers,
    wh_scripts self = Ok sc /\
    wh_versions_from_archive collab self = Ok py_vers /\
    last_assigned "scripts" ad None = Some sc /\
    last_assigned "base_python_version" ad None
    = Some (match py_vers with
            | v :: _ => v
            | [] => PStr (DEFAULT_PYTHON_VERSION settings)
            end) /\
    last_assigned "python_versions" ad None
    = Some (match py_vers with
            | _ :: vs => PList vs
            | [] => PList [PStr (DEFAULT_ADDITIONAL_VERSION settings)]
            end).
Proof.
  unfold wh_data_from_archive. intros H.
  bind_inv H r Hr. destruct r as [ad0 self']. inversion H; subst ad0.
  destruct (data_from_archive_fields _ _ _ _ Hr)
    as (rt & x2 & x3 & sc & x5 & x6 & x7 & x8 & x9 & x10 & x11 & py_vers & x14 & x15
        & Hrt & Hsc & Hpv & ->).
  cbn [runtime_deps scripts versions_from_archive Wheel_strategy] in Hrt, Hsc, Hpv.
  assert (self' = self) as ->.
  { unfold wh_runtime_deps in Hrt.
    bind_inv Hrt rr Hrr. bind_inv Hrt deps Hdeps. bind_inv Hrt conv Hconv.
    now inversion Hrt. }
  exists sc, py_vers. repeat split; assumption || reflexivity.
Qed.

(** X28.  The interpreter versions of a base record, for either
    strategy: the first version that [versions_from_trove] reads off the
    classifiers is the base version and the others are the additional
    ones, in their order; without any, the record holds the two defaults
    of the settings. *)
Theorem record_python_versions :
  let versions_in (py_vers : list pyval) (data : PackageData) :=
    (py_vers = [] ->
     data !! "base_python_version" = Some (PStr (DEFAULT_PYTHON_VERSION settings)) /\
     data !! "python_versions"
     = Some (PList [PStr (DEFAULT_ADDITIONAL_VERSION settings)])) /\
    (forall v vs, py_vers = v :: vs ->
       data !! "base_python_version" = Some v /\
       data !! "python_versions" = Some (PList vs)) in
  (forall (self : SetupPyMetadataExtractor) data,
     sp_extract_base settings lib collab self = Ok data ->
     exists py_vers, sp_versions_from_archive collab self = Ok py_vers /\
                     versions_in py_vers data) /\
  (forall (self : WheelMetadataExtractor) data,
     wh_extract_base settings lib collab self = Ok data ->
     exists py_vers, wh_versions_from_archive collab self = Ok py_vers /\
                     versions_in py_vers data).
Proof.
  cbv zeta.
  assert (Hrec : forall (l : LocalMetadataExtractor) ad data py_vers,
            extract_data_body collab l (Ok ad) = Ok data ->
            last_assigned "base_python_version" ad None
            = Some (match py_vers with
                    | v :: _ => v
                    | [] => PStr (DEFAULT_PYTHON_VERSION settings)
                    end) ->
            last_assigned "python_versions" ad None
            = Some (match py_vers with
                    | _ :: vs => PList vs
                    | [] => PList [PStr (DEFAULT_ADDITIONAL_VERSION settings)]
                    end) ->
            (py_vers = [] ->
             data !! "base_python_version" = Some (PStr (DEFAULT_PYTHON_VERSION settings)) /\
             data !! "python_versions"
             = Some (PList [PStr (DEFAULT_ADDITIONAL_VERSION settings)])) /\
            (forall v vs, py_vers = v :: vs ->
               data !! "base_python_version" = Some v /\
               data !! "python_versions" = Some (PList vs))).
  { intros l ad data py_vers H Hb Hp.
    rewrite !(extract_data_body_keeps collab _ _ _ _ H) by discriminate.
    rewrite !set_from_lookup, Hb, Hp.
    split; [intros -> | intros v vs ->]; split; reflexivity. }
  split.
  - intros self data H. unfold sp_extract_base in H.
    destruct (sp_data_from_archive settings lib collab self) as [ad|e] eqn:Had.
    2:{ unfold extract_data_body in H. cbv zeta in H. bind_inv H x Hx. discriminate. }
    destruct (sp_archive_fields _ _ Had) as (sc & py_vers & _ & Hpv & _ & Hb & Hp).
    exists py_vers. split; [exact Hpv|]. exact (Hrec _ _ _ _ H Hb Hp).
  - intros self data H. unfold wh_extract_base in H.
    destruct (wh_data_from_archive settings lib collab self) as [ad|e] eqn:Had.
    2:{ unfold extract_data_body in H. cbv zeta in H. bind_inv H x Hx. discriminate. }
    destruct (wh_archive_fields _ _ Had) as (sc & py_vers & _ & Hpv & _ & Hb & Hp).
    exists py_vers. split; [exact Hpv|]. exact (Hrec _ _ _ _ H Hb Hp).
Qed.

(** X29.  The scripts of a base record, for either strategy, are what
    [utils.remove_major_minor_suffix] makes of the scripts that the
    strategy reads off the archive: the dictionary of the archive always
    has the key [scripts], so the function is applied on every
    extraction. *)
Theorem record_scripts_pass_suffix_removal :
  (forall (self : SetupPyMetadataExtractor) data,
     sp_extract_base settings lib collab self = Ok data ->
     exists sc sc',
       sp_scripts lib self = Ok sc /\
       remove_major_minor_suffix collab sc = Ok sc' /\
       data !! "scripts" = Some sc') /\
  (forall (self : WheelMetadataExtractor) data,
     wh_extract_base settings lib collab self = Ok data ->
     exists sc sc',
       wh_scripts self = Ok sc /\
       remove_major_minor_suffix collab sc = Ok sc' /\
       data !! "scripts" = Some sc').
Proof.
  split.
  - intros self data H. unfold sp_extract_base in H.
    destruct (sp_data_from_archive settings lib collab self) as [ad|e] eqn:Had.
    2:{ unfold extract_data_body in H. cbv zeta in H. bind_inv H x Hx. discriminate. }
    destruct (sp_archive_fields _ _ Had) as (sc & py_vers & Hsc & _ & Hs & _).
    destruct (extract_data_body_scripts _ _ _ _ H Hs) as (sc' & Hrm & Hd).
    exists sc, sc'. auto.
  - intros self data H. unfold wh_extract_base in H.
    destruct (wh_data_from_archive settings lib collab self) as [ad|e] eqn:Had.
    2:{ unfold extract_data_body in H. cbv zeta in H. bind_inv H x Hx. discriminate. }
    destruct (wh_archive_fields _ _ Had) as (sc & py_vers & Hsc & _ & Hs & _).
    destruct (extract_data_body_scripts _ _ _ _ H Hs) as (sc' & Hrm & Hd).
    exists sc, sc'. auto.
Qed.

End RecordFields.

Lemma record_python_versions_witness :
  Samples.spam_base !! "base_python_version" = Some (PStr "2") /\
  Samples.ham_base !! "python_versions" = Some (PList [PStr "3"]).
Proof.
  assert (Hs : sp_extract_base Samples.settings Samples.library Samples.collaborators
                 Samples.spam_extractor = Ok Samples.spam_base).
  { apply ok_default. vm_compute. reflexivity. }
  assert (Hw : wh_extract_base Samples.settings Samples.library Samples.collaborators
                 Samples.ham_wheel = Ok Samples.ham_base).
  { apply ok_default. vm_compute. reflexivity. }
  destruct (record_python_versions Samples.settings Samples.library Samples.collaborators)
    as (HA & HB).
  destruct (HA _ _ Hs) as (va & Hva & Hnone_a & _).
  destruct (HB _ _ Hw) as (vb & Hvb & Hnone_b & _).
  assert (va = []) as -> by (vm_compute in Hva; now inversion Hva).
  assert (vb = []) as -> by (vm_compute in Hvb; now inversion Hvb).
  split.
  - apply (Hnone_a eq_refl).
  - apply (Hnone_b eq_refl).
Defined.

Lemma record_scripts_pass_suffix_removal_witness :
  exists sc sc',
    wh_scripts Samples.ham_wheel = Ok sc /\
    remove_major_minor_suffix Samples.collaborators sc = Ok sc' /\
    Samples.ham_base !! "scripts" = Some sc'.
Proof.
  assert (Hw : wh_extract_base Samples.settings Samples.library Samples.collaborators
                 Samples.ham_wheel = Ok Samples.ham_base).
  { apply ok_default. vm_compute. reflexivity. }
  exact (proj2 (record_scripts_pass_suffix_removal Samples.settings Samples.library
                  Samples.collaborators) _ _ Hw).
Defined.

(** ** extract_dist and Strategy A: the requirement lists *)

(** X30.  The coercions of [extract_dist.__init__] make the two
    requirement lists of Strategy A total: on an extractor that holds a
    distribution on which [__init__] has completed, the list handed to
    the normalizer for the runtime dependencies and the one for the
    build dependencies are computed without an exception and are lists,
    and the latter holds [setuptools]. *)
Theorem requirement_lists_after_init (dist dist' : Distribution)
    (self : SetupPyMetadataExtractor) :
  init dist = Ok dist' ->
  distribution self = SDist dist' ->
  (exists l, sp_install_requires self = Ok (PList l)) /\
  (exists l, sp_build_requires self = Ok (PList l) /\ In (PStr "setuptools") l).
Proof.
  intros H Hd. destruct (init_fields _ _ H) as (Hl & _ & _).
  destruct (init_rest _ _ H) as (_ & (ep & _ & Hep) & _).
  assert (Hattr : forall a, a ∈ list_attrs -> exists l, dist_attr self a = Ok (PList l)).
  { intros a Ha. destruct (Hl a Ha) as (v & Hv & Hlk).
    destruct (to_list_is_list _ _ Hv) as (l & ->). exists l.
    unfold dist_attr. rewrite Hd. unfold getattr. now rewrite Hlk. }
  split.
  - destruct (Hattr "install_requires") as (l & Hir).
    { unfold list_attrs. rewrite !elem_of_cons. tauto. }
    unfold sp_install_requires. rewrite Hir. cbn [mbind result_bind].
    unfold dist_attr at 1. rewrite Hd. unfold getattr. rewrite Hep.
    cbn [mbind result_bind].
    generalize (if truthy ep && negb (is_dict ep) then PNone else ep). intros ep'.
    destruct (truthy ep'); [|eauto].
    cbn [contains mbind result_bind].
    destruct (negb (elem_in (PStr "setuptools") l)); cbn [py_append]; eauto.
  - destruct (Hattr "setup_requires") as (a & Ha).
    { unfold list_attrs. rewrite !elem_of_cons. tauto. }
    destruct (Hattr "tests_require") as (b & Hb).
    { unfold list_attrs. rewrite !elem_of_cons. tauto. }
    assert (Hok : exists v, sp_build_requires self = Ok v).
    { unfold sp_build_requires. rewrite Ha, Hb.
      cbn [mbind result_bind py_add contains].
      destruct (negb (elem_in (PStr "setuptools") (a ++ b))); cbn [py_append]; eauto. }
    destruct Hok as (v & Hv).
    destruct (build_requires_is_list _ _ _ _ Ha Hb Hv) as (l & -> & Hin). eauto.
Qed.

Lemma requirement_lists_after_init_witness :
  (exists l, sp_install_requires Samples.spam_extractor = Ok (PList l)) /\
  (exists l, sp_build_requires Samples.spam_extractor = Ok (PList l) /\
             In (PStr "setuptools") l).
Proof.
  assert (H : init Samples.spam_raw = Ok Samples.spam_dist).
  { apply ok_default. vm_compute. reflexivity. }
  exact (requirement_lists_after_init _ _ Samples.spam_extractor H eq_refl).
Defined.

(** * The description and the resolved record *)

(** ** The description is never shortened *)

Lemma split_go_keeps_free (c : ascii) (sep : string) (k : nat) (cur s : string) :
  Text.free_of c (String.rev cur) -> Text.free_of c s ->
  forall piece, In piece (split_go sep k cur s) -> Text.free_of c piece.
Proof.
  revert k cur. induction s as [|a s IH]; intros k cur Hcur Hs piece Hin.
  - cbn [split_go In] in Hin. destruct Hin as [<- | []]. exact Hcur.
  - apply free_of_cons in Hs as [Hne Hs]. cbn [split_go] in Hin.
    destruct k as [|k]; [|exact (IH _ _ Hcur Hs _ Hin)].
    destruct (String.prefix sep (String a s)).
    + destruct Hin as [<- | Hin]; [exact Hcur|].
      exact (IH _ "" (free_of_nil c) Hs _ Hin).
    + exact (IH _ _ (free_of_rev_cons _ _ _ Hne Hcur) Hs _ Hin).
Qed.

Lemma no_breaks_free (s : string) : Text.free_of LF_char (Cases.no_breaks s).
Proof.
  induction s as [|a s IH]; [apply free_of_nil|].
  cbn [Cases.no_breaks]. apply free_of_cons. split; [|exact IH].
  destruct (Ascii.eqb a LF_char) eqn:E; [discriminate|].
  now apply Ascii.eqb_neq in E.
Qed.

Lemma fill_free (width : nat) (cur : string) (words : list string) :
  Text.free_of LF_char cur ->
  (forall word, In word words -> Text.free_of LF_char word) ->
  forall line, In line (Cases.fill width cur words) -> Text.free_of LF_char line.
Proof.
  revert cur. induction words as [|word rest IH]; intros cur Hcur Hwords line Hin.
  - destruct Hin as [<- | []]. exact Hcur.
  - cbn [Cases.fill] in Hin.
    assert (Hrest : forall x, In x rest -> Text.free_of LF_char x)
      by (intros x Hx; apply Hwords; now right).
    assert (Hword : Text.free_of LF_char word) by (apply Hwords; now left).
    destruct (_ <=? _)%nat.
    + apply (IH (cur +:+ " " +:+ word)); [|exact Hrest|exact Hin].
      apply free_of_append. split; [exact Hcur|].
      apply free_of_append. split; [|exact Hword].
      apply free_of_cons. split; [discriminate | apply free_of_nil].
    + destruct Hin as [<- | Hin]; [exact Hcur|].
      exact (IH word Hword Hrest _ Hin).
Qed.

(** the lines of the sample [wrap] hold no line break, whatever the
    text *)
Lemma wrap_lines_free (text : string) (width : nat) (line : string) :
  In line (Cases.wrap text width) -> Text.free_of LF_char line.
Proof.
  unfold Cases.wrap.
  assert (Hwords : forall word,
            In word (List.filter (fun word => negb (String.eqb word ""))
                       (split " " (Cases.no_breaks text))) ->
            Text.free_of LF_char word).
  { intros word Hin. apply filter_In in Hin as [Hin _].
    apply (split_go_keeps_free LF_char " " 0 "" (Cases.no_breaks text));
      [apply free_of_nil | apply no_breaks_free | exact Hin]. }
  destruct (List.filter _ _) as [|word rest]; [intros []|].
  apply fill_free.
  - apply Hwords. now left.
  - intros x Hx. apply Hwords. now right.
Qed.

(** C6.  The code does not do what the claim says.  [textwrap.wrap]
    breaks a text at its white space and gives lines that hold no line
    break, and the cleaned text is these lines joined by blanks.  So the
    cleaned text never holds a line break, the search for one behind the
    threshold never finds any, and [SetupPyMetadataExtractor.description]
    returns the cleaned text whole, however long it is: no description is
    cut and none ends in the truncation marker.  The branch that would
    cut, at the first line break at or behind position 640 and with a
    line break and three dots appended, is there and is never taken. *)
Theorem description_never_shortened (lib : Library) (self : SetupPyMetadataExtractor)
    (c : string) :
  (forall text width line,
     In line (textwrap_wrap lib text width) -> Text.free_of LF_char line) ->
  sp_long_description lib self = Ok c ->
  (exists raw, dist_attr self "long_description" = Ok (PStr raw) /\
               c = process_description lib raw) /\
  Text.free_of LF_char c /\
  sp_description lib self = Ok c /\
  (forall cut : nat,
     sp_description lib self <> Ok (String.substring 0 cut c +:+ LF +:+ "...")) /\
  (forall (s : string) (cut : nat),
     (threshold <= cut)%nat ->
     String.get cut s = Some LF_char ->
     (forall i, (threshold <= i < cut)%nat -> String.get i s <> Some LF_char) ->
     shorten s = String.substring 0 cut s +:+ LF +:+ "...").
Proof.
  intros Hwrap Hc.
  assert (Hfree : Text.free_of LF_char c).
  { destruct (long_description_is_cleaned _ _ _ Hc) as (raw & _ & ->).
    intros i. unfold process_description. apply join_no_line_break.
    intros line n Hin. exact (Hwrap _ _ _ Hin n). }
  assert (Hwhole : sp_description lib self = Ok c).
  { apply description_whole; [exact Hc|]. intros i _. apply Hfree. }
  split; [now apply long_description_is_cleaned|].
  split; [exact Hfree|]. split; [exact Hwhole|]. split.
  - intros cut Heq. rewrite Hwhole in Heq. injection Heq as Heq.
    rewrite Heq in Hfree. apply free_of_append in Hfree as [_ Hfree].
    apply free_of_append in Hfree as [Hfree _].
    exact (Hfree 0%nat eq_refl).
  - exact shorten_cuts.
Qed.

Lemma description_never_shortened_witness :
  String.get 699 Cases.spam_lines = Some LF_char /\
  String.length (Cases.no_breaks Cases.spam_lines) = 769%nat /\
  sp_description Cases.wrap_library Cases.wordy_extractor
  = Ok (Cases.no_breaks Cases.spam_lines).
Proof.
  assert (H : sp_long_description Cases.wrap_library Cases.wordy_extractor
              = Ok (Cases.no_breaks Cases.spam_lines)) by (vm_compute; reflexivity).
  destruct (description_never_shortened Cases.wrap_library Cases.wordy_extractor _
              wrap_lines_free H) as (_ & _ & Hwhole & _).
  split; [vm_compute; reflexivity|]. split; [vm_compute; reflexivity|]. exact Hwhole.
Defined.

(** what the sample [wrap] makes of the long description: ten lines of
    at most eighty characters *)
Example wrap_spam_lines :
  length (Cases.wrap Cases.spam_lines 80) = 10%nat /\
  List.hd "" (Cases.wrap Cases.spam_lines 80)
  = "spam and eggs spam and eggs spam and eggs spam and eggs spam and eggs spam and" /\
  join " " (Cases.wrap Cases.spam_lines 80) = Cases.no_breaks Cases.spam_lines.
Proof. repeat split; vm_compute; reflexivity. Qed.

(** ** The resolved record: what the overlays leave of the base record *)


Section ResolvedFields.

Variable settings : Settings.
Variable lib : Library.
Variable collab : Collaborators.





End ResolvedFields.



(** ** The token [setuptools] in the lists of requirements *)

Section Setuptools.

Variable settings : Settings.
Variable lib : Library.
Variable collab : Collaborators.




End Setuptools.


(** a requirement that names a version of [setuptools] is another token
    than [setuptools], and the token is appended after it *)
Example versioned_setuptools_is_another_token :
  elem_in (PStr "setuptools") [PStr "setuptools>=1.0"] = false.
Proof. reflexivity. Qed.
